(** * MCP-Dynamic-Loader: the tool loader and the Docker facade

    A shallow embedding of [main.py] (the dynamic tool loader) and of
    [tools/docker_tool.py] (the container, image, exec and copy-out tools),
    with the properties of their specification.

    Python values are modelled as follows.
    - [str] is a [string] holding the UTF-8 encoding of the text;
      [bytes] is a [list byte].
    - An exception is a class together with the text [str(e)] yields.
    - A call that may raise returns a [result]; a call that also reads or
      changes the engine or the file system is a state transformer [M].
    - The Docker client object is a record of its methods over an abstract
      engine state; every call made through it is appended to a log. *)

From Stdlib Require Import String Ascii List ZArith NArith Lia Bool.
From Stdlib.Strings Require Import Byte.
From Stdlib Require Import DecimalString.
Import ListNotations.
Open Scope string_scope.

Set Implicit Arguments.
Set Warnings "-register-all".

(* ================================================================== *)
(** * Python runtime *)
(* ================================================================== *)

(** ** Exceptions and results *)

(** The classes the two files tell apart: [except docker.errors.NotFound],
    [except Exception] and the bare [except:]. *)
Inductive exn_class : Type :=
| BaseExceptionOnly      (* KeyboardInterrupt, SystemExit: outside Exception *)
| DockerNotFound         (* docker.errors.NotFound and its subclasses *)
| DockerAPIError         (* any other docker.errors.DockerException *)
| KeyError
| TypeError
| IndexError
| AttributeError
| UnicodeDecodeError
| OSError
| TarError
| ImportError
| OtherException.

Record exn : Type := Exn { exn_cls : exn_class; exn_str : string }.

Inductive result (A : Type) : Type :=
| Ok (a : A)
| Raise (e : exn).
Arguments Ok {A} a.
Arguments Raise {A} e.

(** [isinstance(e, Exception)] *)
Definition is_Exception (e : exn) : bool :=
  match exn_cls e with BaseExceptionOnly => false | _ => true end.

(** [isinstance(e, docker.errors.NotFound)] *)
Definition is_NotFound (e : exn) : bool :=
  match exn_cls e with DockerNotFound => true | _ => false end.

(** ** Text helpers *)

Definition chr (n : nat) : string := String (ascii_of_nat n) EmptyString.
Definition nl : string := chr 10.          (* the escape \n *)
Definition dquote : string := chr 34.
Definition backslash : string := chr 92.

(** Truthiness of a [str]: empty is false. *)
Definition truthy (s : string) : bool :=
  match s with EmptyString => false | String _ _ => true end.

(** Truthiness of an optional [str] argument ([None] or a string). *)
Definition truthy_opt (s : option string) : bool :=
  match s with None => false | Some s => truthy s end.

Definition startswith (s p : string) : bool := String.prefix p s.

Definition endswith (s p : string) : bool :=
  let n := String.length s in
  let k := String.length p in
  (k <=? n)%nat && String.eqb (String.substring (n - k) k s) p.

(** [s[:-k]] on text whose last [k] characters are one byte each. *)
Definition drop_last (k : nat) (s : string) : string :=
  String.substring 0 (String.length s - k) s.

(** [str(n)] for a length and for an [int]. *)
Definition str_nat (n : nat) : string := NilEmpty.string_of_uint (Nat.to_uint n).
Definition str_int (z : Z) : string := NilZero.string_of_int (Z.to_int z).

(** [sep.join(l)] *)
Fixpoint join (sep : string) (l : list string) : string :=
  match l with
  | [] => EmptyString
  | [x] => x
  | x :: rest => x ++ sep ++ join sep rest
  end.

(** [sub in s] *)
Fixpoint contains (s sub : string) : bool :=
  String.prefix sub s
  || match s with
     | EmptyString => false
     | String _ rest => contains rest sub
     end.

Definition hex_digit (d : N) : string :=
  String (ascii_of_N (if (d <? 10)%N then 48 + d else 87 + d)%N) EmptyString.

(** [%02x] of a byte and [{:04x}] of a 16-bit unit. *)
Definition hex2 (b : N) : string :=
  hex_digit (N.shiftr b 4) ++ hex_digit (N.land b 15).
Definition hex4 (u : N) : string :=
  hex2 (N.shiftr u 8) ++ hex2 (N.land u 255).

(** ** UTF-8, as CPython's decoder scans it *)

Inductive utf8_step : Type :=
| U8End                     (* no input left *)
| U8Char (n : nat)          (* a well-formed sequence of n bytes *)
| U8InvalidStart            (* invalid start byte: an error over 1 byte *)
| U8InvalidCont (n : nat)   (* invalid continuation byte: an error over n bytes *)
| U8Truncated.              (* unexpected end of data: an error to the end *)

Definition is_cont (b : N) : bool := ((128 <=? b) && (b <=? 191))%N.

(** One round of the decoder's loop at the head of [s]. *)
Definition utf8_scan (s : list byte) : utf8_step :=
  match map Byte.to_N s with
  | [] => U8End
  | ch :: r =>
    if (ch <? 128)%N then U8Char 1
    else if (ch <? 224)%N then
      if (ch <? 194)%N then U8InvalidStart
      else match r with
           | [] => U8Truncated
           | ch2 :: _ => if is_cont ch2 then U8Char 2 else U8InvalidCont 1
           end
    else if (ch <? 240)%N then
      match r with
      | [] => U8Truncated
      | ch2 :: r2 =>
        if negb (is_cont ch2)
           || (if (ch2 <? 160)%N then (ch =? 224)%N else (ch =? 237)%N)
        then U8InvalidCont 1
        else match r2 with
             | [] => U8Truncated
             | ch3 :: _ => if is_cont ch3 then U8Char 3 else U8InvalidCont 2
             end
      end
    else if (ch <? 245)%N then
      match r with
      | [] => U8Truncated
      | ch2 :: r2 =>
        if negb (is_cont ch2)
           || (if (ch2 <? 144)%N then (ch =? 240)%N else (ch =? 244)%N)
        then U8InvalidCont 1
        else match r2 with
             | [] => U8Truncated
             | ch3 :: r3 =>
               if negb (is_cont ch3) then U8InvalidCont 2
               else match r3 with
                    | [] => U8Truncated
                    | ch4 :: _ =>
                      if is_cont ch4 then U8Char 4 else U8InvalidCont 3
                    end
             end
      end
    else U8InvalidStart
  end.

(** What a [UnicodeDecodeError] records: the offending range and the reason. *)
Record decode_error : Type :=
  DecodeError { de_start : nat; de_end : nat; de_byte : N; de_reason : string }.

(** The first error of [s], scanning from offset [pos]. *)
Fixpoint utf8_first_error (fuel pos : nat) (s : list byte) : option decode_error :=
  match fuel with
  | O => None
  | S fuel' =>
    let b := match s with [] => 0%N | b :: _ => Byte.to_N b end in
    match utf8_scan s with
    | U8End => None
    | U8Char n => utf8_first_error fuel' (pos + n) (skipn n s)
    | U8InvalidStart =>
        Some (DecodeError pos (pos + 1) b "invalid start byte")
    | U8InvalidCont n =>
        Some (DecodeError pos (pos + n) b "invalid continuation byte")
    | U8Truncated =>
        Some (DecodeError pos (pos + List.length s) b "unexpected end of data")
    end
  end.

(** [str(e)] of a [UnicodeDecodeError] of the utf-8 codec. *)
Definition decode_error_str (e : decode_error) : string :=
  if (de_end e =? de_start e + 1)%nat
  then "'utf-8' codec can't decode byte 0x" ++ hex2 (de_byte e)
       ++ " in position " ++ str_nat (de_start e) ++ ": " ++ de_reason e
  else "'utf-8' codec can't decode bytes in position " ++ str_nat (de_start e)
       ++ "-" ++ str_nat (de_end e - 1) ++ ": " ++ de_reason e.

(** [b.decode('utf-8')] *)
Definition decode_utf8 (b : list byte) : result string :=
  match utf8_first_error (List.length b) 0 b with
  | None => Ok (string_of_list_byte b)
  | Some e => Raise (Exn UnicodeDecodeError (decode_error_str e))
  end.

(** The bytes [errors='ignore'] keeps: every error range is dropped and the
    scan resumes after it. *)
Fixpoint utf8_ignore (fuel : nat) (s : list byte) : list byte :=
  match fuel with
  | O => []
  | S fuel' =>
    match utf8_scan s with
    | U8End => []
    | U8Char n => firstn n s ++ utf8_ignore fuel' (skipn n s)
    | U8InvalidStart => utf8_ignore fuel' (skipn 1 s)
    | U8InvalidCont n => utf8_ignore fuel' (skipn n s)
    | U8Truncated => []
    end
  end.

(** [b.decode('utf-8', errors='ignore')] *)
Definition decode_utf8_ignore (b : list byte) : string :=
  string_of_list_byte (utf8_ignore (List.length b) b).

(** The characters of a [str], each as its encoded bytes. *)
Fixpoint utf8_chars (fuel : nat) (s : list byte) : list (list byte) :=
  match fuel with
  | O => []
  | S fuel' =>
    match s with
    | [] => []
    | _ :: _ =>
      let n := match utf8_scan s with U8Char n => n | _ => 1%nat end in
      firstn n s :: utf8_chars fuel' (skipn n s)
    end
  end.

Definition chars_of (s : string) : list (list byte) :=
  let b := list_byte_of_string s in utf8_chars (List.length b) b.

Definition codepoint (c : list byte) : N :=
  match map Byte.to_N c with
  | [a] => a
  | [a; b] => N.lor (N.shiftl (N.land a 31) 6) (N.land b 63)
  | [a; b; c] =>
      N.lor (N.shiftl (N.land a 15) 12)
            (N.lor (N.shiftl (N.land b 63) 6) (N.land c 63))
  | [a; b; c; d] =>
      N.lor (N.shiftl (N.land a 7) 18)
            (N.lor (N.shiftl (N.land b 63) 12)
                   (N.lor (N.shiftl (N.land c 63) 6) (N.land d 63)))
  | _ => 0
  end%N.

(** The characters [str.strip()] removes. *)
Definition is_space (cp : N) : bool :=
  (((9 <=? cp) && (cp <=? 13)) || ((28 <=? cp) && (cp <=? 32))
   || (cp =? 133) || (cp =? 160) || (cp =? 5760)
   || ((8192 <=? cp) && (cp <=? 8202)) || (cp =? 8232) || (cp =? 8233)
   || (cp =? 8239) || (cp =? 8287) || (cp =? 12288))%N.

Fixpoint drop_spaces (l : list (list byte)) : list (list byte) :=
  match l with
  | [] => []
  | c :: rest => if is_space (codepoint c) then drop_spaces rest else l
  end.

(** [s.strip()] *)
Definition strip (s : string) : string :=
  string_of_list_byte
    (concat (rev (drop_spaces (rev (drop_spaces (chars_of s)))))).

(** ** [json.dumps(obj, indent=2)] *)

Inductive json : Type :=
| JNull
| JBool (b : bool)
| JInt (z : Z)
| JStr (s : string)
| JArr (l : list json)
| JObj (l : list (string * json)).

(** One character of a string under [ensure_ascii=True]. *)
Definition json_escape_char (c : list byte) : string :=
  let cp := codepoint c in
  if (cp =? 34)%N then backslash ++ dquote
  else if (cp =? 92)%N then backslash ++ backslash
  else if (cp =? 10)%N then backslash ++ "n"
  else if (cp =? 13)%N then backslash ++ "r"
  else if (cp =? 9)%N then backslash ++ "t"
  else if (cp =? 8)%N then backslash ++ "b"
  else if (cp =? 12)%N then backslash ++ "f"
  else if ((32 <=? cp) && (cp <=? 126))%N then string_of_list_byte c
  else if (cp <? 65536)%N then backslash ++ "u" ++ hex4 cp
  else
    let v := (cp - 65536)%N in
    backslash ++ "u" ++ hex4 (N.lor 55296 (N.land (N.shiftr v 10) 1023))
    ++ backslash ++ "u" ++ hex4 (N.lor 56320 (N.land v 1023)).

Definition json_string (s : string) : string :=
  dquote ++ String.concat EmptyString (map json_escape_char (chars_of s)) ++ dquote.

Fixpoint spaces (n : nat) : string :=
  match n with O => EmptyString | S n' => " " ++ spaces n' end.

(** The encoder at nesting depth [level], with [indent] spaces a level. *)
Fixpoint json_encode (indent level : nat) (j : json) : string :=
  let inner := nl ++ spaces (indent * S level) in
  let outer := nl ++ spaces (indent * level) in
  match j with
  | JNull => "null"
  | JBool true => "true"
  | JBool false => "false"
  | JInt z => str_int z
  | JStr s => json_string s
  | JArr [] => "[]"
  | JArr l =>
      "[" ++ inner
      ++ join ("," ++ inner) (map (json_encode indent (S level)) l)
      ++ outer ++ "]"
  | JObj [] => "{}"
  | JObj l =>
      "{" ++ inner
      ++ join ("," ++ inner)
           (map (fun kv => json_string (fst kv) ++ ": "
                           ++ json_encode indent (S level) (snd kv)) l)
      ++ outer ++ "}"
  end.

Definition json_dumps_indent2 (j : json) : string := json_encode 2 0 j.

(** ** [os.path] on POSIX *)

Fixpoint basename_from (s acc : string) : string :=
  match s with
  | EmptyString => acc
  | String c rest =>
      if Ascii.eqb c "/"%char then basename_from rest EmptyString
      else basename_from rest (acc ++ String c EmptyString)
  end.

(** [os.path.basename(p)]: what follows the last slash. *)
Definition path_basename (p : string) : string := basename_from p EmptyString.

(** [os.path.join(a, b)] *)
Definition path_join (a b : string) : string :=
  if startswith b "/" then b
  else if negb (truthy a) || endswith a "/" then a ++ b
  else a ++ "/" ++ b.

(** ** Values of literal expressions *)

(** What [ast.literal_eval] can return; [POther] stands for the literals
    this development never looks into (floats, complex numbers, bytes,
    sets), kept by their source text. *)
Inductive pyval : Type :=
| PNone
| PBool (b : bool)
| PInt (z : Z)
| PStr (s : string)
| PList (l : list pyval)
| PTuple (l : list pyval)
| PDict (l : list (pyval * pyval))
| POther (src : string).

(** [d[key]] on a JSON object read into fields: a missing key is a
    [KeyError], whose text is the [repr] of the key. *)
Definition subscript {A : Type} (key : string) (field : option A) : result A :=
  match field with
  | Some a => Ok a
  | None => Raise (Exn KeyError ("'" ++ key ++ "'"))
  end.

(* ================================================================== *)
(** * The Docker SDK as the facade sees it *)
(* ================================================================== *)

(** An entry of a container's port table: [{'HostIp': .., 'HostPort': ..}]. *)
Record PortBinding : Type :=
  { pb_HostIp : option string; pb_HostPort : option string }.

Record MountAttrs : Type :=
  { m_Source : option string; m_Destination : option string }.

Record ConfigAttrs : Type :=
  { cfg_Image : option string;
    cfg_Env : option (option (list string)) (* absent, null, or a list *) }.

Record NetworkAttrs : Type :=
  { net_IPAddress : option string; net_MacAddress : option string }.

(** [container.attrs], the engine's inspect document. *)
Record ContainerAttrs : Type :=
  { a_Config : option ConfigAttrs;
    a_Created : option string;
    a_NetworkSettings : option NetworkAttrs;
    a_Mounts : option (list MountAttrs) }.

(** A [Container] object: the properties the tools read. *)
Record Container : Type :=
  { c_name : string;
    c_short_id : string;
    c_status : string;
    c_ports : option (list (string * option (list PortBinding)));
    c_attrs : ContainerAttrs }.

(** An [Image] object. *)
Record Image : Type :=
  { img_tags : list string; img_Size : option Z }.

Record ArchiveStat : Type := { st_name : string; st_size : Z }.

Record TarMember : Type := { tm_name : string; tm_data : list byte }.
Definition TarFile : Type := list TarMember.

(** The calls that leave the process: to the engine, and writes to the
    file system. *)
Inductive event : Type :=
| CallContainersList (all : bool)
| CallContainersGet (ref : string)
| CallContainersRun (image : string) (name : option string) (ports : pyval)
                    (command : option string) (detach : bool)
| CallStart (c : Container)
| CallStop (c : Container)
| CallRestart (c : Container)
| CallRemove (c : Container)
| CallLogs (c : Container) (tail : Z)
| CallImageOf (c : Container)
| CallExecRun (c : Container) (cmd : string) (workdir : option string)
              (demux : bool)
| CallGetArchive (c : Container) (path : string)
| CallImagesList
| CallImagesPull (name : string)
| CallImagesRemove (name : string) (force : bool)
| CallImagesPrune
| FsMakedirs (path : string)
| FsExtractall (path : string).

Definition is_engine_call (ev : event) : bool :=
  match ev with FsMakedirs _ | FsExtractall _ => false | _ => true end.

Definition is_fs_write (ev : event) : bool :=
  match ev with FsMakedirs _ | FsExtractall _ => true | _ => false end.

(** The client object over an engine state [E]: each method takes the
    engine's state and returns its answer and the state it leaves. *)
Record DockerClient (E : Type) : Type :=
  { containers_list : bool -> E -> result (list Container) * E;
    containers_get : string -> E -> result Container * E;
    containers_run : string -> option string -> pyval -> option string ->
                     bool -> E -> result Container * E;
    container_start : Container -> E -> result unit * E;
    container_stop : Container -> E -> result unit * E;
    container_restart : Container -> E -> result unit * E;
    container_remove : Container -> E -> result unit * E;
    container_logs : Container -> Z -> E -> result (list byte) * E;
    container_image : Container -> E -> result Image * E;
    container_exec_run :
      Container -> string -> option string -> bool -> E ->
      result (Z * (option (list byte) * option (list byte))) * E;
    container_get_archive :
      Container -> string -> E -> result (list (list byte) * ArchiveStat) * E;
    images_list : E -> result (list Image) * E;
    images_pull : string -> E -> result Image * E;
    images_remove : string -> bool -> E -> result unit * E;
    images_prune : E -> result unit * E }.

(** The operating system over a file-system state [F]. *)
Record OS (F : Type) : Type :=
  { os_path_exists : string -> F -> bool;
    os_makedirs : string -> F -> result unit * F;   (* exist_ok=True *)
    tarfile_open : list byte -> result TarFile;
    tar_extractall : TarFile -> string -> F -> result unit * F }.

(** ** The monad of calls that may raise and change a state *)

Definition M (W A : Type) : Type := W -> result A * W.

Section Monad.
Context {W : Type}.

Definition ret {A} (a : A) : M W A := fun w => (Ok a, w).

Definition raise {A} (e : exn) : M W A := fun w => (Raise e, w).

Definition bind {A B} (m : M W A) (k : A -> M W B) : M W B :=
  fun w => match m w with
           | (Ok a, w') => k a w'
           | (Raise e, w') => (Raise e, w')
           end.

(** A computation that touches nothing. *)
Definition lift {A} (r : result A) : M W A := fun w => (r, w).

(** [try: body  except <catches> as e: handler e] *)
Definition try_except {A} (body : M W A) (catches : exn -> bool)
           (handler : exn -> M W A) : M W A :=
  fun w => match body w with
           | (Ok a, w') => (Ok a, w')
           | (Raise e, w') => if catches e then handler e w' else (Raise e, w')
           end.
End Monad.

(** ** The world of the Docker tools *)

Record World (E F : Type) : Type :=
  mkWorld { w_engine : E; w_fs : F; w_log : list event }.

Section WorldCalls.
Context {E F : Type}.

(** A method call on the client: logged, and run on the engine. *)
Definition engine_call {A} (ev : event) (op : E -> result A * E)
  : M (World E F) A :=
  fun w => let (r, e') := op (w_engine w) in
           (r, mkWorld e' (w_fs w) (w_log w ++ [ev])).

(** A write to the file system: logged, and run on it. *)
Definition fs_write {A} (ev : event) (op : F -> result A * F)
  : M (World E F) A :=
  fun w => let (r, f') := op (w_fs w) in
           (r, mkWorld (w_engine w) f' (w_log w ++ [ev])).

(** A read of the file system. *)
Definition fs_read {A} (op : F -> A) : M (World E F) A :=
  fun w => (Ok (op (w_fs w)), w).
End WorldCalls.

Declare Scope py_scope.
Delimit Scope py_scope with py.
Notation "x <- c1 ;; c2" := (bind c1 (fun x => c2))
  (at level 61, c1 at next level, right associativity) : py_scope.
Notation "c1 ;;; c2" := (bind c1 (fun _ => c2))
  (at level 61, right associativity) : py_scope.
Open Scope py_scope.

Definition catch_Exception : exn -> bool := is_Exception.
Definition catch_all : exn -> bool := fun _ => true.
Definition catch_NotFound : exn -> bool := is_NotFound.

(** ** Validity of captured bytes *)

Definition in_range (lo hi b : N) : bool := ((lo <=? b) && (b <=? hi))%N.

(** Well-formed UTF-8 byte sequences, as the Unicode Standard tabulates
    them (Table 3-7): one byte 00..7F; C2..DF and a trail byte; E0 A0..BF,
    E1..EC, ED 80..9F or EE..EF and trail bytes to three; F0 90..BF, F1..F3
    or F4 80..8F and trail bytes to four. A trail byte is 80..BF. *)
Fixpoint well_formed_utf8 (s : list byte) : bool :=
  match s with
  | [] => true
  | b0 :: r0 =>
    let x0 := Byte.to_N b0 in
    if in_range 0 127 x0 then well_formed_utf8 r0
    else
      match r0 with
      | [] => false
      | b1 :: r1 =>
        let x1 := Byte.to_N b1 in
        if in_range 194 223 x0 then in_range 128 191 x1 && well_formed_utf8 r1
        else
          match r1 with
          | [] => false
          | b2 :: r2 =>
            let x2 := Byte.to_N b2 in
            if (x0 =? 224)%N then
              in_range 160 191 x1 && in_range 128 191 x2 && well_formed_utf8 r2
            else if in_range 225 236 x0 || in_range 238 239 x0 then
              in_range 128 191 x1 && in_range 128 191 x2 && well_formed_utf8 r2
            else if (x0 =? 237)%N then
              in_range 128 159 x1 && in_range 128 191 x2 && well_formed_utf8 r2
            else
              match r2 with
              | [] => false
              | b3 :: r3 =>
                let x3 := Byte.to_N b3 in
                if (x0 =? 240)%N then
                  in_range 144 191 x1 && in_range 128 191 x2
                  && in_range 128 191 x3 && well_formed_utf8 r3
                else if in_range 241 243 x0 then
                  in_range 128 191 x1 && in_range 128 191 x2
                  && in_range 128 191 x3 && well_formed_utf8 r3
                else if (x0 =? 244)%N then
                  in_range 128 143 x1 && in_range 128 191 x2
                  && in_range 128 191 x3 && well_formed_utf8 r3
                else false
              end
          end
      end
  end.

(** The decoder finds no error. *)
Definition no_error (r : option decode_error) : bool :=
  match r with None => true | Some _ => false end.

Definition valid_utf8 (b : list byte) : bool :=
  no_error (utf8_first_error (List.length b) 0 b).

(** A captured stream ([None] or bytes) that holds bytes that are not
    valid UTF-8. *)
Definition stream_invalid (x : option (list byte)) : bool :=
  match x with
  | Some b => negb (well_formed_utf8 b)
  | None => false
  end.

(* ================================================================== *)
(** * tools/docker_tool.py *)
(* ================================================================== *)

(** Module initialisation: [try: _client = docker.from_env()] and
    [except Exception: _client = None]. *)
Definition init_client {E : Type} (from_env : result (DockerClient E))
  : result (option (DockerClient E)) :=
  match from_env with
  | Ok cl => Ok (Some cl)
  | Raise e => if catch_Exception e then Ok None else Raise e
  end.

Definition not_connected : string :=
  "❌ Docker 服务未连接，请检查是否挂载了 /var/run/docker.sock".

Definition ports_format_error : string :=
  "❌ 端口格式错误，请使用 JSON 格式，例如: {'80/tcp': 8080}".

Definition local_dir : string := "/AstrBot/data/data_temp".

Section Facade.
Context {E F : Type}.

(** The module's global client, [None] when [docker.from_env()] failed. *)
Variable _client : option (DockerClient E).

(** The operating system the module runs on. *)
Variable os : OS F.

(** [ast.literal_eval], Python's parser of literal expressions. *)
Variable literal_eval : string -> result pyval.

(** The text of [round(size / (1024*1024), 1)], a float. *)
Variable fmt_size_mb : Z -> string.

Abbreviation Act := (M (World E F)).

(** ** Helpers *)

Definition _check_client : string :=
  match _client with
  | None => not_connected                     (* if not _client *)
  | Some _ => EmptyString
  end.

(** Reading an attribute of [_client]; on [None] Python raises. *)
Definition client_attr (attr : string) : Act (DockerClient E) :=
  match _client with
  | Some cl => ret cl
  | None =>
      raise (Exn AttributeError
                 ("'NoneType' object has no attribute '" ++ attr ++ "'"))
  end.

(** ** Container life cycle *)

(** [", ".join([f"{k}->{v[0]['HostPort']}" for k, v in c.ports.items() if v])
    if c.ports else "-"] *)
Fixpoint ports_entries (items : list (string * option (list PortBinding)))
  : result (list string) :=
  match items with
  | [] => Ok []
  | (k, v) :: rest =>
      match v with
      | Some (b :: _) =>                        (* v is truthy *)
          match subscript "HostPort" (pb_HostPort b) with
          | Ok hp =>
              match ports_entries rest with
              | Ok l => Ok ((k ++ "->" ++ hp) :: l)
              | Raise e => Raise e
              end
          | Raise e => Raise e
          end
      | _ => ports_entries rest
      end
  end.

Definition ports_text (c : Container) : result string :=
  match c_ports c with
  | Some ((_ :: _) as items) =>
      match ports_entries items with
      | Ok l => Ok (join ", " l)
      | Raise e => Raise e
      end
  | _ => Ok "-"
  end.

(** [c.image.tags[0] if c.image.tags else 'none']: the [image] property
    asks the engine each time it is read. *)
Definition image_tag_or_none (cl : DockerClient E) (c : Container)
  : Act string :=
  img <- engine_call (CallImageOf c) (container_image cl c) ;;
  match img_tags img with
  | [] => ret "none"
  | _ :: _ =>
      img' <- engine_call (CallImageOf c) (container_image cl c) ;;
      match img_tags img' with
      | t :: _ => ret t
      | [] => raise (Exn IndexError "list index out of range")
      end
  end.

(** The body of [for c in containers]. *)
Fixpoint list_loop (cl : DockerClient E) (containers : list Container)
         (result : string) : Act string :=
  match containers with
  | [] => ret result
  | c :: rest =>
      let status_icon :=
        if String.eqb (c_status c) "running" then "🟢" else "🔴" in
      ports <- lift (ports_text c) ;;
      tag <- image_tag_or_none cl c ;;
      list_loop cl rest
        (result ++ status_icon ++ " **" ++ c_name c ++ "**" ++ nl
           ++ "   ID: " ++ c_short_id c ++ " | Stat: " ++ c_status c
           ++ " | img: " ++ tag ++ nl)
  end.

Definition docker_list_containers (all : bool) : Act string :=
  let err := _check_client in
  if truthy err then ret err else
  try_except
    (cl <- client_attr "containers" ;;
     containers <- engine_call (CallContainersList all)
                               (containers_list cl all) ;;
     match containers with
     | [] => ret "📭 暂无容器。"
     | _ :: _ =>
         list_loop cl containers
           ("📦 **容器列表 (" ++ str_nat (List.length containers) ++ ")**:" ++ nl)
     end)
    catch_Exception
    (fun e => ret ("❌ 查询失败: " ++ exn_str e)).

Definition docker_container_action (container_name action : string)
  : Act string :=
  let err := _check_client in
  if truthy err then ret err else
  try_except
    (cl <- client_attr "containers" ;;
     container <- engine_call (CallContainersGet container_name)
                              (containers_get cl container_name) ;;
     if String.eqb action "start" then
       engine_call (CallStart container) (container_start cl container) ;;;
       ret ("▶️ 容器 `" ++ c_name container ++ "` 已启动。")
     else if String.eqb action "stop" then
       engine_call (CallStop container) (container_stop cl container) ;;;
       ret ("ww⏹️ 容器 `" ++ c_name container ++ "` 已停止。")
     else if String.eqb action "restart" then
       engine_call (CallRestart container) (container_restart cl container) ;;;
       ret ("🔄 容器 `" ++ c_name container ++ "` 已重启。")
     else if String.eqb action "remove" then
       try_except
         (engine_call (CallStop container) (container_stop cl container))
         catch_all
         (fun _ => ret tt) ;;;
       engine_call (CallRemove container) (container_remove cl container) ;;;
       ret ("🗑️ 容器 `" ++ c_name container ++ "` 已删除。")
     else
       ret ("❌ 未知操作: " ++ action))
    catch_Exception
    (fun e => ret ("❌ 操作失败: " ++ exn_str e)).

Definition docker_run_container (image : string) (name ports command : option string)
  : Act string :=
  let err := _check_client in
  if truthy err then ret err else
  try_except
    (parsed <-
       match ports with
       | Some p =>
           if truthy p then
             try_except
               (ports_dict <- lift (literal_eval p) ;; ret (inr ports_dict))
               catch_all
               (fun _ => ret (inl ports_format_error))
           else ret (inr (PDict []))
       | None => ret (inr (PDict []))
       end ;;
     match parsed with
     | inl early => ret early
     | inr ports_dict =>
         cl <- client_attr "containers" ;;
         container <-
           engine_call (CallContainersRun image name ports_dict command true)
                       (containers_run cl image name ports_dict command true) ;;
         ret ("✅ 容器创建并启动成功！" ++ nl ++ "Name: " ++ c_name container
                ++ nl ++ "ID: " ++ c_short_id container)
     end)
    catch_Exception
    (fun e => ret ("❌ 创建容器失败: " ++ exn_str e)).

(** [[m['Source'] + ":" + m['Destination'] for m in c.attrs['Mounts']]] *)
Fixpoint mounts_view (mounts : list MountAttrs) : result (list string) :=
  match mounts with
  | [] => Ok []
  | m :: rest =>
      match subscript "Source" (m_Source m) with
      | Raise e => Raise e
      | Ok src =>
          match subscript "Destination" (m_Destination m) with
          | Raise e => Raise e
          | Ok dst =>
              match mounts_view rest with
              | Raise e => Raise e
              | Ok l => Ok ((src ++ ":" ++ dst) :: l)
              end
          end
      end
  end.

(** [x[:5]] where [x] is a list or [None]. *)
Definition slice5 (env : option (list string)) : result (list string) :=
  match env with
  | Some l => Ok (firstn 5 l)
  | None => Raise (Exn TypeError "'NoneType' object is not subscriptable")
  end.

(** The dictionary [info], its entries evaluated in source order. *)
Definition inspect_info (c : Container) : result json :=
  let attrs := c_attrs c in
  match subscript "Config" (a_Config attrs) with Raise e => Raise e | Ok cfg =>
  match subscript "Image" (cfg_Image cfg) with Raise e => Raise e | Ok image =>
  match subscript "Created" (a_Created attrs) with Raise e => Raise e | Ok created =>
  match subscript "NetworkSettings" (a_NetworkSettings attrs) with Raise e => Raise e | Ok net =>
  match subscript "IPAddress" (net_IPAddress net) with Raise e => Raise e | Ok ip =>
  match subscript "NetworkSettings" (a_NetworkSettings attrs) with Raise e => Raise e | Ok net' =>
  match subscript "MacAddress" (net_MacAddress net') with Raise e => Raise e | Ok mac =>
  match subscript "Mounts" (a_Mounts attrs) with Raise e => Raise e | Ok mounts =>
  match mounts_view mounts with Raise e => Raise e | Ok mounts_l =>
  match subscript "Config" (a_Config attrs) with Raise e => Raise e | Ok cfg' =>
  match subscript "Env" (cfg_Env cfg') with Raise e => Raise e | Ok env =>
  match slice5 env with Raise e => Raise e | Ok env5 =>
    Ok (JObj [ ("ID", JStr (c_short_id c));
               ("Image", JStr image);
               ("Status", JStr (c_status c));
               ("Created", JStr created);
               ("IP", JStr ip);
               ("MacAddress", JStr mac);
               ("Mounts", JArr (map JStr mounts_l));
               ("Env", JArr (map JStr env5)) ])
  end end end end end end end end end end end end.

Definition docker_inspect_container (container_name : string) : Act string :=
  let err := _check_client in
  if truthy err then ret err else
  try_except
    (cl <- client_attr "containers" ;;
     c <- engine_call (CallContainersGet container_name)
                      (containers_get cl container_name) ;;
     info <- lift (inspect_info c) ;;
     ret ("🔍 **容器详情 (" ++ c_name c ++ ")**:" ++ nl ++ "```json" ++ nl
            ++ json_dumps_indent2 info ++ nl ++ "```"))
    catch_Exception
    (fun e => ret ("❌ 获取详情失败: " ++ exn_str e)).

Definition docker_get_logs (container_name : string) (lines : Z) : Act string :=
  let err := _check_client in
  if truthy err then ret err else
  try_except
    (cl <- client_attr "containers" ;;
     c <- engine_call (CallContainersGet container_name)
                      (containers_get cl container_name) ;;
     raw <- engine_call (CallLogs c lines) (container_logs cl c lines) ;;
     let logs := decode_utf8_ignore raw in
     ret ("📜 **" ++ c_name c ++ " Logs**:" ++ nl ++ "```" ++ nl
            ++ logs ++ nl ++ "```"))
    catch_Exception
    (fun e => ret ("❌ Log Error: " ++ exn_str e)).

(** ** Images *)

(** The body of [for img in images]. *)
Fixpoint images_loop (images : list Image) (res : string) : result string :=
  match images with
  | [] => Ok res
  | img :: rest =>
      let tags := match img_tags img with t :: _ => t | [] => "<none>" end in
      match subscript "Size" (img_Size img) with
      | Raise e => Raise e
      | Ok size =>
          images_loop rest
            (res ++ "- " ++ tags ++ " (" ++ fmt_size_mb size ++ "MB)" ++ nl)
      end
  end.

Definition docker_list_images : Act string :=
  let err := _check_client in
  if truthy err then ret err else
  try_except
    (cl <- client_attr "images" ;;
     images <- engine_call CallImagesList (images_list cl) ;;
     match images with
     | [] => ret "📭 无本地镜像。"
     | _ :: _ => lift (images_loop images ("💿 **镜像列表**:" ++ nl))
     end)
    catch_Exception
    (fun e => ret ("❌ Error: " ++ exn_str e)).

Definition docker_pull_image (image_name : string) : Act string :=
  let err := _check_client in
  if truthy err then ret err else
  try_except
    (cl <- client_attr "images" ;;
     img <- engine_call (CallImagesPull image_name) (images_pull cl image_name) ;;
     match img_tags img with
     | t :: _ => ret ("✅ 拉取成功: " ++ t)
     | [] => raise (Exn IndexError "list index out of range")
     end)
    catch_Exception
    (fun e => ret ("❌ 拉取失败: " ++ exn_str e)).

Definition docker_delete_image (image_name : string) (force : bool) : Act string :=
  let err := _check_client in
  if truthy err then ret err else
  try_except
    (cl <- client_attr "images" ;;
     engine_call (CallImagesRemove image_name force)
                 (images_remove cl image_name force) ;;;
     ret ("🗑️ 镜像已删除: " ++ image_name))
    catch_Exception
    (fun e => ret ("❌ 删除失败: " ++ exn_str e)).

Definition docker_reset_image (image_name : string) : Act string :=
  let err := _check_client in
  if truthy err then ret err else
  try_except
    (cl <- client_attr "images" ;;
     engine_call (CallImagesPull image_name) (images_pull cl image_name) ;;;
     try_except
       (engine_call CallImagesPrune (images_prune cl))
       catch_all
       (fun _ => ret tt) ;;;
     ret ("🔄 镜像 " ++ image_name ++ " 已重置为最新版。"))
    catch_Exception
    (fun e => ret ("❌ 重置失败: " ++ exn_str e)).

(** ** Copying a file out *)

Definition docker_copy_from_container (container_name src_path : string)
  : Act string :=
  let err := _check_client in
  if truthy err then ret err else
  try_except
    (cl <- client_attr "containers" ;;
     container <- engine_call (CallContainersGet container_name)
                              (containers_get cl container_name) ;;
     (* 1. the local directory that receives the file *)
     present <- fs_read (os_path_exists os local_dir) ;;
     (if negb present
      then fs_write (FsMakedirs local_dir) (os_makedirs os local_dir)
      else ret tt) ;;;
     (* 2. the archive, a tar stream *)
     fetched <-
       try_except
         (bits_stat <- engine_call (CallGetArchive container src_path)
                         (container_get_archive cl container src_path) ;;
          ret (inr (fst bits_stat)))
         catch_NotFound
         (fun _ => ret (inl ("❌ 容器内未找到文件: " ++ src_path))) ;;
     match fetched with
     | inl early => ret early
     | inr bits =>
         (* 3. unpack it from memory *)
         let file_obj := List.concat bits in
         tar <- lift (tarfile_open os file_obj) ;;
         fs_write (FsExtractall local_dir) (tar_extractall os tar local_dir) ;;;
         let extracted_filename := path_basename src_path in
         let local_file_path := path_join local_dir extracted_filename in
         ret ("✅ 文件已提取到本地: " ++ local_file_path)
     end)
    catch_Exception
    (fun e => ret ("❌ 提取文件失败: " ++ exn_str e)).

(** ** Running commands inside a container *)

(** [x.decode('utf-8') if x else ""] for a captured stream. *)
Definition decode_stream (x : option (list byte)) : result string :=
  match x with
  | Some ((_ :: _) as b) => decode_utf8 b
  | _ => Ok EmptyString
  end.

Definition docker_exec_run (container_name command : string)
           (workdir : option string) : Act string :=
  let err := _check_client in
  if truthy err then ret err else
  try_except
    (cl <- client_attr "containers" ;;
     container <- engine_call (CallContainersGet container_name)
                              (containers_get cl container_name) ;;
     if negb (String.eqb (c_status container) "running") then
       ret ("❌ 容器 `" ++ c_name container ++ "` 未运行，无法执行命令。")
     else
       res <- engine_call (CallExecRun container command workdir true)
                (container_exec_run cl container command workdir true) ;;
       let exit_code := fst res in
       let output := snd res in
       stdout <- lift (decode_stream (fst output)) ;;
       stderr <- lift (decode_stream (snd output)) ;;
       let result := "💻 **执行结果 (Exit Code: " ++ str_int exit_code ++ ")**:" ++ nl in
       let result :=
         if truthy stdout
         then result ++ "--- Stdout ---" ++ nl ++ stdout ++ nl else result in
       let result :=
         if truthy stderr
         then result ++ "--- Stderr ---" ++ nl ++ stderr ++ nl else result in
       let result :=
         if negb (truthy stdout) && negb (truthy stderr)
         then result ++ "(无输出)" else result in
       ret (strip result))
    catch_Exception
    (fun e => ret ("❌ 执行失败: " ++ exn_str e)).

Definition docker_pip_install (container_name packages : string) : Act string :=
  let err := _check_client in
  if truthy err then ret err else
  let pip_cmd :=
    "pip install " ++ packages ++ " "
    ++ "-i https://pypi.tuna.tsinghua.edu.cn/simple "
    ++ "--default-timeout=100 "
    ++ "--trusted-host pypi.tuna.tsinghua.edu.cn" in
  docker_exec_run container_name pip_cmd None.

End Facade.

(** The text one container adds to the listing, given its image tag. *)
Definition listing_line (c : Container) (tag : string) : string :=
  (if String.eqb (c_status c) "running" then "🟢" else "🔴")
  ++ " **" ++ c_name c ++ "**" ++ nl
  ++ "   ID: " ++ c_short_id c ++ " | Stat: " ++ c_status c
  ++ " | img: " ++ tag ++ nl.

(** A mount the engine describes in full, from its source and
    destination. *)
Definition mount_of (sd : string * string) : MountAttrs :=
  {| m_Source := Some (fst sd); m_Destination := Some (snd sd) |}.

(* ================================================================== *)
(** * main.py *)
(* ================================================================== *)

(** A function object, by the two attributes the loader and the server
    read. *)
Record PyFunction : Type :=
  { fn___module__ : string; fn___name__ : string }.

(** An imported module: its [__name__] and what
    [inspect.getmembers(module, inspect.isfunction)] lists. *)
Record PyModule : Type :=
  { mod___name__ : string; mod_functions : list (string * PyFunction) }.

(** An entry of the server's tool table. *)
Record ToolDescriptor : Type :=
  { tool_name : string; tool_handler : PyFunction; tool_sourceModule : string }.

(** What the loader changes: [sys.path], the server's tool table (one
    entry per name, in the order of registration) and the lines printed
    to [sys.stderr]. *)
Record LoaderState : Type :=
  mkLoader { sys_path : list string;
             tools : list ToolDescriptor;
             stderr : list string }.

(** The table entry of a function exposed without an explicit name: it
    goes under the function's own name. *)
Definition describe (func : PyFunction) : ToolDescriptor :=
  {| tool_name := fn___name__ func;
     tool_handler := func;
     tool_sourceModule := fn___module__ func |}.

(** The server's tool manager keeps one entry per name: a function
    offered under a name that is taken leaves the table as it is (the
    manager's warning goes to the [mcp] logger, which line 12 silences). *)
Definition registered (name : string) (table : list ToolDescriptor) : bool :=
  existsb (fun entry => String.eqb (tool_name entry) name) table.

Definition add_tool (table : list ToolDescriptor) (entry : ToolDescriptor)
  : list ToolDescriptor :=
  if registered (tool_name entry) table then table else table ++ [entry].

Section Loader.
(** [os.path.dirname(__file__)] *)
Variable here : string.
(** [os.path.exists] and [os.listdir] *)
Variable path_exists : string -> bool.
Variable listdir : string -> result (list string).
(** [importlib.import_module] *)
Variable import_module : string -> result PyModule.
(** The server's check of a function it is asked to expose: it accepts
    the function or raises. *)
Variable tool_check : PyFunction -> result unit.

Abbreviation Load := (M LoaderState).

Definition print_stderr (line : string) : Load unit :=
  fun st => (Ok tt, mkLoader (sys_path st) (tools st) (stderr st ++ [line])).

(** [mcp.tool()(func)]: the server builds the entry of the function,
    under the function's own name, which may raise, and then adds it to
    its table. *)
Definition mcp_tool (func : PyFunction) : Load unit :=
  fun st =>
    match tool_check func with
    | Raise e => (Raise e, st)
    | Ok _ =>
        (Ok tt, mkLoader (sys_path st) (add_tool (tools st) (describe func))
                         (stderr st))
    end.

Definition ensure_sys_path : Load unit :=
  fun st =>
    if existsb (String.eqb here) (sys_path st) then (Ok tt, st)
    else (Ok tt, mkLoader (sys_path st ++ [here]) (tools st) (stderr st)).

(** The test of the inner [if]. *)
Definition qualifies (module : PyModule) (member : string * PyFunction) : bool :=
  String.eqb (fn___module__ (snd member)) (mod___name__ module)
  && negb (startswith (fst member) "_").

(** [for name, func in inspect.getmembers(module, inspect.isfunction)] *)
Fixpoint register_members (module : PyModule)
         (members : list (string * PyFunction)) : Load unit :=
  match members with
  | [] => ret tt
  | member :: rest =>
      (if qualifies module member then mcp_tool (snd member) else ret tt) ;;;
      register_members module rest
  end.

(** The test of the outer [if]. *)
Definition is_tool_file (filename : string) : bool :=
  endswith filename ".py" && negb (startswith filename "__").

(** The body of [for filename in os.listdir(tools_dir)]. *)
Definition load_file (filename : string) : Load unit :=
  if is_tool_file filename then
    let module_name := drop_last 3 filename in
    try_except
      (ensure_sys_path ;;;
       module <- lift (import_module ("tools." ++ module_name)) ;;
       register_members module (mod_functions module))
      catch_Exception
      (fun e => print_stderr ("  ❌ Error loading " ++ filename ++ ": " ++ exn_str e))
  else ret tt.

Fixpoint load_files (filenames : list string) : Load unit :=
  match filenames with
  | [] => ret tt
  | filename :: rest => load_file filename ;;; load_files rest
  end.

Definition load_tools_dynamic : Load unit :=
  let tools_dir := path_join here "tools" in
  if negb (path_exists tools_dir) then
    print_stderr ("⚠️ Warning: " ++ tools_dir ++ " directory not found.")
  else
    filenames <- lift (listdir tools_dir) ;;
    load_files filenames.

(** ** What one file contributes, read off the file alone *)

(** The functions of [module] that pass the inner test, in the order
    [getmembers] lists them. *)
Definition qualifying (module : PyModule) : list PyFunction :=
  map snd (filter (qualifies module) (mod_functions module)).

(** Offering [funcs] in order: the entries built before the first
    function the server rejects, and that rejection if there is one. *)
Fixpoint accepted_prefix (funcs : list PyFunction)
  : list ToolDescriptor * option exn :=
  match funcs with
  | [] => ([], None)
  | f :: rest =>
      match tool_check f with
      | Raise e => ([], Some e)
      | Ok _ => let (entries, failure) := accepted_prefix rest in
                (describe f :: entries, failure)
      end
  end.

Definition file_outcome (filename : string) : list ToolDescriptor * option exn :=
  if is_tool_file filename then
    match import_module ("tools." ++ drop_last 3 filename) with
    | Raise e => ([], Some e)
    | Ok module => accepted_prefix (qualifying module)
    end
  else ([], None).

Definition file_tools (filename : string) : list ToolDescriptor :=
  fst (file_outcome filename).

Definition file_failure (filename : string) : option exn :=
  snd (file_outcome filename).

(** The line a file adds to the error stream: one for a failure the
    loader catches, none otherwise. *)
Definition file_errors (filename : string) : list string :=
  match file_failure filename with
  | Some e =>
      if is_Exception e
      then ["  ❌ Error loading " ++ filename ++ ": " ++ exn_str e]
      else []
  | None => []
  end.

(** The loop goes on after [filename]: the file did not fail, or failed
    with an [Exception]. *)
Definition goes_on (filename : string) : bool :=
  match file_failure filename with
  | Some e => is_Exception e
  | None => true
  end.
End Loader.

(** The table after the server was offered [entries] in order. *)
Definition register_all (table entries : list ToolDescriptor)
  : list ToolDescriptor :=
  fold_left add_tool entries table.

(** The first entry of [table] under [name]. *)
Definition lookup_tool (name : string) (table : list ToolDescriptor)
  : option ToolDescriptor :=
  find (fun entry => String.eqb (tool_name entry) name) table.

(* ================================================================== *)
(** * The port mapping of the specification *)
(* ================================================================== *)

Definition is_digit (c : ascii) : bool :=
  let n := nat_of_ascii c in (48 <=? n)%nat && (n <=? 57)%nat.

Definition is_letter (c : ascii) : bool :=
  let n := nat_of_ascii c in
  ((65 <=? n)%nat && (n <=? 90)%nat) || ((97 <=? n)%nat && (n <=? 122)%nat).

Fixpoint all_chars (p : ascii -> bool) (s : string) : bool :=
  match s with
  | EmptyString => true
  | String c rest => p c && all_chars p rest
  end.

Fixpoint split_at_slash (s acc : string) : option (string * string) :=
  match s with
  | EmptyString => None
  | String c rest =>
      if Ascii.eqb c "/"%char then Some (acc, rest)
      else split_at_slash rest (acc ++ String c EmptyString)
  end.

(** The key of the specification's port mapping: [<port>/<protocol>], a
    run of digits, a slash and a run of letters. *)
Definition spec_port_key (s : string) : bool :=
  match split_at_slash s EmptyString with
  | Some (port, proto) =>
      truthy port && all_chars is_digit port
      && truthy proto && all_chars is_letter proto
  | None => false
  end.

(** The specification's port mapping: a mapping from such keys to host
    port integers. *)
Definition spec_port_mapping (v : pyval) : bool :=
  match v with
  | PDict entries =>
      forallb (fun kv => match kv with
                         | (PStr k, PInt _) => spec_port_key k
                         | _ => false
                         end) entries
  | _ => false
  end.

(** [portsSpec] decodes to a port mapping under the parser [parse]. *)
Definition decodes_to_port_mapping (parse : string -> result pyval)
           (ports : string) : bool :=
  match parse ports with
  | Ok v => spec_port_mapping v
  | Raise _ => false
  end.

(* ================================================================== *)
(** * A parser of literal expressions

    [literal_eval_core] agrees with [ast.literal_eval] on the texts made
    of spaces, the names None, True and False, unsigned decimal integers,
    quoted strings without backslashes, and list and dict displays of
    such. On every other text it raises, which Python does not always do
    (floats, tuples, signs); the theorems therefore quantify over the
    parser and only the scenarios below run this one. *)
(* ================================================================== *)

Inductive token : Type :=
| TLBrace | TRBrace | TLBrack | TRBrack | TColon | TComma
| TInt (z : Z)
| TStr (s : string)
| TName (s : string).

Fixpoint take_while (p : ascii -> bool) (s : string) : string * string :=
  match s with
  | EmptyString => (EmptyString, EmptyString)
  | String c rest =>
      if p c then let (a, b) := take_while p rest in (String c a, b)
      else (EmptyString, s)
  end.

(** The text up to the closing quote [q]; no backslash, no line break. *)
Fixpoint take_quoted (q : ascii) (s : string) : option (string * string) :=
  match s with
  | EmptyString => None
  | String c rest =>
      if Ascii.eqb c q then Some (EmptyString, rest)
      else if Ascii.eqb c (ascii_of_nat 92) || Ascii.eqb c (ascii_of_nat 10)
      then None
      else match take_quoted q rest with
           | Some (a, b) => Some (String c a, b)
           | None => None
           end
  end.

Fixpoint digits_value (s : string) (acc : Z) : Z :=
  match s with
  | EmptyString => acc
  | String c rest => digits_value rest (10 * acc + Z.of_nat (nat_of_ascii c - 48))
  end.

Definition starts_with_word_char (s : string) : bool :=
  match s with
  | EmptyString => false
  | String c _ =>
      is_digit c || is_letter c || Ascii.eqb c "_"%char || Ascii.eqb c "."%char
  end.

Fixpoint tokenize (fuel : nat) (s : string) : option (list token) :=
  match fuel with
  | O => None
  | S fuel' =>
    match s with
    | EmptyString => Some []
    | String c rest =>
      let cons t r := match tokenize fuel' r with
                      | Some l => Some (t :: l)
                      | None => None
                      end in
      if Ascii.eqb c " "%char then tokenize fuel' rest
      else if Ascii.eqb c "{"%char then cons TLBrace rest
      else if Ascii.eqb c "}"%char then cons TRBrace rest
      else if Ascii.eqb c "["%char then cons TLBrack rest
      else if Ascii.eqb c "]"%char then cons TRBrack rest
      else if Ascii.eqb c ":"%char then cons TColon rest
      else if Ascii.eqb c ","%char then cons TComma rest
      else if Ascii.eqb c "'"%char || Ascii.eqb c (ascii_of_nat 34) then
        match take_quoted c rest with
        | Some (body, r) => cons (TStr body) r
        | None => None
        end
      else if is_digit c then
        let (ds, r) := take_while is_digit s in
        if starts_with_word_char r then None
        else if (1 <? String.length ds)%nat && Ascii.eqb c "0"%char
                && negb (all_chars (Ascii.eqb "0"%char) ds)
        then None                          (* leading zeros *)
        else cons (TInt (digits_value ds 0)) r
      else if is_letter c then
        let (w, r) := take_while is_letter s in
        if starts_with_word_char r then None else cons (TName w) r
      else None
    end
  end.

(** Equality of dictionary keys: [True == 1] and [False == 0]. *)
Definition key_eqb (a b : pyval) : bool :=
  let num v := match v with
               | PInt z => Some z
               | PBool true => Some 1%Z
               | PBool false => Some 0%Z
               | _ => None
               end in
  match a, b with
  | PNone, PNone => true
  | PStr s, PStr t => String.eqb s t
  | _, _ => match num a, num b with
            | Some x, Some y => Z.eqb x y
            | _, _ => false
            end
  end.

Definition hashable (v : pyval) : bool :=
  match v with PNone | PBool _ | PInt _ | PStr _ => true | _ => false end.

(** [d[k] = v] in a dict display: a key already there keeps its place. *)
Fixpoint dict_set (d : list (pyval * pyval)) (k v : pyval) : list (pyval * pyval) :=
  match d with
  | [] => [(k, v)]
  | (k', v') :: rest =>
      if key_eqb k' k then (k', v) :: rest else (k', v') :: dict_set rest k v
  end.

(** What is being read: a value, the rest of a list, the rest of a dict. *)
Inductive parse_mode : Type :=
| PValue
| PListItems (acc : list pyval)
| PDictItems (acc : list (pyval * pyval)).

Inductive parsed : Type :=
| GotValue (v : pyval)
| GotNothing.

(** A recursive-descent reader; it returns the value read and the tokens
    left. *)
Fixpoint parse_tokens (fuel : nat) (mode : parse_mode) (ts : list token)
  : option (pyval * list token) :=
  match fuel with
  | O => None
  | S fuel' =>
    match mode with
    | PValue =>
      match ts with
      | TInt z :: r => Some (PInt z, r)
      | TStr s :: TStr t :: r => parse_tokens fuel' PValue (TStr (s ++ t) :: r)
      | TStr s :: r => Some (PStr s, r)
      | TName w :: r =>
          if String.eqb w "None" then Some (PNone, r)
          else if String.eqb w "True" then Some (PBool true, r)
          else if String.eqb w "False" then Some (PBool false, r)
          else None
      | TLBrack :: r => parse_tokens fuel' (PListItems []) r
      | TLBrace :: r => parse_tokens fuel' (PDictItems []) r
      | _ => None
      end
    | PListItems acc =>
      match ts with
      | TRBrack :: r => Some (PList acc, r)
      | _ =>
        match parse_tokens fuel' PValue ts with
        | Some (v, TComma :: r) => parse_tokens fuel' (PListItems (acc ++ [v])) r
        | Some (v, TRBrack :: r) => Some (PList (acc ++ [v]), r)
        | _ => None
        end
      end
    | PDictItems acc =>
      match ts with
      | TRBrace :: r => Some (PDict acc, r)
      | _ =>
        match parse_tokens fuel' PValue ts with
        | Some (k, TColon :: r) =>
          if hashable k then
            match parse_tokens fuel' PValue r with
            | Some (v, TComma :: r') =>
                parse_tokens fuel' (PDictItems (dict_set acc k v)) r'
            | Some (v, TRBrace :: r') => Some (PDict (dict_set acc k v), r')
            | _ => None
            end
          else None
        | _ => None
        end
      end
    end
  end.

Definition literal_eval_core (s : string) : result pyval :=
  let malformed := Raise (Exn OtherException "malformed node or string") in
  match tokenize (S (String.length s)) s with
  | None => malformed
  | Some ts =>
      match parse_tokens (S (2 * List.length ts)) PValue ts with
      | Some (v, []) => Ok v
      | _ => malformed
      end
  end.

(* ================================================================== *)
(** * A reference engine and file system

    A small engine that follows the container life cycle
    Created -> Running <-> Stopped -> Removed, and a file system of
    directories and files. They instantiate [DockerClient] and [OS] for
    the scenarios; the general theorems hold for any client and any
    operating system. *)
(* ================================================================== *)

Module Sim.

Record SimContainer : Type :=
  { sc_obj : Container;
    sc_image : Image;
    sc_files : list (string * list byte);
    sc_logs : list byte;
    sc_exec : list (string * (Z * (option (list byte) * option (list byte)))) }.

Record Engine : Type :=
  { se_containers : list SimContainer;
    se_images : list Image;
    se_created : nat (* how many containers were ever created *) }.

Definition with_status (st : string) (c : Container) : Container :=
  {| c_name := c_name c; c_short_id := c_short_id c; c_status := st;
     c_ports := c_ports c; c_attrs := c_attrs c |}.

Definition same_container (a b : Container) : bool :=
  String.eqb (c_short_id a) (c_short_id b).

Definition refers_to (ref : string) (sc : SimContainer) : bool :=
  String.eqb (c_name (sc_obj sc)) ref || String.eqb (c_short_id (sc_obj sc)) ref.

Definition no_such_container (ref : string) : exn :=
  Exn DockerNotFound ("404 Client Error: Not Found (No such container: " ++ ref ++ ")").

Definition lookup (c : Container) (e : Engine) : option SimContainer :=
  find (fun sc => same_container (sc_obj sc) c) (se_containers e).

Definition update (c : Container) (f : SimContainer -> SimContainer) (e : Engine)
  : Engine :=
  {| se_containers :=
       map (fun sc => if same_container (sc_obj sc) c then f sc else sc)
           (se_containers e);
     se_images := se_images e;
     se_created := se_created e |}.

Definition set_status (st : string) (sc : SimContainer) : SimContainer :=
  {| sc_obj := with_status st (sc_obj sc); sc_image := sc_image sc;
     sc_files := sc_files sc; sc_logs := sc_logs sc; sc_exec := sc_exec sc |}.

Definition is_running (sc : SimContainer) : bool :=
  String.eqb (c_status (sc_obj sc)) "running".

(** A method of a container object: it fails when the container is gone. *)
Definition on_container {A : Type} (c : Container)
           (k : SimContainer -> Engine -> result A * Engine) (e : Engine)
  : result A * Engine :=
  match lookup c e with
  | Some sc => k sc e
  | None => (Raise (no_such_container (c_short_id c)), e)
  end.

Definition port_of_key (k : pyval) : option string :=
  match k with
  | PStr s => Some s
  | PInt z => Some (str_int z ++ "/tcp")
  | _ => None
  end.

Fixpoint bindings_of (entries : list (pyval * pyval))
  : list (string * option (list PortBinding)) :=
  match entries with
  | [] => []
  | (k, v) :: rest =>
      match port_of_key k with
      | Some port =>
          let b := match v with
                   | PInt host =>
                       Some [ {| pb_HostIp := Some "0.0.0.0";
                                 pb_HostPort := Some (str_int host) |} ]
                   | _ => None
                   end in
          (port, b) :: bindings_of rest
      | None => bindings_of rest
      end
  end.

Definition falsy (v : pyval) : bool :=
  match v with
  | PNone | PBool false | PInt 0%Z | PStr EmptyString
  | PList [] | PTuple [] | PDict [] => true
  | _ => false
  end.

Definition new_container (n : nat) (image : string) (name : option string)
           (ports : list (string * option (list PortBinding))) : SimContainer :=
  {| sc_obj :=
       {| c_name := match name with Some s => s | None => "sim_" ++ str_nat n end;
          c_short_id := "c0ffee" ++ str_nat n;
          c_status := "running";
          c_ports := Some ports;
          c_attrs :=
            {| a_Config := Some {| cfg_Image := Some image; cfg_Env := Some (Some []) |};
               a_Created := Some "2024-01-01T00:00:00Z";
               a_NetworkSettings :=
                 Some {| net_IPAddress := Some "172.17.0.2";
                         net_MacAddress := Some "02:42:ac:11:00:02" |};
               a_Mounts := Some [] |} |};
     sc_image := {| img_tags := [image]; img_Size := Some 0%Z |};
     sc_files := [];
     sc_logs := [];
     sc_exec := [] |}.

Definition name_taken (name : option string) (e : Engine) : bool :=
  match name with
  | Some s => existsb (fun sc => String.eqb (c_name (sc_obj sc)) s) (se_containers e)
  | None => false
  end.

Definition run (image : string) (name : option string) (ports : pyval)
           (command : option string) (detach : bool) (e : Engine)
  : result Container * Engine :=
  let create bindings :=
    if name_taken name e
    then (Raise (Exn DockerAPIError "409 Client Error: Conflict (name already in use)"), e)
    else
      let sc := new_container (se_created e) image name bindings in
      (Ok (with_status "created" (sc_obj sc)),
       {| se_containers := se_containers e ++ [sc];
          se_images := se_images e;
          se_created := S (se_created e) |}) in
  match ports with
  | PDict entries => create (bindings_of entries)
  | _ =>
      if falsy ports then create []
      else (Raise (Exn AttributeError "object has no attribute 'keys'"), e)
  end.

(** One member per archive: its name, a zero byte, its content. *)
Definition archive_of (name : string) (data : list byte) : list byte :=
  list_byte_of_string name ++ [x00] ++ data.

Fixpoint split_at_zero (b acc : list byte) : option (list byte * list byte) :=
  match b with
  | [] => None
  | x :: rest =>
      if (Byte.to_N x =? 0)%N then Some (acc, rest)
      else split_at_zero rest (acc ++ [x])
  end.

Definition client : DockerClient Engine :=
  {| containers_list := fun all e =>
       (Ok (map sc_obj (filter (fun sc => all || is_running sc) (se_containers e))), e);
     containers_get := fun ref e =>
       match find (refers_to ref) (se_containers e) with
       | Some sc => (Ok (sc_obj sc), e)
       | None => (Raise (no_such_container ref), e)
       end;
     containers_run := run;
     container_start := fun c =>
       on_container c (fun _ e => (Ok tt, update c (set_status "running") e));
     container_stop := fun c =>
       on_container c (fun sc e =>
         (Ok tt, if is_running sc then update c (set_status "exited") e else e));
     container_restart := fun c =>
       on_container c (fun _ e => (Ok tt, update c (set_status "running") e));
     container_remove := fun c =>
       on_container c (fun sc e =>
         if is_running sc
         then (Raise (Exn DockerAPIError
                 "409 Client Error: Conflict (cannot remove a running container)"), e)
         else (Ok tt,
               {| se_containers :=
                    filter (fun sc' => negb (same_container (sc_obj sc') c))
                           (se_containers e);
                  se_images := se_images e;
                  se_created := se_created e |}));
     container_logs := fun c _ => on_container c (fun sc e => (Ok (sc_logs sc), e));
     container_image := fun c => on_container c (fun sc e => (Ok (sc_image sc), e));
     container_exec_run := fun c cmd _ _ =>
       on_container c (fun sc e =>
         if is_running sc then
           match find (fun entry => String.eqb (fst entry) cmd) (sc_exec sc) with
           | Some entry => (Ok (snd entry), e)
           | None => (Ok (127%Z, (None, Some (list_byte_of_string "not found"))), e)
           end
         else (Raise (Exn DockerAPIError
                 "409 Client Error: Conflict (container is not running)"), e));
     container_get_archive := fun c path =>
       on_container c (fun sc e =>
         match find (fun entry => String.eqb (fst entry) path) (sc_files sc) with
         | Some entry =>
             (Ok ([archive_of (path_basename path) (snd entry)],
                  {| st_name := path_basename path;
                     st_size := Z.of_nat (List.length (snd entry)) |}), e)
         | None =>
             (Raise (Exn DockerNotFound
                ("404 Client Error: Not Found (Could not find the file "
                   ++ path ++ ")")), e)
         end);
     images_list := fun e => (Ok (se_images e), e);
     images_pull := fun name e =>
       let img := {| img_tags := [name]; img_Size := Some 0%Z |} in
       (Ok img, {| se_containers := se_containers e;
                   se_images := se_images e ++ [img];
                   se_created := se_created e |});
     images_remove := fun name _ e =>
       (Ok tt, {| se_containers := se_containers e;
                  se_images :=
                    filter (fun img => negb (existsb (String.eqb name) (img_tags img)))
                           (se_images e);
                  se_created := se_created e |});
     images_prune := fun e => (Ok tt, e) |}.

(** The file system: the directories and the files that exist. *)
Record Fs : Type :=
  { fs_dirs : list string; fs_files : list (string * list byte) }.

Definition exists_path (p : string) (fs : Fs) : bool :=
  existsb (String.eqb p) (fs_dirs fs)
  || existsb (fun f => String.eqb (fst f) p) (fs_files fs).

Definition add_dir (p : string) (dirs : list string) : list string :=
  if existsb (String.eqb p) dirs then dirs else dirs ++ [p].

(** The directories on the way to [p], and [p] itself. *)
Fixpoint ancestors (s acc : string) : list string :=
  match s with
  | EmptyString => if truthy acc then [acc] else []
  | String c rest =>
      if Ascii.eqb c "/"%char && truthy acc
      then acc :: ancestors rest (acc ++ String c EmptyString)
      else ancestors rest (acc ++ String c EmptyString)
  end.

Definition put_file (p : string) (data : list byte)
           (files : list (string * list byte)) : list (string * list byte) :=
  filter (fun f => negb (String.eqb (fst f) p)) files ++ [(p, data)].

Definition os : OS Fs :=
  {| os_path_exists := exists_path;
     os_makedirs := fun p fs =>
       (Ok tt, {| fs_dirs := fold_left (fun d a => add_dir a d) (ancestors p EmptyString)
                                       (fs_dirs fs);
                  fs_files := fs_files fs |});
     tarfile_open := fun data =>
       match split_at_zero data [] with
       | Some (name, content) =>
           Ok [ {| tm_name := string_of_list_byte name; tm_data := content |} ]
       | None => Raise (Exn TarError "file could not be opened successfully")
       end;
     tar_extractall := fun tar dest fs =>
       (Ok tt, {| fs_dirs := fs_dirs fs;
                  fs_files :=
                    fold_left (fun files m =>
                                 put_file (path_join dest (tm_name m)) (tm_data m) files)
                              tar (fs_files fs) |}) |}.

Definition empty_engine : Engine :=
  {| se_containers := []; se_images := []; se_created := 0 |}.

Definition empty_fs : Fs := {| fs_dirs := ["/"]; fs_files := [] |}.

Definition world (e : Engine) (fs : Fs) : World Engine Fs := mkWorld e fs [].

End Sim.

(* ================================================================== *)
(** * Scenarios on the reference engine *)
(* ================================================================== *)

Module Scenario.

Definition cl : option (DockerClient Sim.Engine) := Some Sim.client.

(** An engine with no container, and a file system with only its root. *)
Definition w_empty : World Sim.Engine Sim.Fs :=
  Sim.world Sim.empty_engine Sim.empty_fs.

(** The end-to-end scenario: [web1] is started from [nginx:latest] with
    container port 80/tcp published on host port 8080. *)
Definition run_web1 : result string * World Sim.Engine Sim.Fs :=
  docker_run_container cl literal_eval_core "nginx:latest" (Some "web1")
                       (Some "{'80/tcp': 8080}") None w_empty.

Definition w_web1_running : World Sim.Engine Sim.Fs :=
  Sim.world (w_engine (snd run_web1)) Sim.empty_fs.

Definition w_web1_stopped : World Sim.Engine Sim.Fs :=
  Sim.world
    (w_engine (snd (docker_container_action cl "web1" "stop" w_web1_running)))
    Sim.empty_fs.

(** The object [containers.get("web1")] yields in each of the two. *)
Definition web1 (status : string) : Container :=
  {| c_name := "web1";
     c_short_id := "c0ffee0";
     c_status := status;
     c_ports := Some [("80/tcp", Some [ {| pb_HostIp := Some "0.0.0.0";
                                           pb_HostPort := Some "8080" |} ])];
     c_attrs :=
       {| a_Config := Some {| cfg_Image := Some "nginx:latest";
                              cfg_Env := Some (Some []) |};
          a_Created := Some "2024-01-01T00:00:00Z";
          a_NetworkSettings :=
            Some {| net_IPAddress := Some "172.17.0.2";
                    net_MacAddress := Some "02:42:ac:11:00:02" |};
          a_Mounts := Some [] |} |}.

(** A worker container with seven environment entries and two mounts,
    whose commands and logs emit bytes that are not UTF-8. *)
Definition box_env : list string :=
  ["PATH=/usr/bin"; "LANG=C.UTF-8"; "HOME=/root"; "A=1"; "B=2"; "C=3"; "D=4"].

Definition box_mounts : list (string * string) :=
  [("/srv/data", "/workspace"); ("/var/run/docker.sock", "/var/run/docker.sock")].

Definition box_obj (status : string) : Container :=
  {| c_name := "box";
     c_short_id := "b0b0b0b0b0b0";
     c_status := status;
     c_ports := Some [];
     c_attrs :=
       {| a_Config := Some {| cfg_Image := Some "python:3.11";
                              cfg_Env := Some (Some box_env) |};
          a_Created := Some "2024-02-02T10:00:00Z";
          a_NetworkSettings :=
            Some {| net_IPAddress := Some "172.17.0.3";
                    net_MacAddress := Some "02:42:ac:11:00:03" |};
          a_Mounts :=
            Some (map mount_of box_mounts) |} |}.

Definition box (status : string) : Sim.SimContainer :=
  {| Sim.sc_obj := box_obj status;
     Sim.sc_image := {| img_tags := ["python:3.11"]; img_Size := Some 1048576%Z |};
     Sim.sc_files := [("/workspace/plot.png", [x89; x50; x4e; x47])];
     Sim.sc_logs := [x66; xff; x6f; x6f];
     Sim.sc_exec :=
       [ ("echo hi", (0%Z, (Some [x68; x69; x0a], None)));
         ("cat blob", (0%Z, (Some [xff; x41], None)));
         ("cat blob >&2", (0%Z, (Some [x6f; x6b], Some [xe4; xb8]))) ] |}.

Definition w_box (status : string) : World Sim.Engine Sim.Fs :=
  Sim.world {| Sim.se_containers := [box status];
               Sim.se_images := [];
               Sim.se_created := 1 |}
            Sim.empty_fs.

(** The same, with the staging directory already in place. *)
Definition w_box_staged : World Sim.Engine Sim.Fs :=
  Sim.world (w_engine (w_box "running"))
            {| Sim.fs_dirs := ["/"; "/AstrBot"; "/AstrBot/data"; local_dir];
               Sim.fs_files := [] |}.

(** A tools directory with a module that fails to import, a well-formed
    module, and a module whose second function the server rejects. *)
Definition fn (module name : string) : PyFunction :=
  {| fn___module__ := module; fn___name__ := name |}.

Definition good_module : PyModule :=
  {| mod___name__ := "tools.good";
     mod_functions :=
       [ ("_helper", fn "tools.good" "_helper");
         ("dumps", fn "json" "dumps");
         ("ping", fn "tools.good" "ping");
         ("pong", fn "tools.good" "pong") ] |}.

Definition half_module : PyModule :=
  {| mod___name__ := "tools.half";
     mod_functions :=
       [ ("alpha", fn "tools.half" "alpha");
         ("beta", fn "tools.half" "beta");
         ("gamma", fn "tools.half" "gamma") ] |}.

Definition tools_listing (dir : string) : result (list string) :=
  Ok ["broken.py"; "__init__.py"; "good.py"; "half.py"; "notes.txt"].

Definition import_module (name : string) : result PyModule :=
  if String.eqb name "tools.good" then Ok good_module
  else if String.eqb name "tools.half" then Ok half_module
  else Raise (Exn ImportError ("No module named '" ++ name ++ "'")).

(** The server rejects [beta]. *)
Definition tool_check (func : PyFunction) : result unit :=
  if String.eqb (fn___name__ func) "beta"
  then Raise (Exn OtherException "Invalid signature for use with FastMCP")
  else Ok tt.

Definition loader_start : LoaderState :=
  mkLoader ["/usr/lib/python3"] [] [].

Definition loaded : result unit * LoaderState :=
  load_tools_dynamic "/srv/app" (fun _ => true) tools_listing import_module
                     tool_check loader_start.

End Scenario.

(* ================================================================== *)
(** * Vocabulary of the further properties *)
(* ================================================================== *)

(** A tool call that ends in text, or in an exception that is not an
    [Exception] (an interrupt, an exit), which no tool catches. *)
Definition text_or_interrupt (r : result string) : Prop :=
  match r with
  | Ok _ => True
  | Raise e => is_Exception e = false
  end.

(** How a tool renders the outcome of its engine call: the success text,
    or the failure prefix and the engine's message. *)
Definition rendered {A : Type} (outcome : result A) (success failure : string)
  : result string :=
  match outcome with
  | Ok _ => Ok success
  | Raise ex => if is_Exception ex then Ok (failure ++ exn_str ex) else Raise ex
  end.

(** The reads of a container's [image] property. *)
Definition is_image_read (ev : event) : bool :=
  match ev with CallImageOf _ => true | _ => false end.

(** The image tags the listing reads for [containers], one after the
    other, from the engine in state [e]: for each container the [image]
    property is read, and read once more when it has tags; the tag is the
    first tag of the image last read, or [none] for an image without
    tags. [e'] is the engine after the reads. *)
Inductive tags_read {E : Type} (cl : DockerClient E)
  : E -> list Container -> list string -> E -> Prop :=
| tags_read_nil : forall e, tags_read cl e [] [] e
| tags_read_none : forall e e1 e' c rest tags img,
    container_image cl c e = (Ok img, e1) ->
    img_tags img = [] ->
    tags_read cl e1 rest tags e' ->
    tags_read cl e (c :: rest) ("none" :: tags) e'
| tags_read_first : forall e e1 e2 e' c rest tags img img' t more,
    container_image cl c e = (Ok img, e1) ->
    img_tags img <> [] ->
    container_image cl c e1 = (Ok img', e2) ->
    img_tags img' = t :: more ->
    tags_read cl e2 rest tags e' ->
    tags_read cl e (c :: rest) (t :: tags) e'.


(** The line of the image listing for an image of known size. *)
Definition image_line (fmt_size_mb : Z -> string) (img : Image) : string :=
  "- " ++ match img_tags img with t :: _ => t | [] => "<none>" end
  ++ " (" ++ match img_Size img with Some size => fmt_size_mb size | None => EmptyString end
  ++ "MB)" ++ nl.

(** Bytes that are all ASCII. *)
Definition ascii_only (b : list byte) : bool :=
  forallb (fun x => (Byte.to_N x <? 128)%N) b.

(** A captured stream with nothing in it: [None] or empty bytes. *)
Definition no_bytes (x : option (list byte)) : bool :=
  match x with
  | None | Some [] => true
  | Some (_ :: _) => false
  end.

(** The report of a command that printed nothing. *)
Definition report_head : string := "💻 **执行结果 (Exit Code: ".
Definition report_tail : string := ")**:" ++ nl ++ "(无输出)".
Definition no_output_report (code : Z) : string :=
  report_head ++ str_int code ++ report_tail.

Definition not_slash (c : ascii) : bool := negb (Ascii.eqb c "/"%char).

(** [sys.path] once the loader has made sure its directory is on it. *)
Definition path_ensured (here : string) (path : list string) : list string :=
  if existsb (String.eqb here) path then path else (path ++ [here])%list.

(** The command [docker_pip_install] builds for [packages]. *)
Definition pip_command (packages : string) : string :=
  "pip install " ++ packages ++ " "
  ++ "-i https://pypi.tuna.tsinghua.edu.cn/simple "
  ++ "--default-timeout=100 "
  ++ "--trusted-host pypi.tuna.tsinghua.edu.cn".

(** Further worlds of the reference engine. *)
Module Cases.

(** A container one of whose published ports has a binding without the
    [HostPort] key. *)
Definition odd_obj : Container :=
  {| c_name := "odd";
     c_short_id := "0dd0dd0dd0dd";
     c_status := "running";
     c_ports := Some [("53/udp", None);
                      ("80/tcp", Some [ {| pb_HostIp := Some "0.0.0.0";
                                           pb_HostPort := None |} ])];
     c_attrs := c_attrs (Scenario.box_obj "running") |}.

Definition odd : Sim.SimContainer :=
  {| Sim.sc_obj := odd_obj;
     Sim.sc_image := {| img_tags := []; img_Size := None |};
     Sim.sc_files := [];
     Sim.sc_logs := [];
     Sim.sc_exec := [("true", (0%Z, (None, Some [])));
                     ("false", (1%Z, (None, None)))] |}.

Definition w_odd : World Sim.Engine Sim.Fs :=
  Sim.world {| Sim.se_containers := [odd];
               Sim.se_images := [];
               Sim.se_created := 1 |}
            Sim.empty_fs.

(** The worker container beside a stopped [web1]. *)
Definition w_two : World Sim.Engine Sim.Fs :=
  Sim.world {| Sim.se_containers :=
                 Sim.se_containers (w_engine Scenario.w_web1_stopped)
                 ++ [Scenario.box "running"];
               Sim.se_images :=
                 [ {| img_tags := ["nginx:latest"; "nginx:1.25"];
                      img_Size := Some 196083712%Z |};
                   {| img_tags := []; img_Size := Some 5242880%Z |} ];
               Sim.se_created := 2 |}
            Sim.empty_fs.

(** A container as a recent engine describes it: no [MacAddress] under
    [NetworkSettings]. *)
Definition modern_obj : Container :=
  {| c_name := "modern";
     c_short_id := "abcabcabcabc";
     c_status := "running";
     c_ports := None;
     c_attrs :=
       {| a_Config := Some {| cfg_Image := Some "alpine:3"; cfg_Env := Some (Some ["A=1"]) |};
          a_Created := Some "2025-01-01T00:00:00Z";
          a_NetworkSettings :=
            Some {| net_IPAddress := Some ""; net_MacAddress := None |};
          a_Mounts := Some [] |} |}.

Definition w_modern : World Sim.Engine Sim.Fs :=
  Sim.world {| Sim.se_containers :=
                 [ {| Sim.sc_obj := modern_obj;
                      Sim.sc_image := {| img_tags := ["alpine:3"]; img_Size := None |};
                      Sim.sc_files := []; Sim.sc_logs := []; Sim.sc_exec := [] |} ];
               Sim.se_images := [ {| img_tags := ["alpine:3"]; img_Size := None |} ];
               Sim.se_created := 1 |}
            Sim.empty_fs.

(** The worker container, seven environment entries and all, as a recent
    engine describes it: no [MacAddress] under [NetworkSettings]. *)
Definition recent_obj : Container :=
  {| c_name := "recent";
     c_short_id := "4ece474ece47";
     c_status := "running";
     c_ports := None;
     c_attrs :=
       {| a_Config := Some {| cfg_Image := Some "python:3.11";
                              cfg_Env := Some (Some Scenario.box_env) |};
          a_Created := Some "2025-03-03T09:00:00Z";
          a_NetworkSettings :=
            Some {| net_IPAddress := Some "172.17.0.4"; net_MacAddress := None |};
          a_Mounts := Some (map mount_of Scenario.box_mounts) |} |}.

Definition w_recent : World Sim.Engine Sim.Fs :=
  Sim.world {| Sim.se_containers :=
                 [ {| Sim.sc_obj := recent_obj;
                      Sim.sc_image := {| img_tags := ["python:3.11"]; img_Size := None |};
                      Sim.sc_files := []; Sim.sc_logs := []; Sim.sc_exec := [] |} ];
               Sim.se_images := [ {| img_tags := ["python:3.11"]; img_Size := None |} ];
               Sim.se_created := 1 |}
            Sim.empty_fs.

(** A tools directory with a module that exits while it is imported
    ([sys.exit(0)] at top level) and a module that defines a [ping] of its
    own beside a [status], and binds its function [_impl] to the name
    [run] ([run = _impl]). *)
Definition twin_module : PyModule :=
  {| mod___name__ := "tools.twin";
     mod_functions :=
       [ ("_impl", Scenario.fn "tools.twin" "_impl");
         ("ping", Scenario.fn "tools.twin" "ping");
         ("run", Scenario.fn "tools.twin" "_impl");
         ("status", Scenario.fn "tools.twin" "status") ] |}.

Definition import_module (name : string) : result PyModule :=
  if String.eqb name "tools.quit" then Raise (Exn BaseExceptionOnly "0")
  else if String.eqb name "tools.twin" then Ok twin_module
  else Scenario.import_module name.

(** An engine that misbehaves: deletions and prunes raise a conflict, a
    pull by digest returns an image without tags, and the archive of
    [/garbled] is not a tar stream. Otherwise it is the reference
    client. *)
Definition stubborn_error : exn :=
  Exn DockerAPIError
      "409 Client Error: Conflict (removal of container is already in progress)".

Definition stubborn_client : DockerClient Sim.Engine :=
  {| containers_list := containers_list Sim.client;
     containers_get := containers_get Sim.client;
     containers_run := containers_run Sim.client;
     container_start := container_start Sim.client;
     container_stop := container_stop Sim.client;
     container_restart := container_restart Sim.client;
     container_remove := fun _ e => (Raise stubborn_error, e);
     container_logs := container_logs Sim.client;
     container_image := container_image Sim.client;
     container_exec_run := container_exec_run Sim.client;
     container_get_archive := fun c path e =>
       if String.eqb path "/garbled"
       then (Ok ([[x01; x02]; [x03]], {| st_name := "garbled"; st_size := 3%Z |}), e)
       else container_get_archive Sim.client c path e;
     images_list := images_list Sim.client;
     images_pull := fun name e =>
       if contains name "@"
       then (Ok {| img_tags := []; img_Size := Some 0%Z |}, e)
       else images_pull Sim.client name e;
     images_remove := images_remove Sim.client;
     images_prune := fun e => (Raise stubborn_error, e) |}.

(** The size text of the scenarios: whole megabytes. *)
Definition whole_mb (size : Z) : string := str_int (size / 1048576) ++ ".0".

End Cases.

(* ================================================================== *)
(** * Properties *)
(* ================================================================== *)

(** ** UTF-8 *)

Lemma well_formed_utf8_cons (b0 : byte) (r0 : list byte) :
  well_formed_utf8 (b0 :: r0)
  = let x0 := Byte.to_N b0 in
    if in_range 0 127 x0 then well_formed_utf8 r0
    else
      match r0 with
      | [] => false
      | b1 :: r1 =>
        let x1 := Byte.to_N b1 in
        if in_range 194 223 x0 then in_range 128 191 x1 && well_formed_utf8 r1
        else
          match r1 with
          | [] => false
          | b2 :: r2 =>
            let x2 := Byte.to_N b2 in
            if (x0 =? 224)%N then
              in_range 160 191 x1 && in_range 128 191 x2 && well_formed_utf8 r2
            else if in_range 225 236 x0 || in_range 238 239 x0 then
              in_range 128 191 x1 && in_range 128 191 x2 && well_formed_utf8 r2
            else if (x0 =? 237)%N then
              in_range 128 159 x1 && in_range 128 191 x2 && well_formed_utf8 r2
            else
              match r2 with
              | [] => false
              | b3 :: r3 =>
                let x3 := Byte.to_N b3 in
                if (x0 =? 240)%N then
                  in_range 144 191 x1 && in_range 128 191 x2
                  && in_range 128 191 x3 && well_formed_utf8 r3
                else if in_range 241 243 x0 then
                  in_range 128 191 x1 && in_range 128 191 x2
                  && in_range 128 191 x3 && well_formed_utf8 r3
                else if (x0 =? 244)%N then
                  in_range 128 143 x1 && in_range 128 191 x2
                  && in_range 128 191 x3 && well_formed_utf8 r3
                else false
              end
          end
      end.
Proof. reflexivity. Qed.

(** Case analysis on one comparison of byte values, the impossible side
    closed by arithmetic. *)
Ltac split_cmp :=
  match goal with
  | |- context [N.ltb ?a ?b] => destruct (N.ltb_spec a b)
  | |- context [N.leb ?a ?b] => destruct (N.leb_spec a b)
  | |- context [N.eqb ?a ?b] => destruct (N.eqb_spec a b)
  end; try lia; cbn [negb andb orb].

(** The decoder accepts exactly the well-formed sequences, given fuel for
    every byte. *)
Lemma scanner_accepts_well_formed :
  forall (fuel pos : nat) (s : list byte),
    (List.length s <= fuel)%nat ->
    no_error (utf8_first_error fuel pos s) = well_formed_utf8 s.
Proof.
  induction fuel as [| fuel IH]; intros pos s Hlen.
  - destruct s; [reflexivity | cbn in Hlen; lia].
  - destruct s as [| b0 [| b1 [| b2 [| b3 r]]]];
      [reflexivity | | | |];
      rewrite well_formed_utf8_cons; cbn [utf8_first_error];
      unfold utf8_scan, is_cont, in_range; cbn [map List.length] in *;
      cbv beta iota zeta.
    all: repeat split_cmp;
      cbn [skipn no_error]; try (rewrite IH by (cbn [List.length] in *; lia));
      try reflexivity.
Qed.

Lemma valid_utf8_well_formed (b : list byte) : valid_utf8 b = well_formed_utf8 b.
Proof. unfold valid_utf8. apply scanner_accepts_well_formed. apply le_n. Qed.

(** Every round of the scan consumes at least one byte, and no more
    than there are. *)
Lemma utf8_scan_progress (s : list byte) :
  match utf8_scan s with
  | U8End => s = []
  | U8Char n | U8InvalidCont n => (1 <= n <= List.length s)%nat
  | U8InvalidStart | U8Truncated => s <> []
  end.
Proof.
  destruct s as [| b0 [| b1 [| b2 [| b3 r]]]]; unfold utf8_scan; cbn [map];
    repeat match goal with
           | |- context [if ?c then _ else _] => destruct c
           end;
    cbn [List.length]; try lia; try discriminate; reflexivity.
Qed.

(** A sequence the scan takes as one character is well formed on its
    own. *)
Lemma scan_char_well_formed (s : list byte) (n : nat) :
  utf8_scan s = U8Char n ->
  forall rest, well_formed_utf8 (firstn n s ++ rest) = well_formed_utf8 rest.
Proof.
  destruct s as [| b0 [| b1 [| b2 [| b3 r]]]]; unfold utf8_scan, is_cont;
    cbn [map]; repeat split_cmp;
    intros Hscan rest; inversion Hscan; subst n; cbn [firstn app];
    rewrite well_formed_utf8_cons; unfold in_range; cbv beta iota zeta;
    repeat split_cmp; reflexivity.
Qed.

Lemma scan_error_ill_formed (s : list byte) :
  match utf8_scan s with
  | U8InvalidStart | U8InvalidCont _ | U8Truncated => well_formed_utf8 s = false
  | U8End | U8Char _ => True
  end.
Proof.
  pose proof (@scanner_accepts_well_formed (S (List.length s)) 0 s
                (Nat.le_succ_diag_r _)) as H.
  cbn [utf8_first_error] in H.
  destruct (utf8_scan s); try exact I; cbn [no_error] in H; symmetry; exact H.
Qed.

(** What [errors='ignore'] keeps is well formed, whatever the input. *)
Lemma utf8_ignore_well_formed :
  forall (fuel : nat) (s : list byte), well_formed_utf8 (utf8_ignore fuel s) = true.
Proof.
  induction fuel as [| fuel IH]; intros s; [reflexivity |].
  cbn [utf8_ignore]. destruct (utf8_scan s) as [| n | | n |] eqn:Hs;
    try reflexivity; try apply IH.
  rewrite (@scan_char_well_formed s n Hs). apply IH.
Qed.

(** On well-formed input nothing is dropped. *)
Lemma utf8_ignore_identity :
  forall (fuel : nat) (s : list byte),
    (List.length s <= fuel)%nat -> well_formed_utf8 s = true ->
    utf8_ignore fuel s = s.
Proof.
  induction fuel as [| fuel IH]; intros s Hlen Hwf.
  - destruct s; [reflexivity | cbn in Hlen; lia].
  - cbn [utf8_ignore].
    pose proof (utf8_scan_progress s) as Hp.
    pose proof (scan_error_ill_formed s) as He.
    destruct (utf8_scan s) as [| n | | n |] eqn:Hs;
      try (rewrite Hwf in He; discriminate He).
    + symmetry. exact Hp.
    + rewrite IH.
      * apply firstn_skipn.
      * rewrite length_skipn. lia.
      * rewrite <- (@scan_char_well_formed s n Hs (skipn n s)).
        rewrite firstn_skipn. exact Hwf.
Qed.

(** The fuel [decode_utf8_ignore] starts with, one unit a byte, never
    runs out: more fuel gives the same text. *)
Lemma utf8_ignore_fuel :
  forall (fuel fuel' : nat) (s : list byte),
    (List.length s <= fuel)%nat -> (List.length s <= fuel')%nat ->
    utf8_ignore fuel s = utf8_ignore fuel' s.
Proof.
  induction fuel as [| fuel IH]; intros fuel' s Hlen Hlen'.
  - destruct s; [| cbn in Hlen; lia]. destruct fuel'; reflexivity.
  - destruct fuel' as [| fuel'].
    + destruct s; [reflexivity | cbn in Hlen'; lia].
    + cbn [utf8_ignore].
      pose proof (utf8_scan_progress s) as Hp.
      destruct (utf8_scan s) as [| n | | n |] eqn:Hs; try reflexivity.
      * f_equal. apply IH; rewrite length_skipn; lia.
      * assert (s <> []) by exact Hp.
        apply IH; rewrite length_skipn; destruct s; cbn in *; try congruence; lia.
      * apply IH; rewrite length_skipn; lia.
Qed.

(** The characters of a text, put together again, are the text. *)
Lemma utf8_chars_concat :
  forall (fuel : nat) (s : list byte),
    (List.length s <= fuel)%nat -> List.concat (utf8_chars fuel s) = s.
Proof.
  induction fuel as [| fuel IH]; intros s Hlen.
  - destruct s; [reflexivity | cbn in Hlen; lia].
  - destruct s as [| b0 r]; [reflexivity |].
    cbn [utf8_chars]. pose proof (utf8_scan_progress (b0 :: r)) as Hp.
    set (n := match utf8_scan (b0 :: r) with U8Char n => n | _ => 1%nat end).
    assert (Hn : (1 <= n <= List.length (b0 :: r))%nat).
    { subst n. destruct (utf8_scan (b0 :: r)); cbn [List.length] in *; lia. }
    cbn [List.concat]. rewrite IH.
    + apply firstn_skipn.
    + rewrite length_skipn. lia.
Qed.

(** [decode('utf-8', errors='ignore')] returns well-formed text for every
    input, and the text of the input when the input is well formed. *)
Lemma decode_utf8_ignore_spec (b : list byte) :
  well_formed_utf8 (list_byte_of_string (decode_utf8_ignore b)) = true
  /\ (well_formed_utf8 b = true -> decode_utf8_ignore b = string_of_list_byte b).
Proof.
  unfold decode_utf8_ignore. split.
  - rewrite list_byte_of_string_of_list_byte. apply utf8_ignore_well_formed.
  - intros Hwf. rewrite utf8_ignore_identity; [reflexivity | apply le_n | exact Hwf].
Qed.

(** ** The monad *)

Lemma bind_ret_l {W A B} (a : A) (k : A -> M W B) (w : W) :
  bind (ret a) k w = k a w.
Proof. reflexivity. Qed.

Lemma bind_ok {W A B} (m : M W A) (k : A -> M W B) (w w' : W) (a : A) :
  m w = (Ok a, w') -> bind m k w = k a w'.
Proof. intros H. unfold bind. rewrite H. reflexivity. Qed.

Lemma bind_raise {W A B} (m : M W A) (k : A -> M W B) (w w' : W) (e : exn) :
  m w = (Raise e, w') -> bind m k w = (Raise e, w').
Proof. intros H. unfold bind. rewrite H. reflexivity. Qed.

Lemma try_except_ok {W A} (body : M W A) catches handler (w w' : W) (a : A) :
  body w = (Ok a, w') -> try_except body catches handler w = (Ok a, w').
Proof. intros H. unfold try_except. rewrite H. reflexivity. Qed.

Lemma try_except_caught {W A} (body : M W A) catches handler (w w' : W) e :
  body w = (Raise e, w') -> catches e = true ->
  try_except body catches handler w = handler e w'.
Proof. intros H Hc. unfold try_except. rewrite H, Hc. reflexivity. Qed.

Lemma engine_call_eq {E F A} (ev : event) (op : E -> result A * E)
      (w : World E F) r e' :
  op (w_engine w) = (r, e') ->
  engine_call ev op w = (r, mkWorld e' (w_fs w) (w_log w ++ [ev])).
Proof. intros H. unfold engine_call. rewrite H. reflexivity. Qed.

Lemma fs_write_eq {E F A} (ev : event) (op : F -> result A * F)
      (w : World E F) r f' :
  op (w_fs w) = (r, f') ->
  fs_write ev op w = (r, mkWorld (w_engine w) f' (w_log w ++ [ev])).
Proof. intros H. unfold fs_write. rewrite H. reflexivity. Qed.

(** ** The connectivity tier *)

Lemma check_client_absent {E} : _check_client (@None (DockerClient E)) = not_connected.
Proof. reflexivity. Qed.

Lemma check_client_present {E} (cl : DockerClient E) :
  _check_client (Some cl) = EmptyString.
Proof. reflexivity. Qed.

(** A failed [docker.from_env()] leaves the module without a client. *)
Lemma init_client_failed {E} (e : exn) :
  is_Exception e = true -> @init_client E (Raise e) = Ok None.
Proof. intros H. unfold init_client, catch_Exception. rewrite H. reflexivity. Qed.

(** C1. Without an engine handle every tool returns the same "not
    connected" text and leaves the world as it found it: the engine state,
    the file system and the log of calls are unchanged, so no engine call
    was made. *)
Theorem C1_not_connected_no_engine_call :
  forall (E F : Type) (os : OS F) (literal_eval : string -> result pyval)
         (fmt_size_mb : Z -> string) (w : World E F),
    let absent := @None (DockerClient E) in
    (forall all, docker_list_containers absent all w = (Ok not_connected, w))
    /\ (forall ref verb,
           docker_container_action absent ref verb w = (Ok not_connected, w))
    /\ (forall image name ports command,
           docker_run_container absent literal_eval image name ports command w
           = (Ok not_connected, w))
    /\ (forall ref, docker_inspect_container absent ref w = (Ok not_connected, w))
    /\ (forall ref lines, docker_get_logs absent ref lines w = (Ok not_connected, w))
    /\ docker_list_images absent fmt_size_mb w = (Ok not_connected, w)
    /\ (forall name, docker_pull_image absent name w = (Ok not_connected, w))
    /\ (forall name force,
           docker_delete_image absent name force w = (Ok not_connected, w))
    /\ (forall name, docker_reset_image absent name w = (Ok not_connected, w))
    /\ (forall ref src,
           docker_copy_from_container absent os ref src w = (Ok not_connected, w))
    /\ (forall ref command workdir,
           docker_exec_run absent ref command workdir w = (Ok not_connected, w))
    /\ (forall ref packages,
           docker_pip_install absent ref packages w = (Ok not_connected, w)).
Proof.
  intros E F os literal_eval fmt_size_mb w absent.
  repeat split; intros; reflexivity.
Qed.

(** ** Container actions *)

Ltac run_facade :=
  unfold docker_container_action, docker_exec_run, docker_run_container,
    docker_copy_from_container, docker_inspect_container, docker_get_logs,
    docker_list_containers;
  rewrite ?check_client_present;
  cbv beta iota delta [truthy try_except bind client_attr ret lift raise
                         engine_call fs_write fs_read catch_all catch_Exception
                         catch_NotFound].

Lemma eqb_differs (a b : string) : a <> b -> String.eqb a b = false.
Proof. intros H. apply String.eqb_neq. exact H. Qed.

(** C4, as stated, fails: with a verb outside the four, the reference is
    still resolved against the engine (one [containers.get] call), and when
    that resolution fails the text is the operation-failed one. *)
Lemma C4_unknown_verb_contacts_engine :
  let r := docker_container_action Scenario.cl "web1" "frobnicate"
                                   Scenario.w_web1_running in
  fst r = Ok "❌ 未知操作: frobnicate"
  /\ w_log (snd r) = [CallContainersGet "web1"]
  /\ existsb is_engine_call (w_log (snd r)) = true
  /\ fst (docker_container_action Scenario.cl "ghost" "frobnicate"
                                  Scenario.w_web1_running)
     = Ok "❌ 操作失败: 404 Client Error: Not Found (No such container: ghost)".
Proof. vm_compute. repeat split. Qed.

(** C4, amended. With a verb outside start, stop, restart and remove, the
    tool makes exactly one engine call, the resolution of the reference;
    when it succeeds the result is the "unknown operation" text, when it
    raises the result is the operation-failed text with the engine's
    message. *)
Theorem C4_unknown_verb_after_resolution :
  forall (E F : Type) (cl : DockerClient E) (ref verb : string) (w : World E F),
    verb <> "start" -> verb <> "stop" -> verb <> "restart" -> verb <> "remove" ->
    docker_container_action (Some cl) ref verb w
    = (match fst (containers_get cl ref (w_engine w)) with
       | Ok _ => Ok ("❌ 未知操作: " ++ verb)
       | Raise e => if is_Exception e then Ok ("❌ 操作失败: " ++ exn_str e)
                    else Raise e
       end,
       mkWorld (snd (containers_get cl ref (w_engine w))) (w_fs w)
               (w_log w ++ [CallContainersGet ref])).
Proof.
  intros E F cl ref verb w H1 H2 H3 H4.
  run_facade.
  destruct (containers_get cl ref (w_engine w)) as [[c | e] e1]; cbn [fst snd].
  - rewrite !eqb_differs by assumption. reflexivity.
  - destruct (is_Exception e); reflexivity.
Qed.

(** C4 on the running [web1] of the reference engine. *)
Lemma C4_unknown_verb_witness :
  docker_container_action Scenario.cl "web1" "frobnicate" Scenario.w_web1_running
  = (Ok "❌ 未知操作: frobnicate",
     mkWorld (w_engine Scenario.w_web1_running) Sim.empty_fs
             [CallContainersGet "web1"]).
Proof.
  unfold Scenario.cl.
  rewrite (@C4_unknown_verb_after_resolution _ _ Sim.client "web1" "frobnicate"
             Scenario.w_web1_running);
    [ reflexivity | discriminate | discriminate | discriminate | discriminate ].
Defined.

Lemma remove_calls_in_order
      (E F : Type) (cl : DockerClient E) (ref : string) (w : World E F)
      (c : Container) (e1 e2 e3 : E) (stop_outcome : result unit) :
  containers_get cl ref (w_engine w) = (Ok c, e1) ->
  container_stop cl c e1 = (stop_outcome, e2) ->
  container_remove cl c e2 = (Ok tt, e3) ->
  docker_container_action (Some cl) ref "remove" w
  = (Ok ("🗑️ 容器 `" ++ c_name c ++ "` 已删除。"),
     mkWorld e3 (w_fs w)
             (w_log w ++ [CallContainersGet ref; CallStop c; CallRemove c])).
Proof.
  intros Hget Hstop Hremove.
  run_facade. rewrite Hget. cbn [String.eqb Ascii.eqb Bool.eqb w_engine w_fs w_log].
  rewrite Hstop.
  destruct stop_outcome as [[] | e]; cbn [w_engine w_fs w_log];
    rewrite Hremove; rewrite <- !app_assoc; reflexivity.
Qed.

Lemma find_filter_out {A : Type} (p : A -> bool) (l : list A) :
  find p (filter (fun x => negb (p x)) l) = None.
Proof.
  induction l as [| x l IH]; [reflexivity |].
  cbn [filter]. destruct (p x) eqn:Hp; cbn [negb]; [exact IH |].
  cbn [find]. rewrite Hp. exact IH.
Qed.

(** C5. [remove] resolves the container, asks the engine to stop it,
    disregards whatever that stop answers or raises, and then asks the
    engine to delete it; once the deletion succeeds the result is the
    success text. On the reference engine, for a container that is
    already stopped, the operation returns the success text and the
    container is gone from the engine. *)
Theorem C5_remove_stops_then_deletes :
  (forall (E F : Type) (cl : DockerClient E) (ref : string) (w : World E F)
          (c : Container) (e1 e2 e3 : E) (stop_outcome : result unit),
      containers_get cl ref (w_engine w) = (Ok c, e1) ->
      container_stop cl c e1 = (stop_outcome, e2) ->
      container_remove cl c e2 = (Ok tt, e3) ->
      docker_container_action (Some cl) ref "remove" w
      = (Ok ("🗑️ 容器 `" ++ c_name c ++ "` 已删除。"),
         mkWorld e3 (w_fs w)
                 (w_log w ++ [CallContainersGet ref; CallStop c; CallRemove c])))
  /\ (forall (w : World Sim.Engine Sim.Fs) (ref : string) (sc : Sim.SimContainer),
         find (Sim.refers_to ref) (Sim.se_containers (w_engine w)) = Some sc ->
         Sim.lookup (Sim.sc_obj sc) (w_engine w) = Some sc ->
         Sim.is_running sc = false ->
         let r := docker_container_action (Some Sim.client) ref "remove" w in
         fst r = Ok ("🗑️ 容器 `" ++ c_name (Sim.sc_obj sc) ++ "` 已删除。")
         /\ Sim.lookup (Sim.sc_obj sc) (w_engine (snd r)) = None).
Proof.
  split; [intros; eapply remove_calls_in_order; eassumption |].
  intros w ref sc Hfind Hlookup Hstopped r.
  assert (Hrun : r = (Ok ("🗑️ 容器 `" ++ c_name (Sim.sc_obj sc) ++ "` 已删除。"),
                      mkWorld
                        {| Sim.se_containers :=
                             filter (fun sc' => negb (Sim.same_container
                                                        (Sim.sc_obj sc') (Sim.sc_obj sc)))
                                    (Sim.se_containers (w_engine w));
                           Sim.se_images := Sim.se_images (w_engine w);
                           Sim.se_created := Sim.se_created (w_engine w) |}
                        (w_fs w)
                        (w_log w ++ [CallContainersGet ref; CallStop (Sim.sc_obj sc);
                                     CallRemove (Sim.sc_obj sc)]))).
  { subst r.
    apply (@remove_calls_in_order _ _ Sim.client ref w (Sim.sc_obj sc)
             (w_engine w) (w_engine w) _ (Ok tt)).
    - cbn [containers_get Sim.client]. rewrite Hfind. reflexivity.
    - cbn [container_stop Sim.client]. unfold Sim.on_container.
      rewrite Hlookup, Hstopped. reflexivity.
    - cbn [container_remove Sim.client]. unfold Sim.on_container.
      rewrite Hlookup, Hstopped. reflexivity. }
  rewrite Hrun. cbn [fst snd w_engine]. split; [reflexivity |].
  unfold Sim.lookup. cbn [Sim.se_containers].
  apply (find_filter_out (fun sc' => Sim.same_container (Sim.sc_obj sc') (Sim.sc_obj sc))).
Qed.

(** C5 on the stopped [web1] of the reference engine: it is removed, and
    the listing that follows is empty. *)
Lemma C5_remove_witness :
  let c := Scenario.web1 "exited" in
  let r := docker_container_action Scenario.cl "web1" "remove"
                                   Scenario.w_web1_stopped in
  containers_get Sim.client "web1" (w_engine Scenario.w_web1_stopped)
  = (Ok c, w_engine Scenario.w_web1_stopped)
  /\ r = (Ok "🗑️ 容器 `web1` 已删除。",
          mkWorld {| Sim.se_containers := []; Sim.se_images := []; Sim.se_created := 1 |}
                  Sim.empty_fs
                  [CallContainersGet "web1"; CallStop c; CallRemove c])
  /\ Sim.lookup c (w_engine (snd r)) = None
  /\ fst (docker_list_containers Scenario.cl true (snd r)) = Ok "📭 暂无容器。".
Proof.
  intros c r. split; [reflexivity | split; [| split]].
  - apply (proj1 C5_remove_stops_then_deletes _ _ Sim.client "web1"
             Scenario.w_web1_stopped c
             (w_engine Scenario.w_web1_stopped) (w_engine Scenario.w_web1_stopped)
             {| Sim.se_containers := []; Sim.se_images := []; Sim.se_created := 1 |}
             (Ok tt)); reflexivity.
  - apply (proj2 C5_remove_stops_then_deletes Scenario.w_web1_stopped "web1"
             {| Sim.sc_obj := c;
                Sim.sc_image := {| img_tags := ["nginx:latest"]; img_Size := Some 0%Z |};
                Sim.sc_files := []; Sim.sc_logs := []; Sim.sc_exec := [] |});
      reflexivity.
  - vm_compute. reflexivity.
Defined.

(** ** Commands inside a container *)

Lemma decode_utf8_valid (b : list byte) :
  well_formed_utf8 b = true -> decode_utf8 b = Ok (string_of_list_byte b).
Proof.
  rewrite <- valid_utf8_well_formed. unfold valid_utf8, decode_utf8.
  destruct (utf8_first_error (List.length b) 0 b); [discriminate | reflexivity].
Qed.

Lemma decode_utf8_invalid (b : list byte) :
  well_formed_utf8 b = false ->
  exists ex, exn_cls ex = UnicodeDecodeError /\ decode_utf8 b = Raise ex.
Proof.
  rewrite <- valid_utf8_well_formed. unfold valid_utf8, decode_utf8.
  destruct (utf8_first_error (List.length b) 0 b) as [err |]; [| discriminate].
  intros _. eexists. split; [| reflexivity]. reflexivity.
Qed.

(** Decoding a stream raises exactly when the stream is invalid. *)
Lemma decode_stream_invalid (x : option (list byte)) :
  stream_invalid x = true ->
  exists ex, exn_cls ex = UnicodeDecodeError /\ decode_stream x = Raise ex.
Proof.
  destruct x as [[| b0 b] |]; cbn [stream_invalid decode_stream].
  - discriminate.
  - intros H. apply decode_utf8_invalid.
    destruct (well_formed_utf8 (b0 :: b)); [discriminate | reflexivity].
  - discriminate.
Qed.

Lemma decode_stream_total (x : option (list byte)) :
  stream_invalid x = false -> exists s, decode_stream x = Ok s.
Proof.
  destruct x as [[| b0 b] |]; cbn [stream_invalid decode_stream].
  - intros _. exists EmptyString. reflexivity.
  - intros H. exists (string_of_list_byte (b0 :: b)). apply decode_utf8_valid.
    destruct (well_formed_utf8 (b0 :: b)); [reflexivity | discriminate].
  - intros _. exists EmptyString. reflexivity.
Qed.

(** C6. When the resolved container's status is not [running], the tool
    returns the "not running" text and the only engine call is the
    resolution; when it is [running], the exec call follows. *)
Theorem C6_exec_only_when_running :
  forall (E F : Type) (cl : DockerClient E) (ref command : string)
         (workdir : option string) (w : World E F) (c : Container) (e1 : E),
    containers_get cl ref (w_engine w) = (Ok c, e1) ->
    (c_status c <> "running" ->
     docker_exec_run (Some cl) ref command workdir w
     = (Ok ("❌ 容器 `" ++ c_name c ++ "` 未运行，无法执行命令。"),
        mkWorld e1 (w_fs w) (w_log w ++ [CallContainersGet ref])))
    /\ (c_status c = "running" ->
        w_log (snd (docker_exec_run (Some cl) ref command workdir w))
        = (w_log w ++ [CallContainersGet ref;
                       CallExecRun c command workdir true])%list).
Proof.
  intros E F cl ref command workdir w c e1 Hget. split; intros Hst.
  - run_facade. rewrite Hget. rewrite (eqb_differs Hst). reflexivity.
  - run_facade. rewrite Hget.
    apply String.eqb_eq in Hst. rewrite Hst. cbn [negb w_engine w_fs w_log].
    destruct (container_exec_run cl c command workdir true e1)
      as [[[code [out err]] | ex] e2]; cbn [fst snd].
    + destruct (decode_stream out) as [so | ex1];
        [destruct (decode_stream err) as [se | ex2] |];
        repeat match goal with
               | |- context [is_Exception ?x] => destruct (is_Exception x)
               end;
        cbn [snd w_log]; rewrite <- app_assoc; reflexivity.
    + destruct (is_Exception ex); cbn [snd w_log]; rewrite <- app_assoc; reflexivity.
Qed.

(** C6 on the worker container, stopped and running. *)
Lemma C6_exec_witness :
  (containers_get Sim.client "box" (w_engine (Scenario.w_box "exited"))
   = (Ok (Scenario.box_obj "exited"), w_engine (Scenario.w_box "exited"))
   /\ docker_exec_run Scenario.cl "box" "echo hi" None (Scenario.w_box "exited")
      = (Ok "❌ 容器 `box` 未运行，无法执行命令。",
         mkWorld (w_engine (Scenario.w_box "exited")) Sim.empty_fs
                 [CallContainersGet "box"]))
  /\ w_log (snd (docker_exec_run Scenario.cl "box" "echo hi" None
                                 (Scenario.w_box "running")))
     = [CallContainersGet "box";
        CallExecRun (Scenario.box_obj "running") "echo hi" None true].
Proof.
  split; [split; [reflexivity |] |].
  - apply (proj1 (@C6_exec_only_when_running _ _ Sim.client "box" "echo hi" None
                    (Scenario.w_box "exited") (Scenario.box_obj "exited")
                    (w_engine (Scenario.w_box "exited")) eq_refl)).
    discriminate.
  - apply (proj2 (@C6_exec_only_when_running _ _ Sim.client "box" "echo hi" None
                    (Scenario.w_box "running") (Scenario.box_obj "running")
                    (w_engine (Scenario.w_box "running")) eq_refl)).
    reflexivity.
Defined.

(** C10. When the exec call itself succeeds but a captured stream holds
    bytes that are not valid UTF-8, decoding raises [UnicodeDecodeError]
    and the tool returns the "execution failed" text with that error's
    message, not the exit-code report. [docker_get_logs] decodes with the
    invalid ranges dropped, so it returns the log report for every byte
    sequence; the text it shows is well formed, and is the whole log when
    the log is valid. *)
Theorem C10_exec_fails_on_invalid_utf8_logs_do_not :
  forall (E F : Type) (cl : DockerClient E) (ref : string) (w : World E F)
         (c : Container) (e1 : E),
    containers_get cl ref (w_engine w) = (Ok c, e1) ->
    (forall command workdir code out err e2,
        c_status c = "running" ->
        container_exec_run cl c command workdir true e1
        = (Ok (code, (out, err)), e2) ->
        stream_invalid out = true \/ stream_invalid err = true ->
        exists ex,
          exn_cls ex = UnicodeDecodeError
          /\ docker_exec_run (Some cl) ref command workdir w
             = (Ok ("❌ 执行失败: " ++ exn_str ex),
                mkWorld e2 (w_fs w)
                        (w_log w ++ [CallContainersGet ref;
                                     CallExecRun c command workdir true])))
    /\ (forall lines raw e2,
           container_logs cl c lines e1 = (Ok raw, e2) ->
           docker_get_logs (Some cl) ref lines w
           = (Ok ("📜 **" ++ c_name c ++ " Logs**:" ++ nl ++ "```" ++ nl
                    ++ decode_utf8_ignore raw ++ nl ++ "```"),
              mkWorld e2 (w_fs w)
                      (w_log w ++ [CallContainersGet ref; CallLogs c lines]))
           /\ well_formed_utf8 (list_byte_of_string (decode_utf8_ignore raw)) = true
           /\ (well_formed_utf8 raw = true ->
               decode_utf8_ignore raw = string_of_list_byte raw)).
Proof.
  intros E F cl ref w c e1 Hget. split.
  - intros command workdir code out err e2 Hst Hexec Hbad.
    assert (Hdec : exists ex, exn_cls ex = UnicodeDecodeError
                   /\ (decode_stream out = Raise ex
                       \/ exists s, decode_stream out = Ok s
                                    /\ decode_stream err = Raise ex)).
    { destruct (stream_invalid out) eqn:Hout.
      - destruct (decode_stream_invalid out Hout) as [ex [Hc Hd]].
        exists ex. split; [exact Hc | left; exact Hd].
      - destruct Hbad as [Hbad | Hbad]; [discriminate |].
        destruct (decode_stream_total out Hout) as [s Hs].
        destruct (decode_stream_invalid err Hbad) as [ex [Hc Hd]].
        exists ex. split; [exact Hc | right; exists s; split; assumption]. }
    destruct Hdec as [ex [Hcls Hd]]. exists ex. split; [exact Hcls |].
    assert (Hcatch : is_Exception ex = true) by (unfold is_Exception; rewrite Hcls; reflexivity).
    run_facade. rewrite Hget.
    apply String.eqb_eq in Hst. rewrite Hst. cbn [negb w_engine w_fs w_log].
    rewrite Hexec. cbn [fst snd].
    destruct Hd as [Hd | [s [Hs Hd]]].
    + rewrite Hd, Hcatch. rewrite <- app_assoc. reflexivity.
    + rewrite Hs, Hd, Hcatch. rewrite <- app_assoc. reflexivity.
  - intros lines raw e2 Hlogs. split; [| apply decode_utf8_ignore_spec].
    run_facade. rewrite Hget. cbn [w_engine w_fs w_log]. rewrite Hlogs.
    rewrite <- app_assoc. reflexivity.
Qed.

(** C10 on the worker container: a stdout of [ff 41], and logs [66 ff 6f 6f]
    shown as [foo]. *)
Lemma C10_invalid_utf8_witness :
  (exists ex,
      exn_cls ex = UnicodeDecodeError
      /\ docker_exec_run Scenario.cl "box" "cat blob" None (Scenario.w_box "running")
         = (Ok ("❌ 执行失败: " ++ exn_str ex),
            mkWorld (w_engine (Scenario.w_box "running")) Sim.empty_fs
                    [CallContainersGet "box";
                     CallExecRun (Scenario.box_obj "running") "cat blob" None true]))
  /\ docker_get_logs Scenario.cl "box" 50 (Scenario.w_box "running")
     = (Ok ("📜 **box Logs**:" ++ nl ++ "```" ++ nl ++ "foo" ++ nl ++ "```"),
        mkWorld (w_engine (Scenario.w_box "running")) Sim.empty_fs
                [CallContainersGet "box";
                 CallLogs (Scenario.box_obj "running") 50]).
Proof.
  destruct (@C10_exec_fails_on_invalid_utf8_logs_do_not _ _ Sim.client "box"
              (Scenario.w_box "running") (Scenario.box_obj "running")
              (w_engine (Scenario.w_box "running")) eq_refl) as [Hexec Hlogs].
  split.
  - apply (Hexec "cat blob" None 0%Z (Some [xff; x41]) None
                 (w_engine (Scenario.w_box "running")) eq_refl eq_refl
                 (or_introl eq_refl)).
  - apply (proj1 (Hlogs 50%Z [x66; xff; x6f; x6f]
                        (w_engine (Scenario.w_box "running")) eq_refl)).
Defined.

(** The text the exec tool returns for a stdout of [ff 41], and for a valid
    stdout with a truncated stderr. *)
Example exec_invalid_stdout_text :
  fst (docker_exec_run Scenario.cl "box" "cat blob" None (Scenario.w_box "running"))
  = Ok "❌ 执行失败: 'utf-8' codec can't decode byte 0xff in position 0: invalid start byte"
  /\ fst (docker_exec_run Scenario.cl "box" "cat blob >&2" None
                          (Scenario.w_box "running"))
     = Ok "❌ 执行失败: 'utf-8' codec can't decode bytes in position 0-1: unexpected end of data".
Proof. vm_compute. split; reflexivity. Qed.

Example exec_valid_text :
  fst (docker_exec_run Scenario.cl "box" "echo hi" None (Scenario.w_box "running"))
  = Ok ("💻 **执行结果 (Exit Code: 0)**:" ++ nl ++ "--- Stdout ---" ++ nl ++ "hi").
Proof. vm_compute. reflexivity. Qed.

(** ** Copying a file out *)

(** C7, as stated, fails: when the staging directory does not exist yet,
    it is created before the engine is asked for the archive, so a path the
    engine does not find still changes the file system. *)
Lemma C7_missing_path_creates_staging_dir :
  let w := Scenario.w_box "running" in
  let r := docker_copy_from_container Scenario.cl Sim.os "box" "/no/such/file" w in
  fst r = Ok "❌ 容器内未找到文件: /no/such/file"
  /\ w_fs (snd r) <> w_fs w
  /\ Sim.exists_path local_dir (w_fs w) = false
  /\ Sim.exists_path local_dir (w_fs (snd r)) = true
  /\ existsb is_fs_write (w_log (snd r)) = true.
Proof.
  vm_compute. repeat split. intros H. discriminate H.
Qed.

(** C7, amended. When the engine reports the path as not found, the tool
    returns the "not found" text and extracts nothing: no [extractall] is
    issued and no file is written. If the staging directory already exists
    the file system is left untouched; if it does not, the one change is
    its creation, made before the archive is requested. *)
Theorem C7_missing_path_extracts_nothing :
  forall (E F : Type) (cl : DockerClient E) (os : OS F) (ref src : string)
         (w : World E F) (c : Container) (e1 e2 : E) (ex : exn),
    containers_get cl ref (w_engine w) = (Ok c, e1) ->
    container_get_archive cl c src e1 = (Raise ex, e2) ->
    is_NotFound ex = true ->
    (os_path_exists os local_dir (w_fs w) = true ->
     docker_copy_from_container (Some cl) os ref src w
     = (Ok ("❌ 容器内未找到文件: " ++ src),
        mkWorld e2 (w_fs w)
                (w_log w ++ [CallContainersGet ref; CallGetArchive c src])))
    /\ (forall f',
           os_path_exists os local_dir (w_fs w) = false ->
           os_makedirs os local_dir (w_fs w) = (Ok tt, f') ->
           docker_copy_from_container (Some cl) os ref src w
           = (Ok ("❌ 容器内未找到文件: " ++ src),
              mkWorld e2 f'
                      (w_log w ++ [CallContainersGet ref; FsMakedirs local_dir;
                                   CallGetArchive c src]))).
Proof.
  intros E F cl os ref src w c e1 e2 ex Hget Harch Hnf. split.
  - intros Hex. run_facade. rewrite Hget. cbn [w_engine w_fs w_log].
    rewrite Hex. cbn [negb w_engine w_fs w_log].
    rewrite Harch, Hnf. rewrite <- app_assoc. reflexivity.
  - intros f' Hex Hmk. run_facade. rewrite Hget. cbn [w_engine w_fs w_log].
    rewrite Hex. cbn [negb w_engine w_fs w_log].
    rewrite Hmk. cbn [w_engine w_fs w_log].
    rewrite Harch, Hnf. rewrite <- !app_assoc. reflexivity.
Qed.

(** C7 on the worker container, with the staging directory in place and
    without it. *)
Lemma C7_missing_path_witness :
  docker_copy_from_container Scenario.cl Sim.os "box" "/no/such/file"
                             Scenario.w_box_staged
  = (Ok "❌ 容器内未找到文件: /no/such/file",
     mkWorld (w_engine Scenario.w_box_staged) (w_fs Scenario.w_box_staged)
             [CallContainersGet "box";
              CallGetArchive (Scenario.box_obj "running") "/no/such/file"])
  /\ docker_copy_from_container Scenario.cl Sim.os "box" "/no/such/file"
                                (Scenario.w_box "running")
     = (Ok "❌ 容器内未找到文件: /no/such/file",
        mkWorld (w_engine Scenario.w_box_staged) (w_fs Scenario.w_box_staged)
                [CallContainersGet "box"; FsMakedirs local_dir;
                 CallGetArchive (Scenario.box_obj "running") "/no/such/file"]).
Proof.
  split.
  - apply (proj1 (@C7_missing_path_extracts_nothing _ _ Sim.client Sim.os "box"
                    "/no/such/file" Scenario.w_box_staged
                    (Scenario.box_obj "running")
                    (w_engine Scenario.w_box_staged) (w_engine Scenario.w_box_staged)
                    (Exn DockerNotFound
                         "404 Client Error: Not Found (Could not find the file /no/such/file)")
                    eq_refl eq_refl eq_refl)).
    reflexivity.
  - apply (proj2 (@C7_missing_path_extracts_nothing _ _ Sim.client Sim.os "box"
                    "/no/such/file" (Scenario.w_box "running")
                    (Scenario.box_obj "running")
                    (w_engine Scenario.w_box_staged) (w_engine Scenario.w_box_staged)
                    (Exn DockerNotFound
                         "404 Client Error: Not Found (Could not find the file /no/such/file)")
                    eq_refl eq_refl eq_refl)).
    + reflexivity.
    + reflexivity.
Defined.

(** A path the engine does find is unpacked into the staging directory. *)
Example copy_existing_file :
  let r := docker_copy_from_container Scenario.cl Sim.os "box" "/workspace/plot.png"
                                      (Scenario.w_box "running") in
  fst r = Ok "✅ 文件已提取到本地: /AstrBot/data/data_temp/plot.png"
  /\ Sim.fs_files (w_fs (snd r))
     = [("/AstrBot/data/data_temp/plot.png", [x89; x50; x4e; x47])].
Proof. vm_compute. split; reflexivity. Qed.

(** ** Inspecting a container *)

Lemma mounts_view_pairs (pairs : list (string * string)) :
  mounts_view (map mount_of pairs)
  = Ok (map (fun sd => fst sd ++ ":" ++ snd sd) pairs).
Proof.
  induction pairs as [| sd rest IH]; [reflexivity |].
  cbn [map mounts_view mount_of m_Source m_Destination subscript].
  fold mount_of. rewrite IH. reflexivity.
Qed.

Lemma firstn_5_length {A} (l : list A) : 5 < List.length l -> List.length (firstn 5 l) = 5.
Proof. intros H. rewrite length_firstn. lia. Qed.

(** C8, as stated, fails: the container [recent] has seven environment
    entries, yet the tool reports none of them. The engine describes it
    without [MacAddress], the view cannot be built, and the result is the
    failure text. *)
Lemma C8_long_environment_without_mac_address :
  containers_get Sim.client "recent" (w_engine Cases.w_recent)
  = (Ok Cases.recent_obj, w_engine Cases.w_recent)
  /\ option_map cfg_Env (a_Config (c_attrs Cases.recent_obj))
     = Some (Some (Some Scenario.box_env))
  /\ List.length Scenario.box_env = 7
  /\ docker_inspect_container Scenario.cl "recent" Cases.w_recent
     = (Ok "❌ 获取详情失败: 'MacAddress'",
        mkWorld (w_engine Cases.w_recent) Sim.empty_fs [CallContainersGet "recent"]).
Proof. vm_compute. repeat split. Qed.

(** C8, amended. For a container the engine describes with image,
    creation time, network address, link-layer address, mounts and an
    environment of more than five entries, the report is the JSON text of
    the detail view in which image, status, creation time, both addresses
    and every source:destination pair appear whole, and the environment
    is its first five entries, five exactly. *)
Theorem C8_inspect_reports_first_five_env :
  forall (E F : Type) (cl : DockerClient E) (ref : string) (w : World E F)
         (c : Container) (e1 : E) (cfg : ConfigAttrs) (net : NetworkAttrs)
         (image created ip mac : string) (mounts : list (string * string))
         (env : list string),
    containers_get cl ref (w_engine w) = (Ok c, e1) ->
    a_Config (c_attrs c) = Some cfg ->
    cfg_Image cfg = Some image ->
    cfg_Env cfg = Some (Some env) ->
    a_Created (c_attrs c) = Some created ->
    a_NetworkSettings (c_attrs c) = Some net ->
    net_IPAddress net = Some ip ->
    net_MacAddress net = Some mac ->
    a_Mounts (c_attrs c) = Some (map mount_of mounts) ->
    5 < List.length env ->
    docker_inspect_container (Some cl) ref w
    = (Ok ("🔍 **容器详情 (" ++ c_name c ++ ")**:" ++ nl ++ "```json" ++ nl
             ++ json_dumps_indent2
                  (JObj [ ("ID", JStr (c_short_id c));
                          ("Image", JStr image);
                          ("Status", JStr (c_status c));
                          ("Created", JStr created);
                          ("IP", JStr ip);
                          ("MacAddress", JStr mac);
                          ("Mounts",
                           JArr (map (fun sd => JStr (fst sd ++ ":" ++ snd sd)) mounts));
                          ("Env", JArr (map JStr (firstn 5 env))) ])
             ++ nl ++ "```"),
       mkWorld e1 (w_fs w) (w_log w ++ [CallContainersGet ref]))
    /\ List.length (firstn 5 env) = 5
    /\ List.length (map (fun sd => fst sd ++ ":" ++ snd sd) mounts) = List.length mounts.
Proof.
  intros E F cl ref w c e1 cfg net image created ip mac mounts env
         Hget Hcfg Himg Henv Hcreated Hnet Hip Hmac Hmounts Hlen.
  split; [| split; [apply firstn_5_length; exact Hlen | apply length_map]].
  run_facade. rewrite Hget. cbn [w_engine w_fs w_log].
  unfold inspect_info.
  rewrite Hcfg, Hcreated, Hnet, Hmounts. cbn [subscript].
  rewrite Himg, Hip, Hmac, Henv. cbn [subscript slice5].
  rewrite mounts_view_pairs. rewrite map_map. reflexivity.
Qed.

(** C8 on the worker container, whose environment has seven entries. *)
Lemma C8_inspect_witness :
  docker_inspect_container Scenario.cl "box" (Scenario.w_box "running")
  = (Ok ("🔍 **容器详情 (box)**:" ++ nl ++ "```json" ++ nl
           ++ json_dumps_indent2
                (JObj [ ("ID", JStr "b0b0b0b0b0b0");
                        ("Image", JStr "python:3.11");
                        ("Status", JStr "running");
                        ("Created", JStr "2024-02-02T10:00:00Z");
                        ("IP", JStr "172.17.0.3");
                        ("MacAddress", JStr "02:42:ac:11:00:03");
                        ("Mounts",
                         JArr [JStr "/srv/data:/workspace";
                               JStr "/var/run/docker.sock:/var/run/docker.sock"]);
                        ("Env", JArr [JStr "PATH=/usr/bin"; JStr "LANG=C.UTF-8";
                                      JStr "HOME=/root"; JStr "A=1"; JStr "B=2"]) ])
           ++ nl ++ "```"),
     mkWorld (w_engine (Scenario.w_box "running")) Sim.empty_fs
             [CallContainersGet "box"])
  /\ List.length Scenario.box_env = 7
  /\ match fst (docker_inspect_container Scenario.cl "box"
                                         (Scenario.w_box "running")) with
     | Ok text =>
         contains text ("    " ++ dquote ++ "B=2" ++ dquote ++ nl ++ "  ]") = true
         /\ contains text "C=3" = false
         /\ contains text "D=4" = false
     | Raise _ => False
     end.
Proof.
  split; [| split; [reflexivity | vm_compute; repeat split]].
  apply (proj1 (@C8_inspect_reports_first_five_env _ _ Sim.client "box"
                  (Scenario.w_box "running") (Scenario.box_obj "running")
                  (w_engine (Scenario.w_box "running"))
                  {| cfg_Image := Some "python:3.11";
                     cfg_Env := Some (Some Scenario.box_env) |}
                  {| net_IPAddress := Some "172.17.0.3";
                     net_MacAddress := Some "02:42:ac:11:00:03" |}
                  "python:3.11" "2024-02-02T10:00:00Z" "172.17.0.3"
                  "02:42:ac:11:00:03" Scenario.box_mounts Scenario.box_env
                  eq_refl eq_refl eq_refl eq_refl eq_refl eq_refl eq_refl eq_refl
                  eq_refl ltac:(cbn; lia))).
Defined.

(** The report text of that container: [C=3] and [D=4], the sixth and
    seventh entries, are not in it. *)
Example inspect_box_text :
  match fst (docker_inspect_container Scenario.cl "box" (Scenario.w_box "running")) with
  | Ok text =>
      contains text "B=2" = true /\ contains text "C=3" = false
      /\ contains text "D=4" = false
      /\ contains text "/srv/data:/workspace" = true
  | Raise _ => False
  end.
Proof. vm_compute. repeat split. Qed.

(** A null environment makes the slice raise; the tool reports it. *)
Example inspect_null_env :
  forall (E F : Type) (cl : DockerClient E) (ref : string) (w : World E F)
         (c : Container) (e1 : E),
    containers_get cl ref (w_engine w) = (Ok c, e1) ->
    c_attrs c = {| a_Config := Some {| cfg_Image := Some "img"; cfg_Env := Some None |};
                   a_Created := Some "t";
                   a_NetworkSettings := Some {| net_IPAddress := Some "ip";
                                                net_MacAddress := Some "mac" |};
                   a_Mounts := Some [] |} ->
    fst (docker_inspect_container (Some cl) ref w)
    = Ok "❌ 获取详情失败: 'NoneType' object is not subscriptable".
Proof.
  intros E F cl ref w c e1 Hget Hattrs.
  run_facade. rewrite Hget. unfold inspect_info. rewrite Hattrs. reflexivity.
Qed.

(** ** Creating a container *)

(** C3, as stated, fails: [{80: 8080}] is a literal, so it is accepted
    although its key is not a [port/protocol] string; the engine is called
    with it and a container is created. A literal that is no mapping at
    all, [123], reaches the engine as well. *)
Lemma C3_non_port_mapping_reaches_engine :
  let r := docker_run_container Scenario.cl literal_eval_core "nginx:latest"
                                (Some "web1") (Some "{80: 8080}") None
                                Scenario.w_empty in
  truthy "{80: 8080}" = true
  /\ decodes_to_port_mapping literal_eval_core "{80: 8080}" = false
  /\ fst r <> Ok ports_format_error
  /\ w_log (snd r)
     = [CallContainersRun "nginx:latest" (Some "web1")
                          (PDict [(PInt 80, PInt 8080)]) None true]
  /\ List.length (Sim.se_containers (w_engine (snd r))) = 1
  /\ decodes_to_port_mapping literal_eval_core "123" = false
  /\ w_log (snd (docker_run_container Scenario.cl literal_eval_core "nginx:latest"
                                      None (Some "123") None Scenario.w_empty))
     = [CallContainersRun "nginx:latest" None (PInt 123) None true].
Proof.
  vm_compute. repeat split. intros H. discriminate H.
Qed.

(** C3, amended. For a non-empty [portsSpec], when the literal parser
    raises, the tool returns the port-format error and the world is
    untouched: no engine call, no container. When the parser returns a
    value, whatever its shape, that value is handed to the engine's run
    call. The text is only ever parsed as a literal. *)
Theorem C3_unparsable_ports_fail_fast :
  forall (E F : Type) (cl : DockerClient E)
         (literal_eval : string -> result pyval)
         (image : string) (name command : option string) (ports : string)
         (w : World E F),
    truthy ports = true ->
    match literal_eval ports with
    | Raise _ =>
        docker_run_container (Some cl) literal_eval image name (Some ports) command w
        = (Ok ports_format_error, w)
    | Ok v =>
        w_log (snd (docker_run_container (Some cl) literal_eval image name
                                         (Some ports) command w))
        = (w_log w ++ [CallContainersRun image name v command true])%list
    end.
Proof.
  intros E F cl literal_eval image name command ports w Hp.
  unfold docker_run_container. rewrite check_client_present, Hp.
  cbv beta iota delta [truthy try_except bind client_attr ret lift raise
                         engine_call catch_all catch_Exception].
  destruct (literal_eval ports) as [v | ex].
  - destruct (containers_run cl image name v command true (w_engine w))
      as [[c | ex] e1].
    + reflexivity.
    + destruct (is_Exception ex); reflexivity.
  - reflexivity.
Qed.

(** C3 on the text [not-a-mapping]. *)
Lemma C3_unparsable_ports_witness :
  docker_run_container Scenario.cl literal_eval_core "nginx:latest" (Some "web1")
                       (Some "not-a-mapping") None Scenario.w_empty
  = (Ok ports_format_error, Scenario.w_empty).
Proof.
  exact (@C3_unparsable_ports_fail_fast _ _ Sim.client literal_eval_core
           "nginx:latest" (Some "web1") None "not-a-mapping" Scenario.w_empty
           eq_refl).
Defined.

(** An absent or empty [portsSpec] is not parsed at all. *)
Lemma run_without_ports (E F : Type) (cl : DockerClient E)
      (literal_eval : string -> result pyval) (image : string)
      (name command : option string) (ports : option string) (w : World E F) :
  truthy_opt ports = false ->
  w_log (snd (docker_run_container (Some cl) literal_eval image name ports command w))
  = (w_log w ++ [CallContainersRun image name (PDict []) command true])%list.
Proof.
  intros Hp. unfold docker_run_container. rewrite check_client_present.
  cbv beta iota delta [truthy try_except bind client_attr ret lift raise
                         engine_call catch_all catch_Exception].
  destruct ports as [p |].
  - cbn [truthy_opt] in Hp. unfold truthy in Hp. destruct p; [| discriminate].
    destruct (containers_run cl image name (PDict []) command true (w_engine w))
      as [[c | ex] e1]; [reflexivity |].
    destruct (is_Exception ex); reflexivity.
  - destruct (containers_run cl image name (PDict []) command true (w_engine w))
      as [[c | ex] e1]; [reflexivity |].
    destruct (is_Exception ex); reflexivity.
Qed.

(** ** Listing containers *)

Lemma string_app_assoc (a b c : string) : (a ++ b) ++ c = a ++ (b ++ c).
Proof. induction a as [| x a IH]; [reflexivity |]. cbn. rewrite IH. reflexivity. Qed.

Lemma string_app_nil_r (a : string) : a ++ EmptyString = a.
Proof. induction a as [| x a IH]; [reflexivity |]. cbn. rewrite IH. reflexivity. Qed.

Lemma concat_cons (x : string) (l : list string) :
  String.concat EmptyString (x :: l) = x ++ String.concat EmptyString l.
Proof.
  destruct l as [| y l]; [cbn; rewrite string_app_nil_r |]; reflexivity.
Qed.

Lemma tags_read_length (E : Type) (cl : DockerClient E) :
  forall (e e' : E) (containers : list Container) (tags : list string),
    tags_read cl e containers tags e' ->
    List.length tags = List.length containers.
Proof.
  intros e e' containers tags Hread.
  induction Hread; cbn [List.length]; congruence.
Qed.

(** Whatever the loop returns is what it was given followed by one
    [listing_line] per container: name, short id, status and the image
    tag read from the engine. The port text each round computes is in
    none of them. *)
Lemma list_loop_text (E F : Type) (cl : DockerClient E) :
  forall (containers : list Container) (acc : string) (w w' : World E F)
         (text : string),
    list_loop cl containers acc w = (Ok text, w') ->
    exists tags : list string,
      tags_read cl (w_engine w) containers tags (w_engine w')
      /\ text = acc ++ String.concat EmptyString
                         (map (fun ct => listing_line (fst ct) (snd ct))
                              (combine containers tags)).
Proof.
  induction containers as [| c rest IH]; intros acc w w' text Hrun.
  - cbn in Hrun. inversion Hrun; subst. exists []. split; [constructor |].
    cbn. rewrite string_app_nil_r. reflexivity.
  - cbn [list_loop] in Hrun.
    unfold bind at 1 in Hrun. unfold lift in Hrun.
    destruct (ports_text c) as [ports | ex]; [| discriminate].
    unfold bind at 1 in Hrun. unfold image_tag_or_none in Hrun.
    unfold bind at 1 in Hrun. unfold engine_call at 1 in Hrun.
    destruct (container_image cl c (w_engine w)) as [[img | ex] e1] eqn:Himg;
      [| discriminate].
    destruct (img_tags img) as [| t0 ts0] eqn:Htags0.
    + unfold ret at 1 in Hrun. apply IH in Hrun. cbn [w_engine] in Hrun.
      destruct Hrun as [tags [Hread Htext]].
      exists ("none" :: tags). split.
      * eapply tags_read_none; eassumption.
      * rewrite Htext. cbn [combine map fst snd]. rewrite concat_cons.
        unfold listing_line. repeat rewrite string_app_assoc. reflexivity.
    + unfold bind at 1 in Hrun. unfold engine_call at 1 in Hrun.
      cbn [w_engine w_fs w_log] in Hrun.
      destruct (container_image cl c e1) as [[img' | ex] e2] eqn:Himg';
        [| discriminate].
      destruct (img_tags img') as [| t ts] eqn:Htags; [discriminate |].
      unfold ret at 1 in Hrun. apply IH in Hrun. cbn [w_engine] in Hrun.
      destruct Hrun as [tags [Hread Htext]].
      exists (t :: tags). split.
      * eapply tags_read_first; try eassumption. rewrite Htags0. discriminate.
      * rewrite Htext. cbn [combine map fst snd]. rewrite concat_cons.
        unfold listing_line. repeat rewrite string_app_assoc. reflexivity.
Qed.





(** ** The loader *)

Lemma loader_state_eta (st : LoaderState) :
  mkLoader (sys_path st) (tools st) (stderr st) = st.
Proof. destruct st; reflexivity. Qed.

(** *** The tool table *)

Lemma registered_iff (name : string) (table : list ToolDescriptor) :
  registered name table = true <-> In name (map tool_name table).
Proof.
  unfold registered. rewrite existsb_exists. split.
  - intros [d [Hd Heq]]. apply String.eqb_eq in Heq. subst name.
    apply in_map. exact Hd.
  - intros Hin. apply in_map_iff in Hin. destruct Hin as [d [Heq Hd]].
    exists d. split; [exact Hd | rewrite Heq; apply String.eqb_refl].
Qed.

Lemma register_all_cons (table : list ToolDescriptor) (d : ToolDescriptor)
      (rest : list ToolDescriptor) :
  register_all table (d :: rest) = register_all (add_tool table d) rest.
Proof. reflexivity. Qed.

Lemma register_all_app (table a b : list ToolDescriptor) :
  register_all table (a ++ b) = register_all (register_all table a) b.
Proof. apply fold_left_app. Qed.

(** Entries under names that are all different and all new go to the end
    of the table, every one of them. *)
Lemma register_all_fresh :
  forall (entries table : list ToolDescriptor),
    NoDup (map tool_name (table ++ entries)) ->
    register_all table entries = (table ++ entries)%list.
Proof.
  induction entries as [| d rest IH]; intros table Hnodup.
  - cbn. rewrite app_nil_r. reflexivity.
  - rewrite register_all_cons. unfold add_tool.
    destruct (registered (tool_name d) table) eqn:Hreg.
    + apply registered_iff in Hreg. exfalso.
      rewrite map_app in Hnodup. cbn [map] in Hnodup.
      apply NoDup_remove_2 in Hnodup. apply Hnodup.
      apply in_or_app. left. exact Hreg.
    + rewrite IH; rewrite <- app_assoc; [reflexivity | exact Hnodup].
Qed.

Lemma find_app {A : Type} (f : A -> bool) (a b : list A) :
  find f (a ++ b) = match find f a with Some x => Some x | None => find f b end.
Proof.
  induction a as [| x a IH]; [reflexivity |].
  cbn [app find]. destruct (f x); [reflexivity | exact IH].
Qed.

(** Under a name the table holds the first entry offered under it. *)
Lemma register_all_lookup (name : string) :
  forall (entries table : list ToolDescriptor),
    lookup_tool name (register_all table entries)
    = lookup_tool name (table ++ entries).
Proof.
  induction entries as [| d rest IH]; intros table.
  - cbn. rewrite app_nil_r. reflexivity.
  - rewrite register_all_cons, IH. unfold add_tool.
    destruct (registered (tool_name d) table) eqn:Hreg.
    + unfold lookup_tool. rewrite !find_app.
      destruct (find (fun entry => String.eqb (tool_name entry) name) table)
        as [x |] eqn:Hfind; [reflexivity |].
      cbn [find]. destruct (String.eqb (tool_name d) name) eqn:Hname;
        [| reflexivity].
      exfalso. apply String.eqb_eq in Hname.
      apply registered_iff in Hreg. apply in_map_iff in Hreg.
      destruct Hreg as [x [Hx Hin]].
      pose proof (find_none _ _ Hfind x Hin) as Hno. cbn beta in Hno.
      rewrite Hx, Hname, String.eqb_refl in Hno. discriminate Hno.
    + rewrite <- app_assoc. reflexivity.
Qed.

(** The table never holds two entries of one name. *)
Lemma register_all_NoDup :
  forall (entries table : list ToolDescriptor),
    NoDup (map tool_name table) ->
    NoDup (map tool_name (register_all table entries)).
Proof.
  induction entries as [| d rest IH]; intros table Hnodup; [exact Hnodup |].
  rewrite register_all_cons. apply IH. unfold add_tool.
  destruct (registered (tool_name d) table) eqn:Hreg; [exact Hnodup |].
  rewrite map_app. cbn [map].
  apply NoDup_app; [exact Hnodup | constructor; [intros [] | constructor] |].
  intros x Hx [Heq | []]. subst x.
  apply registered_iff in Hx. rewrite Hx in Hreg. discriminate Hreg.
Qed.

(** What is in the table was there before or was offered. *)
Lemma register_all_In (d : ToolDescriptor) :
  forall (entries table : list ToolDescriptor),
    In d (register_all table entries) -> In d table \/ In d entries.
Proof.
  induction entries as [| x rest IH]; intros table Hin; [left; exact Hin |].
  rewrite register_all_cons in Hin. apply IH in Hin.
  destruct Hin as [Hin | Hin]; [| right; right; exact Hin].
  unfold add_tool in Hin.
  destruct (registered (tool_name x) table); [left; exact Hin |].
  apply in_app_or in Hin. destruct Hin as [Hin | [Heq | []]];
    [left; exact Hin | right; left; exact Heq].
Qed.

(** *** One module, one file, the directory *)

Lemma register_members_outcome (tool_check : PyFunction -> result unit)
      (module : PyModule) :
  forall (members : list (string * PyFunction)) (st : LoaderState),
    register_members tool_check module members st
    = (match snd (accepted_prefix tool_check
                    (map snd (filter (qualifies module) members))) with
       | None => Ok tt
       | Some e => Raise e
       end,
       mkLoader (sys_path st)
                (register_all (tools st)
                   (fst (accepted_prefix tool_check
                           (map snd (filter (qualifies module) members)))))
                (stderr st)).
Proof.
  induction members as [| member rest IH]; intros st.
  - cbn. rewrite loader_state_eta. reflexivity.
  - cbn [register_members filter].
    destruct (qualifies module member) eqn:Hq.
    + cbn [map accepted_prefix]. unfold bind at 1. unfold mcp_tool.
      destruct (tool_check (snd member)) as [u | e].
      * rewrite IH. cbn [sys_path tools stderr].
        destruct (accepted_prefix tool_check
                    (map snd (filter (qualifies module) rest))) as [entries failure].
        cbn [fst snd]. rewrite register_all_cons. reflexivity.
      * cbn [fst snd]. cbn. rewrite loader_state_eta. reflexivity.
    + unfold bind at 1. unfold ret at 1. apply IH.
Qed.

Lemma accepted_prefix_all (tool_check : PyFunction -> result unit)
      (funcs : list PyFunction) :
  (forall f, In f funcs -> tool_check f = Ok tt) ->
  accepted_prefix tool_check funcs = (map describe funcs, None).
Proof.
  induction funcs as [| f rest IH]; intros Hall; [reflexivity |].
  cbn [accepted_prefix map]. rewrite (Hall f (or_introl eq_refl)).
  rewrite IH; [reflexivity |]. intros g Hg. apply Hall. right. exact Hg.
Qed.

Lemma accepted_prefix_split (tool_check : PyFunction -> result unit)
      (before after : list PyFunction) (f : PyFunction) (e : exn) :
  (forall g, In g before -> tool_check g = Ok tt) ->
  tool_check f = Raise e ->
  accepted_prefix tool_check (before ++ f :: after)%list
  = (map describe before, Some e).
Proof.
  intros Hbefore Hf.
  induction before as [| g rest IH]; cbn [app accepted_prefix map].
  - rewrite Hf. reflexivity.
  - rewrite (Hbefore g (or_introl eq_refl)).
    rewrite IH; [reflexivity |]. intros h Hh. apply Hbefore. right. exact Hh.
Qed.

(** One round of the loop: the file's entries are offered to the server
    and its error line, if any, goes to the end of the error stream; the
    round raises when the file fails with something that is not an
    [Exception]. *)
Lemma load_file_outcome (here : string)
      (import_module : string -> result PyModule)
      (tool_check : PyFunction -> result unit)
      (filename : string) (st : LoaderState) :
  load_file here import_module tool_check filename st
  = (match file_failure import_module tool_check filename with
     | Some e => if is_Exception e then Ok tt else Raise e
     | None => Ok tt
     end,
     mkLoader (if is_tool_file filename
               then path_ensured here (sys_path st) else sys_path st)
              (register_all (tools st)
                            (file_tools import_module tool_check filename))
              (stderr st ++ file_errors import_module tool_check filename)).
Proof.
  unfold load_file, file_tools, file_errors, file_failure, file_outcome.
  destruct (is_tool_file filename).
  - unfold try_except, bind, lift, ensure_sys_path, catch_Exception, path_ensured,
      print_stderr.
    destruct (existsb (String.eqb here) (sys_path st));
      destruct (import_module ("tools." ++ drop_last 3 filename)) as [module | e];
      try rewrite register_members_outcome; unfold qualifying;
      cbn [fst snd];
      repeat match goal with
             | |- context [accepted_prefix ?c ?l] =>
                 destruct (accepted_prefix c l) as [entries [failure |]];
                 cbn [fst snd]
             | |- context [is_Exception ?x] => destruct (is_Exception x)
             end;
      cbn [fst snd sys_path tools stderr register_all fold_left];
      rewrite ?app_nil_r, ?loader_state_eta; reflexivity.
  - cbn. rewrite app_nil_r, loader_state_eta. reflexivity.
Qed.

Lemma path_ensured_idempotent (here : string) (path : list string) :
  path_ensured here (path_ensured here path) = path_ensured here path.
Proof.
  unfold path_ensured. destruct (existsb (String.eqb here) path) eqn:Hin.
  - rewrite Hin. reflexivity.
  - rewrite existsb_app. cbn [existsb]. rewrite String.eqb_refl, orb_true_r.
    reflexivity.
Qed.

(** The loop over files that all let it go on. *)
Lemma load_files_outcome (here : string)
      (import_module : string -> result PyModule)
      (tool_check : PyFunction -> result unit) :
  forall (filenames : list string) (st : LoaderState),
    forallb (goes_on import_module tool_check) filenames = true ->
    load_files here import_module tool_check filenames st
    = (Ok tt,
       mkLoader (if existsb is_tool_file filenames
                 then path_ensured here (sys_path st) else sys_path st)
                (register_all (tools st)
                   (flat_map (file_tools import_module tool_check) filenames))
                (stderr st
                 ++ flat_map (file_errors import_module tool_check) filenames)).
Proof.
  induction filenames as [| filename rest IH]; intros st Hall.
  - cbn. rewrite app_nil_r, loader_state_eta. reflexivity.
  - cbn [forallb] in Hall. apply andb_prop in Hall. destruct Hall as [Hgo Hrest].
    cbn [load_files flat_map existsb]. unfold bind.
    rewrite load_file_outcome. unfold goes_on in Hgo.
    assert (Hok : match file_failure import_module tool_check filename with
                  | Some e => if is_Exception e then Ok tt else Raise e
                  | None => Ok tt
                  end = Ok tt).
    { destruct (file_failure import_module tool_check filename) as [e |];
        [rewrite Hgo |]; reflexivity. }
    rewrite Hok, (IH _ Hrest). cbn [sys_path tools stderr].
    rewrite register_all_app, <- app_assoc.
    destruct (is_tool_file filename); cbn [orb]; [| reflexivity].
    rewrite path_ensured_idempotent.
    destruct (existsb is_tool_file rest); reflexivity.
Qed.

(** The loop that meets a file failing with something that is not an
    [Exception]: it ends there, with what that file registered before it
    failed, and the files after it are not looked at. *)
Lemma load_files_interrupted (here : string)
      (import_module : string -> result PyModule)
      (tool_check : PyFunction -> result unit)
      (before after : list string) (filename : string) (e : exn)
      (st : LoaderState) :
  forallb (goes_on import_module tool_check) before = true ->
  file_failure import_module tool_check filename = Some e ->
  is_Exception e = false ->
  load_files here import_module tool_check (before ++ filename :: after) st
  = (Raise e,
     mkLoader (if existsb is_tool_file (before ++ [filename])
               then path_ensured here (sys_path st) else sys_path st)
              (register_all (tools st)
                 (flat_map (file_tools import_module tool_check)
                           (before ++ [filename])))
              (stderr st
               ++ flat_map (file_errors import_module tool_check) before)).
Proof.
  intros Hbefore Hfail Hex. revert st.
  induction before as [| b rest IH]; intros st.
  - cbn [app load_files flat_map existsb]. unfold bind.
    rewrite load_file_outcome. unfold file_errors. rewrite Hfail, Hex.
    rewrite !app_nil_r, orb_false_r. reflexivity.
  - cbn [forallb] in Hbefore. apply andb_prop in Hbefore.
    destruct Hbefore as [Hgo Hrest].
    cbn [app load_files flat_map existsb]. unfold bind.
    rewrite load_file_outcome. unfold goes_on in Hgo.
    assert (Hok : match file_failure import_module tool_check b with
                  | Some e => if is_Exception e then Ok tt else Raise e
                  | None => Ok tt
                  end = Ok tt).
    { destruct (file_failure import_module tool_check b) as [e0 |];
        [rewrite Hgo |]; reflexivity. }
    rewrite Hok, (IH Hrest). cbn [sys_path tools stderr].
    rewrite register_all_app, <- app_assoc.
    destruct (is_tool_file b); cbn [orb]; [| reflexivity].
    rewrite path_ensured_idempotent.
    destruct (existsb is_tool_file (rest ++ [filename])); reflexivity.
Qed.

(** C2, as stated, fails: [half.py] imports successfully and [gamma] is
    one of its qualifying functions, yet [gamma] is not registered, because
    the server rejected [beta] before it; and the module whose registration
    raised is not skipped either: [alpha], registered before the failure,
    stays in the table. *)
Lemma C2_failed_registration_keeps_earlier_tools :
  let st := snd Scenario.loaded in
  Scenario.import_module "tools.half" = Ok Scenario.half_module
  /\ is_tool_file "half.py" = true
  /\ qualifies Scenario.half_module ("gamma", Scenario.fn "tools.half" "gamma") = true
  /\ ~ In (describe (Scenario.fn "tools.half" "gamma")) (tools st)
  /\ In (describe (Scenario.fn "tools.half" "alpha")) (tools st)
  /\ In "  ❌ Error loading half.py: Invalid signature for use with FastMCP"
        (stderr st).
Proof.
  vm_compute. repeat split.
  - intros [H | [H | [H | []]]]; discriminate H.
  - right. right. left. reflexivity.
  - right. left. reflexivity.
Qed.

(** C2, amended. The loader takes the listed files in order and offers
    the server what each file contributes; a file's contribution depends
    on that file alone.

    The load as a whole. When every file lets the loop go on (it does not
    fail, or fails with an [Exception]), the load does not fail, the
    table is the table before with the contributions of all files offered
    in order, and the error stream gets the error lines of all files.
    When a file fails with something that is not an [Exception] (an exit,
    an interrupt), the load ends there with that exception, unreported:
    the table has been offered the contributions of the files up to and
    including that one, and the files after it are not processed.

    The table. The server keeps one entry per name: under every name the
    table holds the first entry offered under it, so an offer under a
    name that is taken changes nothing; when all names are different and
    new, the table is the table before followed by every entry offered.

    One file. A file whose name ends in [.py] and does not start with two
    underscores contributes: every function of its module with
    [__module__] equal to the module's name and listed under a member
    name that does not start with an underscore, each under the
    function's own [__name__], when the import and every registration
    succeed; nothing when the import raises; the functions registered
    before the first rejected one when a registration raises. A failure
    gives one error line when it is an [Exception], none otherwise. Other
    files contribute nothing. *)
Theorem C2_each_file_contributes_on_its_own :
  forall (here : string) (path_exists : string -> bool)
         (listdir : string -> result (list string))
         (import_module : string -> result PyModule)
         (tool_check : PyFunction -> result unit)
         (filenames : list string) (st : LoaderState),
    path_exists (path_join here "tools") = true ->
    listdir (path_join here "tools") = Ok filenames ->
    let r := load_tools_dynamic here path_exists listdir import_module tool_check st in
    let contributed := file_tools import_module tool_check in
    let failure := file_failure import_module tool_check in
    let reported := file_errors import_module tool_check in
    let continues := goes_on import_module tool_check in
    let module_of filename := import_module ("tools." ++ drop_last 3 filename) in
    let error_line filename e :=
      "  ❌ Error loading " ++ filename ++ ": " ++ exn_str e in
    (forallb continues filenames = true ->
     fst r = Ok tt
     /\ tools (snd r) = register_all (tools st) (flat_map contributed filenames)
     /\ stderr (snd r) = (stderr st ++ flat_map reported filenames)%list)
    /\ (forall before filename after e,
           filenames = (before ++ filename :: after)%list ->
           forallb continues before = true ->
           failure filename = Some e ->
           is_Exception e = false ->
           fst r = Raise e
           /\ tools (snd r)
              = register_all (tools st)
                             (flat_map contributed (before ++ [filename]))
           /\ stderr (snd r) = (stderr st ++ flat_map reported before)%list)
    /\ (forall table entries,
           (forall name, lookup_tool name (register_all table entries)
                         = lookup_tool name (table ++ entries))
           /\ (NoDup (map tool_name table) ->
               NoDup (map tool_name (register_all table entries)))
           /\ (NoDup (map tool_name (table ++ entries)) ->
               register_all table entries = (table ++ entries)%list))
    /\ (forall filename module,
           is_tool_file filename = true ->
           module_of filename = Ok module ->
           (forall f, In f (qualifying module) -> tool_check f = Ok tt) ->
           contributed filename = map describe (qualifying module)
           /\ failure filename = None
           /\ reported filename = [])
    /\ (forall filename e,
           is_tool_file filename = true ->
           module_of filename = Raise e ->
           contributed filename = []
           /\ failure filename = Some e
           /\ reported filename
              = if is_Exception e then [error_line filename e] else [])
    /\ (forall filename module before f after e,
           is_tool_file filename = true ->
           module_of filename = Ok module ->
           qualifying module = (before ++ f :: after)%list ->
           (forall g, In g before -> tool_check g = Ok tt) ->
           tool_check f = Raise e ->
           contributed filename = map describe before
           /\ failure filename = Some e
           /\ reported filename
              = if is_Exception e then [error_line filename e] else [])
    /\ (forall filename,
           is_tool_file filename = false ->
           contributed filename = []
           /\ failure filename = None
           /\ reported filename = []).
Proof.
  intros here path_exists listdir import_module tool_check filenames st
         Hdir Hlist r contributed failure reported continues module_of error_line.
  assert (Hr : r = load_files here import_module tool_check filenames st).
  { subst r. unfold load_tools_dynamic. rewrite Hdir. cbn [negb].
    unfold bind, lift. rewrite Hlist. reflexivity. }
  split; [| split; [| split]].
  - intros Hall. rewrite Hr.
    rewrite (@load_files_outcome here import_module tool_check filenames st Hall).
    repeat split.
  - intros before filename after e Hsplit Hbefore Hfail Hex. rewrite Hr, Hsplit.
    rewrite (@load_files_interrupted here import_module tool_check before after
               filename e st Hbefore Hfail Hex).
    repeat split.
  - intros table entries. split; [| split].
    + intros name. apply register_all_lookup.
    + apply register_all_NoDup.
    + apply register_all_fresh.
  - subst contributed failure reported module_of error_line.
    unfold file_errors, file_failure, file_tools, file_outcome.
    split; [| split; [| split]].
    + intros filename module Hfile Hmod Hall.
      rewrite Hfile, Hmod, (@accepted_prefix_all tool_check _ Hall).
      repeat split.
    + intros filename e Hfile Hmod. rewrite Hfile, Hmod. repeat split.
    + intros filename module before f after e Hfile Hmod Hsplit Hbefore Hf.
      rewrite Hfile, Hmod, Hsplit,
        (@accepted_prefix_split tool_check before after f e Hbefore Hf).
      repeat split.
    + intros filename Hfile. rewrite Hfile. repeat split.
Qed.

(** C2 on two directories. In the first, [twin.py] defines a [ping] of
    its own after [good.py] has registered one and binds [_impl] to the
    name [run], and [broken.py] fails to import: the load succeeds,
    [ping] stays the one of [good.py], [_impl] is registered under its
    own name, and the failure is reported. In the second, [quit.py] exits while it is
    imported: the load ends with that exit, nothing is reported, and
    [half.py], listed after it, registers nothing. *)
Lemma C2_loader_witness :
  load_tools_dynamic "/srv/app" (fun _ => true)
                     (fun _ => Ok ["good.py"; "twin.py"; "broken.py"])
                     Cases.import_module Scenario.tool_check Scenario.loader_start
  = (Ok tt,
     mkLoader ["/usr/lib/python3"; "/srv/app"]
              [ describe (Scenario.fn "tools.good" "ping");
                describe (Scenario.fn "tools.good" "pong");
                describe (Scenario.fn "tools.twin" "_impl");
                describe (Scenario.fn "tools.twin" "status") ]
              [ "  ❌ Error loading broken.py: No module named 'tools.broken'" ])
  /\ load_tools_dynamic "/srv/app" (fun _ => true)
                        (fun _ => Ok ["good.py"; "quit.py"; "half.py"])
                        Cases.import_module Scenario.tool_check
                        Scenario.loader_start
     = (Raise (Exn BaseExceptionOnly "0"),
        mkLoader ["/usr/lib/python3"; "/srv/app"]
                 [ describe (Scenario.fn "tools.good" "ping");
                   describe (Scenario.fn "tools.good" "pong") ]
                 []).
Proof.
  pose proof (proj1 (@C2_each_file_contributes_on_its_own
                       "/srv/app" (fun _ => true)
                       (fun _ => Ok ["good.py"; "twin.py"; "broken.py"])
                       Cases.import_module Scenario.tool_check
                       ["good.py"; "twin.py"; "broken.py"]
                       Scenario.loader_start eq_refl eq_refl) eq_refl)
    as [Hok [Htools Herr]].
  pose proof (proj1 (proj2 (@C2_each_file_contributes_on_its_own
                       "/srv/app" (fun _ => true)
                       (fun _ => Ok ["good.py"; "quit.py"; "half.py"])
                       Cases.import_module Scenario.tool_check
                       ["good.py"; "quit.py"; "half.py"]
                       Scenario.loader_start eq_refl eq_refl))
                    ["good.py"] "quit.py" ["half.py"] (Exn BaseExceptionOnly "0")
                    eq_refl eq_refl eq_refl eq_refl)
    as [Hraise [Htools' Herr']].
  split.
  - destruct (load_tools_dynamic "/srv/app" (fun _ => true)
                (fun _ => Ok ["good.py"; "twin.py"; "broken.py"])
                Cases.import_module Scenario.tool_check Scenario.loader_start)
      as [res [path table errs]] eqn:Hrun.
    cbn [fst snd tools stderr] in Hok, Htools, Herr. subst res table errs.
    apply (f_equal (fun x => sys_path (snd x))) in Hrun. cbn [snd sys_path] in Hrun.
    rewrite <- Hrun. reflexivity.
  - destruct (load_tools_dynamic "/srv/app" (fun _ => true)
                (fun _ => Ok ["good.py"; "quit.py"; "half.py"])
                Cases.import_module Scenario.tool_check Scenario.loader_start)
      as [res [path table errs]] eqn:Hrun.
    cbn [fst snd tools stderr] in Hraise, Htools', Herr'. subst res table errs.
    apply (f_equal (fun x => sys_path (snd x))) in Hrun. cbn [snd sys_path] in Hrun.
    rewrite <- Hrun. reflexivity.
Defined.

(* ================================================================== *)
(** * Further properties of the tools *)
(* ================================================================== *)

(** ** No tool lets an [Exception] escape *)

Lemma guarded_text_or_interrupt {W : Type} (body : M W string)
      (render : exn -> string) (w : W) :
  text_or_interrupt
    (fst (try_except body catch_Exception (fun e => ret (render e)) w)).
Proof.
  unfold try_except, catch_Exception.
  destruct (body w) as [[text | e] w']; [exact I |].
  destruct (is_Exception e) eqn:He; cbn; [exact I | exact He].
Qed.

Ltac guarded :=
  match goal with
  | |- text_or_interrupt (fst ((if ?b then _ else _) _)) =>
      destruct b; [exact I | apply guarded_text_or_interrupt]
  end.

(** X1. Whatever the client, the engine and the operating system do, each
    of the twelve tools ends in a text; the only exceptions that pass
    through are those outside [Exception]. *)
Theorem X1_tools_return_text :
  forall (E F : Type) (_client : option (DockerClient E)) (os : OS F)
         (literal_eval : string -> result pyval) (fmt_size_mb : Z -> string)
         (w : World E F),
    (forall all, text_or_interrupt (fst (docker_list_containers _client all w)))
    /\ (forall ref verb,
           text_or_interrupt (fst (docker_container_action _client ref verb w)))
    /\ (forall image name ports command,
           text_or_interrupt
             (fst (docker_run_container _client literal_eval image name ports
                                        command w)))
    /\ (forall ref, text_or_interrupt (fst (docker_inspect_container _client ref w)))
    /\ (forall ref lines,
           text_or_interrupt (fst (docker_get_logs _client ref lines w)))
    /\ text_or_interrupt (fst (docker_list_images _client fmt_size_mb w))
    /\ (forall name, text_or_interrupt (fst (docker_pull_image _client name w)))
    /\ (forall name force,
           text_or_interrupt (fst (docker_delete_image _client name force w)))
    /\ (forall name, text_or_interrupt (fst (docker_reset_image _client name w)))
    /\ (forall ref src,
           text_or_interrupt (fst (docker_copy_from_container _client os ref src w)))
    /\ (forall ref command workdir,
           text_or_interrupt (fst (docker_exec_run _client ref command workdir w)))
    /\ (forall ref packages,
           text_or_interrupt (fst (docker_pip_install _client ref packages w))).
Proof.
  intros E F _client os literal_eval fmt_size_mb w.
  repeat split; intros;
    unfold docker_list_containers, docker_container_action, docker_run_container,
      docker_inspect_container, docker_get_logs, docker_list_images,
      docker_pull_image, docker_delete_image, docker_reset_image,
      docker_copy_from_container, docker_pip_install, docker_exec_run;
    repeat guarded.
Qed.

(** ** The listing of containers *)

Lemma image_tag_calls (E F : Type) (cl : DockerClient E) (c : Container)
      (w : World E F) :
  let r := image_tag_or_none cl c w in
  w_fs (snd r) = w_fs w
  /\ exists evs, w_log (snd r) = (w_log w ++ evs)%list
                 /\ forallb is_image_read evs = true.
Proof.
  unfold image_tag_or_none, bind, engine_call, ret, raise.
  destruct (container_image cl c (w_engine w)) as [[img | ex] e1];
    cbn [fst snd w_engine w_fs w_log].
  - destruct (img_tags img) as [| t ts]; cbn [fst snd w_engine w_fs w_log].
    + split; [reflexivity |]. exists [CallImageOf c]. split; reflexivity.
    + destruct (container_image cl c e1) as [[img' | ex'] e2];
        cbn [fst snd w_engine w_fs w_log].
      * destruct (img_tags img'); cbn [snd w_fs w_log];
          (split; [reflexivity |]); exists [CallImageOf c; CallImageOf c];
          rewrite <- app_assoc; split; reflexivity.
      * split; [reflexivity |]. exists [CallImageOf c; CallImageOf c].
        rewrite <- app_assoc. split; reflexivity.
  - split; [reflexivity |]. exists [CallImageOf c]. split; reflexivity.
Qed.

(** The loop asks the engine for nothing but image tags, and leaves the
    file system alone, also when it raises. *)
Lemma list_loop_calls (E F : Type) (cl : DockerClient E) :
  forall (containers : list Container) (acc : string) (w : World E F),
    let r := list_loop cl containers acc w in
    w_fs (snd r) = w_fs w
    /\ exists evs, w_log (snd r) = (w_log w ++ evs)%list
                   /\ forallb is_image_read evs = true.
Proof.
  induction containers as [| c rest IH]; intros acc w.
  - cbn. split; [reflexivity |]. exists []. rewrite app_nil_r. split; reflexivity.
  - cbv zeta. cbn [list_loop]. unfold bind, lift.
    destruct (ports_text c) as [ports | ex].
    + destruct (image_tag_calls cl c w) as [Hfs [evs [Hlog Hevs]]].
      destruct (image_tag_or_none cl c w) as [[tag | ex] w1];
        cbn [fst snd] in Hfs, Hlog |- *.
      * match goal with
        | |- context [list_loop cl rest ?acc' w1] =>
            pose proof (IH acc' w1) as IH1; cbv zeta in IH1;
            destruct (list_loop cl rest acc' w1) as [r2 w2]
        end.
        cbn [snd] in IH1 |- *. destruct IH1 as [Hfs' [evs' [Hlog' Hevs']]].
        split; [rewrite Hfs'; exact Hfs |].
        exists (evs ++ evs')%list. rewrite Hlog', Hlog, <- app_assoc.
        split; [reflexivity |]. rewrite forallb_app, Hevs, Hevs'. reflexivity.
      * split; [exact Hfs |]. exists evs. split; assumption.
    + cbn [snd]. split; [reflexivity |]. exists []. rewrite app_nil_r.
      split; reflexivity.
Qed.

(** X2. Every text the listing tool returns with a client is the
    "no containers" message (the engine listed none), a failure message,
    or the header with the number of containers followed by one entry per
    container the engine listed, in the engine's order, each with the
    container's name, short id and status and with the image tag read
    from the engine for that container: the first tag of its image, or
    [none] for an image without tags. Its engine calls are the one
    listing call and reads of image tags; the file system is untouched. *)
Theorem X2_listing_outcomes :
  forall (E F : Type) (cl : DockerClient E) (all : bool) (w w' : World E F)
         (text : string),
    docker_list_containers (Some cl) all w = (Ok text, w') ->
    ((text = "📭 暂无容器。" /\ fst (containers_list cl all (w_engine w)) = Ok [])
     \/ (exists ex, text = "❌ 查询失败: " ++ exn_str ex)
     \/ (exists containers e1 tags,
            containers_list cl all (w_engine w) = (Ok containers, e1)
            /\ tags_read cl e1 containers tags (w_engine w')
            /\ List.length tags = List.length containers
            /\ text = "📦 **容器列表 (" ++ str_nat (List.length containers) ++ ")**:"
                      ++ nl
                      ++ String.concat EmptyString
                           (map (fun ct => listing_line (fst ct) (snd ct))
                                (combine containers tags))))
    /\ w_fs w' = w_fs w
    /\ exists reads,
         w_log w' = (w_log w ++ CallContainersList all :: reads)%list
         /\ forallb is_image_read reads = true.
Proof.
  intros E F cl all w w' text Hrun.
  unfold docker_list_containers in Hrun. rewrite check_client_present in Hrun.
  cbv beta iota delta [truthy try_except bind client_attr ret engine_call
                         catch_Exception] in Hrun.
  destruct (containers_list cl all (w_engine w)) as [[containers | ex] e1] eqn:Hlist;
    cbn [fst].
  - destruct containers as [| c rest].
    + inversion Hrun; subst. cbn [w_fs w_log].
      split; [left; split; reflexivity | split; [reflexivity |]].
      exists []. split; reflexivity.
    + set (w1 := mkWorld e1 (w_fs w) (w_log w ++ [CallContainersList all])) in Hrun.
      set (header := "📦 **容器列表 (" ++ str_nat (List.length (c :: rest)) ++ ")**:"
                     ++ nl) in Hrun.
      destruct (list_loop_calls cl (c :: rest) header w1) as [Hfs [evs [Hlog Hevs]]].
      destruct (list_loop cl (c :: rest) header w1) as [[out | ex] w2] eqn:Hloop;
        cbn [fst snd] in Hfs, Hlog.
      * inversion Hrun; subst out w2.
        split; [| split; [exact Hfs | exists evs; split;
                            [rewrite Hlog; subst w1; cbn [w_log];
                             rewrite <- app_assoc; reflexivity | exact Hevs]]].
        right. right.
        destruct (list_loop_text cl (c :: rest) header w1 Hloop) as [tags [Hread Htext]].
        exists (c :: rest), e1, tags.
        split; [reflexivity | split; [exact Hread | split]].
        -- exact (@tags_read_length _ cl _ _ _ _ Hread).
        -- rewrite Htext. subst header. rewrite !string_app_assoc. reflexivity.
      * destruct (is_Exception ex); [| discriminate Hrun].
        inversion Hrun; subst.
        split; [right; left; exists ex; reflexivity |].
        split; [exact Hfs |]. exists evs. split; [| exact Hevs].
        rewrite Hlog. subst w1. cbn [w_log]. rewrite <- app_assoc. reflexivity.
  - destruct (is_Exception ex); [| discriminate Hrun].
    inversion Hrun; subst. cbn [w_fs w_log].
    split; [right; left; exists ex; reflexivity | split; [reflexivity |]].
    exists []. split; reflexivity.
Qed.

Unset Implicit Arguments.

(** X2 on the stopped [web1] and the running worker container. *)
Lemma X2_listing_witness :
  let r := docker_list_containers Scenario.cl true Cases.w_two in
  fst r = Ok ("📦 **容器列表 (2)**:" ++ nl
                ++ "🔴 **web1**" ++ nl
                ++ "   ID: c0ffee0 | Stat: exited | img: nginx:latest" ++ nl
                ++ "🟢 **box**" ++ nl
                ++ "   ID: b0b0b0b0b0b0 | Stat: running | img: python:3.11" ++ nl)
  /\ w_fs (snd r) = w_fs Cases.w_two
  /\ exists reads,
       w_log (snd r) = (w_log Cases.w_two ++ CallContainersList true :: reads)%list
       /\ forallb is_image_read reads = true.
Proof.
  intros r. split; [reflexivity |].
  exact (proj2 (@X2_listing_outcomes _ _ Sim.client true Cases.w_two (snd r)
                  ("📦 **容器列表 (2)**:" ++ nl
                     ++ "🔴 **web1**" ++ nl
                     ++ "   ID: c0ffee0 | Stat: exited | img: nginx:latest" ++ nl
                     ++ "🟢 **box**" ++ nl
                     ++ "   ID: b0b0b0b0b0b0 | Stat: running | img: python:3.11" ++ nl)
                  eq_refl)).
Defined.

Lemma ports_entries_missing_host_port :
  forall (items : list (string * option (list PortBinding)))
         (k : string) (b : PortBinding) (bs : list PortBinding),
    In (k, Some (b :: bs)) items -> pb_HostPort b = None ->
    ports_entries items = Raise (Exn KeyError "'HostPort'").
Proof.
  induction items as [| [k' v'] rest IH]; intros k b bs Hin Hnone; [destruct Hin |].
  cbn [ports_entries].
  destruct v' as [[| b' bs'] |].
  - destruct Hin as [Heq | Hin]; [discriminate Heq | eauto].
  - destruct (pb_HostPort b') as [hp |] eqn:Hhp; cbn [subscript]; [| reflexivity].
    destruct Hin as [Heq | Hin].
    + inversion Heq; subst. rewrite Hnone in Hhp. discriminate Hhp.
    + rewrite (IH k b bs Hin Hnone). reflexivity.
  - destruct Hin as [Heq | Hin]; [discriminate Heq | eauto].
Qed.

Lemma ports_text_missing_host_port (c : Container) items k b bs :
  c_ports c = Some items ->
  In (k, Some (b :: bs)) items -> pb_HostPort b = None ->
  ports_text c = Raise (Exn KeyError "'HostPort'").
Proof.
  intros Hports Hin Hnone. unfold ports_text. rewrite Hports.
  destruct items as [| item rest]; [destruct Hin |].
  rewrite (ports_entries_missing_host_port (item :: rest) k b bs Hin Hnone).
  reflexivity.
Qed.

Lemma list_loop_bad_binding (E F : Type) (cl : DockerClient E) (bad : Container) :
  ports_text bad = Raise (Exn KeyError "'HostPort'") ->
  forall (containers : list Container) (acc : string) (w : World E F),
    In bad containers ->
    exists ex, fst (list_loop cl containers acc w) = Raise ex.
Proof.
  intros Hbad. induction containers as [| c rest IH]; intros acc w Hin;
    [destruct Hin |].
  cbn [list_loop]. unfold bind, lift.
  destruct (ports_text c) as [ports | ex] eqn:Hports; [| eexists; reflexivity].
  destruct (image_tag_or_none cl c w) as [[tag | ex] w1]; [| eexists; reflexivity].
  destruct Hin as [Heq | Hin].
  - subst c. rewrite Hbad in Hports. discriminate Hports.
  - apply IH. exact Hin.
Qed.

(** X3. The port text of each container is computed although the listing
    does not show it, so a published port whose first binding lacks
    [HostPort] spoils the whole listing: with such a container among those
    listed the tool returns a failure message and no entry at all, and
    when it is the first one the message is the missing key. *)
Theorem X3_listing_fails_on_binding_without_host_port :
  forall (E F : Type) (cl : DockerClient E) (all : bool) (w : World E F)
         (containers : list Container) (e1 : E) (bad : Container)
         (items : list (string * option (list PortBinding)))
         (k : string) (b : PortBinding) (bs : list PortBinding),
    containers_list cl all (w_engine w) = (Ok containers, e1) ->
    In bad containers ->
    c_ports bad = Some items ->
    In (k, Some (b :: bs)) items ->
    pb_HostPort b = None ->
    (forall text w',
        docker_list_containers (Some cl) all w = (Ok text, w') ->
        exists ex, text = "❌ 查询失败: " ++ exn_str ex)
    /\ (forall rest,
           containers = bad :: rest ->
           docker_list_containers (Some cl) all w
           = (Ok "❌ 查询失败: 'HostPort'",
              mkWorld e1 (w_fs w) (w_log w ++ [CallContainersList all]))).
Proof.
  intros E F cl all w containers e1 bad items k b bs Hlist Hin Hports Hitem Hnone.
  pose proof (ports_text_missing_host_port bad items k b bs Hports Hitem Hnone) as Hbad.
  split.
  - intros text w' Hrun.
    unfold docker_list_containers in Hrun. rewrite check_client_present in Hrun.
    cbv beta iota delta [truthy try_except bind client_attr ret engine_call
                           catch_Exception] in Hrun.
    rewrite Hlist in Hrun.
    destruct containers as [| c rest]; [destruct Hin |].
    match type of Hrun with
    | context [list_loop cl (c :: rest) ?acc ?w1] =>
        destruct (list_loop_bad_binding E F cl bad Hbad (c :: rest) acc w1 Hin)
          as [ex Hex];
        destruct (list_loop cl (c :: rest) acc w1) as [r w2]
    end.
    cbn [fst] in Hex. subst r.
    destruct (is_Exception ex); [| discriminate Hrun].
    inversion Hrun. exists ex. reflexivity.
  - intros rest Heq. subst containers.
    unfold docker_list_containers. rewrite check_client_present.
    cbv beta iota delta [truthy try_except bind client_attr ret engine_call
                           catch_Exception lift].
    rewrite Hlist. cbn [list_loop]. unfold bind, lift. rewrite Hbad. reflexivity.
Qed.

(** X3 on a container that publishes 80/tcp with a binding that has no
    host port. *)
Lemma X3_listing_witness :
  docker_list_containers Scenario.cl true Cases.w_odd
  = (Ok "❌ 查询失败: 'HostPort'",
     mkWorld (w_engine Cases.w_odd) Sim.empty_fs [CallContainersList true]).
Proof.
  exact (proj2 (X3_listing_fails_on_binding_without_host_port
                  _ _ Sim.client true Cases.w_odd [Cases.odd_obj]
                  (w_engine Cases.w_odd) Cases.odd_obj
                  [("53/udp", None);
                   ("80/tcp", Some [ {| pb_HostIp := Some "0.0.0.0";
                                        pb_HostPort := None |} ])]
                  "80/tcp" {| pb_HostIp := Some "0.0.0.0"; pb_HostPort := None |} []
                  eq_refl (or_introl eq_refl) eq_refl
                  (or_intror (or_introl eq_refl)) eq_refl)
               [] eq_refl).
Defined.

(** ** Start, stop, restart and remove *)

Ltac run_action :=
  unfold docker_container_action; rewrite ?check_client_present;
  cbv beta iota delta [truthy try_except bind client_attr ret lift raise
                         engine_call catch_all catch_Exception rendered].

(** X4. Once the reference is resolved, each of [start], [stop] and
    [restart] makes exactly one further engine call, the one of its verb,
    and renders its outcome: the verb's success text, or the
    operation-failed text with the engine's message. *)
Theorem X4_verbs_dispatch_to_their_call :
  forall (E F : Type) (cl : DockerClient E) (ref : string) (w : World E F)
         (c : Container) (e1 : E),
    containers_get cl ref (w_engine w) = (Ok c, e1) ->
    docker_container_action (Some cl) ref "start" w
    = (rendered (fst (container_start cl c e1))
                ("▶️ 容器 `" ++ c_name c ++ "` 已启动。") "❌ 操作失败: ",
       mkWorld (snd (container_start cl c e1)) (w_fs w)
               (w_log w ++ [CallContainersGet ref; CallStart c]))
    /\ docker_container_action (Some cl) ref "stop" w
       = (rendered (fst (container_stop cl c e1))
                   ("ww⏹️ 容器 `" ++ c_name c ++ "` 已停止。") "❌ 操作失败: ",
          mkWorld (snd (container_stop cl c e1)) (w_fs w)
                  (w_log w ++ [CallContainersGet ref; CallStop c]))
    /\ docker_container_action (Some cl) ref "restart" w
       = (rendered (fst (container_restart cl c e1))
                   ("🔄 容器 `" ++ c_name c ++ "` 已重启。") "❌ 操作失败: ",
          mkWorld (snd (container_restart cl c e1)) (w_fs w)
                  (w_log w ++ [CallContainersGet ref; CallRestart c])).
Proof.
  intros E F cl ref w c e1 Hget.
  repeat split; run_action; rewrite Hget;
    cbn [String.eqb Ascii.eqb Bool.eqb w_engine w_fs w_log].
  - destruct (container_start cl c e1) as [[[] | ex] e2]; cbn [fst snd];
      [| destruct (is_Exception ex)]; rewrite <- app_assoc; reflexivity.
  - destruct (container_stop cl c e1) as [[[] | ex] e2]; cbn [fst snd];
      [| destruct (is_Exception ex)]; rewrite <- app_assoc; reflexivity.
  - destruct (container_restart cl c e1) as [[[] | ex] e2]; cbn [fst snd];
      [| destruct (is_Exception ex)]; rewrite <- app_assoc; reflexivity.
Qed.

(** X4 on the stopped [web1]: started again, it is listed as running. *)
Lemma X4_verbs_witness :
  let r := docker_container_action Scenario.cl "web1" "start" Scenario.w_web1_stopped in
  fst r = Ok "▶️ 容器 `web1` 已启动。"
  /\ w_log (snd r) = [CallContainersGet "web1"; CallStart (Scenario.web1 "exited")]
  /\ w_engine (snd r) = w_engine Scenario.w_web1_running.
Proof.
  intros r.
  pose proof (proj1 (X4_verbs_dispatch_to_their_call
                       _ _ Sim.client "web1" Scenario.w_web1_stopped
                       (Scenario.web1 "exited") (w_engine Scenario.w_web1_stopped)
                       eq_refl)) as H.
  fold Scenario.cl in H. fold r in H. rewrite H. repeat split.
Defined.

(** X5. [remove] is not undone when the deletion fails: the stop it asked
    for first has been carried out by the engine, and the tool reports the
    deletion's failure. *)
Theorem X5_failed_delete_leaves_the_stop :
  forall (E F : Type) (cl : DockerClient E) (ref : string) (w : World E F)
         (c : Container) (e1 e2 e3 : E) (stop_outcome : result unit) (ex : exn),
    containers_get cl ref (w_engine w) = (Ok c, e1) ->
    container_stop cl c e1 = (stop_outcome, e2) ->
    container_remove cl c e2 = (Raise ex, e3) ->
    is_Exception ex = true ->
    docker_container_action (Some cl) ref "remove" w
    = (Ok ("❌ 操作失败: " ++ exn_str ex),
       mkWorld e3 (w_fs w)
               (w_log w ++ [CallContainersGet ref; CallStop c; CallRemove c])).
Proof.
  intros E F cl ref w c e1 e2 e3 stop_outcome ex Hget Hstop Hremove Hex.
  run_action. rewrite Hget. cbn [String.eqb Ascii.eqb Bool.eqb w_engine w_fs w_log].
  rewrite Hstop.
  destruct stop_outcome as [[] | e]; cbn [w_engine w_fs w_log];
    rewrite Hremove, Hex; rewrite <- !app_assoc; reflexivity.
Qed.

(** X5 on an engine whose deletions fail: the running [web1] ends up
    stopped and still there. *)
Lemma X5_failed_delete_witness :
  docker_container_action (Some Cases.stubborn_client) "web1" "remove"
                          Scenario.w_web1_running
  = (Ok ("❌ 操作失败: " ++ exn_str Cases.stubborn_error),
     mkWorld (w_engine Scenario.w_web1_stopped) Sim.empty_fs
             [CallContainersGet "web1"; CallStop (Scenario.web1 "running");
              CallRemove (Scenario.web1 "running")]).
Proof.
  exact (X5_failed_delete_leaves_the_stop
           _ _ Cases.stubborn_client "web1" Scenario.w_web1_running
           (Scenario.web1 "running") (w_engine Scenario.w_web1_running)
           (w_engine Scenario.w_web1_stopped) (w_engine Scenario.w_web1_stopped)
           (Ok tt) Cases.stubborn_error eq_refl eq_refl eq_refl eq_refl).
Defined.

(** X6. When the reference cannot be resolved, no verb is carried out:
    for every verb the one engine call is the failed resolution, and the
    result is the operation-failed text with the engine's message. *)
Theorem X6_unresolved_reference_stops_every_verb :
  forall (E F : Type) (cl : DockerClient E) (ref verb : string) (w : World E F)
         (e1 : E) (ex : exn),
    containers_get cl ref (w_engine w) = (Raise ex, e1) ->
    is_Exception ex = true ->
    docker_container_action (Some cl) ref verb w
    = (Ok ("❌ 操作失败: " ++ exn_str ex),
       mkWorld e1 (w_fs w) (w_log w ++ [CallContainersGet ref])).
Proof.
  intros E F cl ref verb w e1 ex Hget Hex.
  run_action. rewrite Hget, Hex. reflexivity.
Qed.

(** X6 on a name the engine does not know. *)
Lemma X6_unresolved_reference_witness :
  docker_container_action Scenario.cl "ghost" "remove" Scenario.w_web1_running
  = (Ok "❌ 操作失败: 404 Client Error: Not Found (No such container: ghost)",
     mkWorld (w_engine Scenario.w_web1_running) Sim.empty_fs
             [CallContainersGet "ghost"]).
Proof.
  exact (X6_unresolved_reference_stops_every_verb
           _ _ Sim.client "ghost" "remove" Scenario.w_web1_running
           (w_engine Scenario.w_web1_running) (Sim.no_such_container "ghost")
           eq_refl eq_refl).
Defined.

(** ** Creating a container *)

(** X7. An absent or empty ports text is not parsed: the engine's run
    call gets an empty mapping. A ports text that parses is passed on as
    parsed. Either way the container is created detached with the image,
    name and command given, and the result is the name and short id of the
    container the engine returns, or the creation-failed text with the
    engine's message. *)
Theorem X7_run_outcome :
  forall (E F : Type) (cl : DockerClient E)
         (literal_eval : string -> result pyval)
         (image : string) (name ports command : option string) (v : pyval)
         (w : World E F),
    (truthy_opt ports = false /\ v = PDict [])
    \/ (exists p, ports = Some p /\ truthy p = true /\ literal_eval p = Ok v) ->
    docker_run_container (Some cl) literal_eval image name ports command w
    = (match fst (containers_run cl image name v command true (w_engine w)) with
       | Ok c => Ok ("✅ 容器创建并启动成功！" ++ nl ++ "Name: " ++ c_name c ++ nl
                       ++ "ID: " ++ c_short_id c)
       | Raise ex => if is_Exception ex then Ok ("❌ 创建容器失败: " ++ exn_str ex)
                     else Raise ex
       end,
       mkWorld (snd (containers_run cl image name v command true (w_engine w)))
               (w_fs w)
               (w_log w ++ [CallContainersRun image name v command true])).
Proof.
  intros E F cl literal_eval image name ports command v w Hports.
  unfold docker_run_container. rewrite check_client_present.
  cbv beta iota delta [truthy try_except bind client_attr ret lift raise
                         engine_call catch_all catch_Exception].
  assert (Hparsed :
            match ports with
            | Some p =>
                if match p with EmptyString => false | String _ _ => true end
                then match literal_eval p with
                     | Ok a => (@Ok (string + pyval) (inr a), w)
                     | Raise e => (Ok (inl ports_format_error), w)
                     end
                else (Ok (inr (PDict [])), w)
            | None => (Ok (inr (PDict [])), w)
            end = (Ok (inr v), w)).
  { destruct Hports as [[Hfalse Hv] | [p [Hp [Htrue Hparse]]]]; subst.
    - destruct ports as [p |]; [| reflexivity].
      unfold truthy_opt, truthy in Hfalse. rewrite Hfalse. reflexivity.
    - unfold truthy in Htrue. rewrite Htrue, Hparse. reflexivity. }
  destruct ports as [p |].
  - destruct (match p with EmptyString => false | String _ _ => true end).
    + destruct (literal_eval p) as [a | e]; inversion Hparsed; subst.
      destruct (containers_run cl image name v command true (w_engine w))
        as [[c | ex] e1]; cbn [fst snd]; [reflexivity |].
      destruct (is_Exception ex); reflexivity.
    + inversion Hparsed; subst.
      destruct (containers_run cl image name (PDict []) command true (w_engine w))
        as [[c | ex] e1]; cbn [fst snd]; [reflexivity |].
      destruct (is_Exception ex); reflexivity.
  - inversion Hparsed; subst.
    destruct (containers_run cl image name (PDict []) command true (w_engine w))
      as [[c | ex] e1]; cbn [fst snd]; [reflexivity |].
    destruct (is_Exception ex); reflexivity.
Qed.

(** X7 on a call with an empty ports text, and on one whose name is
    taken. *)
Lemma X7_run_outcome_witness :
  docker_run_container Scenario.cl literal_eval_core "nginx:latest" None
                       (Some EmptyString) (Some "sh") Scenario.w_empty
  = (Ok ("✅ 容器创建并启动成功！" ++ nl ++ "Name: sim_0" ++ nl ++ "ID: c0ffee0"),
     mkWorld (snd (Sim.run "nginx:latest" None (PDict []) (Some "sh") true
                           Sim.empty_engine))
             Sim.empty_fs
             [CallContainersRun "nginx:latest" None (PDict []) (Some "sh") true])
  /\ fst (docker_run_container Scenario.cl literal_eval_core "nginx:latest"
                               (Some "web1") (Some "{'80/tcp': 8080}") None
                               Scenario.w_web1_running)
     = Ok "❌ 创建容器失败: 409 Client Error: Conflict (name already in use)".
Proof.
  split.
  - exact (X7_run_outcome _ _ Sim.client literal_eval_core "nginx:latest" None
             (Some EmptyString) (Some "sh") (PDict []) Scenario.w_empty
             (or_introl (conj eq_refl eq_refl))).
  - exact (f_equal fst
             (X7_run_outcome _ _ Sim.client literal_eval_core "nginx:latest"
                (Some "web1") (Some "{'80/tcp': 8080}") None
                (PDict [(PStr "80/tcp", PInt 8080)]) Scenario.w_web1_running
                (or_intror (ex_intro _ "{'80/tcp': 8080}"
                              (conj eq_refl (conj eq_refl eq_refl)))))).
Defined.

(** ** Inspecting a container: missing keys and short environments *)

Lemma mounts_view_raises (mounts : list MountAttrs) (ex : exn) :
  mounts_view mounts = Raise ex ->
  ex = Exn KeyError "'Source'" \/ ex = Exn KeyError "'Destination'".
Proof.
  induction mounts as [| m rest IH]; cbn [mounts_view]; [discriminate |].
  destruct (m_Source m); cbn [subscript];
    [| intros H; inversion H; left; reflexivity].
  destruct (m_Destination m); cbn [subscript];
    [| intros H; inversion H; right; reflexivity].
  destruct (mounts_view rest); [discriminate |].
  intros H. inversion H; subst. apply IH. reflexivity.
Qed.

(** What building the detail view can raise: a [KeyError] for the first
    key the engine's document lacks, or the [TypeError] of slicing a null
    environment. *)
Lemma inspect_info_raises (c : Container) (ex : exn) :
  inspect_info c = Raise ex ->
  (exn_cls ex = KeyError
   /\ In (exn_str ex) ["'Config'"; "'Image'"; "'Created'"; "'NetworkSettings'";
                       "'IPAddress'"; "'MacAddress'"; "'Mounts'"; "'Source'";
                       "'Destination'"; "'Env'"])
  \/ ex = Exn TypeError "'NoneType' object is not subscriptable".
Proof.
  unfold inspect_info.
  destruct (a_Config (c_attrs c)) as [cfg |]; cbn [subscript];
    [| intros H; inversion H; left; split; [reflexivity | cbn; tauto]].
  destruct (cfg_Image cfg); cbn [subscript];
    [| intros H; inversion H; left; split; [reflexivity | cbn; tauto]].
  destruct (a_Created (c_attrs c)); cbn [subscript];
    [| intros H; inversion H; left; split; [reflexivity | cbn; tauto]].
  destruct (a_NetworkSettings (c_attrs c)) as [net |]; cbn [subscript];
    [| intros H; inversion H; left; split; [reflexivity | cbn; tauto]].
  destruct (net_IPAddress net); cbn [subscript];
    [| intros H; inversion H; left; split; [reflexivity | cbn; tauto]].
  destruct (net_MacAddress net); cbn [subscript];
    [| intros H; inversion H; left; split; [reflexivity | cbn; tauto]].
  destruct (a_Mounts (c_attrs c)) as [mounts |]; cbn [subscript];
    [| intros H; inversion H; left; split; [reflexivity | cbn; tauto]].
  destruct (mounts_view mounts) as [l | e] eqn:Hm.
  - destruct (cfg_Env cfg) as [env |]; cbn [subscript];
      [| intros H; inversion H; left; split; [reflexivity | cbn; tauto]].
    destruct env as [env |]; cbn [slice5]; [discriminate |].
    intros H; inversion H. right. reflexivity.
  - intros H. inversion H; subst.
    destruct (mounts_view_raises mounts ex Hm) as [He | He]; subst;
      left; split; try reflexivity; cbn; tauto.
Qed.

(** X8. When the engine's document lacks a key the detail view reads, or
    its environment is null, no view is returned: the tool reports the
    failure, naming the first missing key. In particular a document
    without [MacAddress] under [NetworkSettings] is reported as
    ['MacAddress']. The resolution is the only engine call. *)
Theorem X8_inspect_reports_missing_key :
  forall (E F : Type) (cl : DockerClient E) (ref : string) (w : World E F)
         (c : Container) (e1 : E),
    containers_get cl ref (w_engine w) = (Ok c, e1) ->
    (forall ex,
        inspect_info c = Raise ex ->
        docker_inspect_container (Some cl) ref w
        = (Ok ("❌ 获取详情失败: " ++ exn_str ex),
           mkWorld e1 (w_fs w) (w_log w ++ [CallContainersGet ref])))
    /\ (forall cfg net image created ip,
           a_Config (c_attrs c) = Some cfg ->
           cfg_Image cfg = Some image ->
           a_Created (c_attrs c) = Some created ->
           a_NetworkSettings (c_attrs c) = Some net ->
           net_IPAddress net = Some ip ->
           net_MacAddress net = None ->
           docker_inspect_container (Some cl) ref w
           = (Ok "❌ 获取详情失败: 'MacAddress'",
              mkWorld e1 (w_fs w) (w_log w ++ [CallContainersGet ref]))).
Proof.
  intros E F cl ref w c e1 Hget.
  assert (Hraise : forall ex,
             inspect_info c = Raise ex ->
             docker_inspect_container (Some cl) ref w
             = (Ok ("❌ 获取详情失败: " ++ exn_str ex),
                mkWorld e1 (w_fs w) (w_log w ++ [CallContainersGet ref]))).
  { intros ex Hinfo.
    assert (Hex : is_Exception ex = true).
    { destruct (inspect_info_raises c ex Hinfo) as [[Hcls _] | Heq].
      - unfold is_Exception. rewrite Hcls. reflexivity.
      - subst ex. reflexivity. }
    unfold docker_inspect_container. rewrite check_client_present.
    cbv beta iota delta [truthy try_except bind client_attr ret lift
                           engine_call catch_Exception].
    rewrite Hget, Hinfo, Hex. reflexivity. }
  split; [exact Hraise |].
  intros cfg net image created ip Hcfg Himg Hcreated Hnet Hip Hmac.
  apply (Hraise (Exn KeyError "'MacAddress'")).
  unfold inspect_info. rewrite Hcfg, Hcreated, Hnet. cbn [subscript].
  rewrite Himg, Hip, Hmac. reflexivity.
Qed.

(** X8 on a container whose document has no [MacAddress]. *)
Lemma X8_inspect_missing_key_witness :
  docker_inspect_container Scenario.cl "modern" Cases.w_modern
  = (Ok "❌ 获取详情失败: 'MacAddress'",
     mkWorld (w_engine Cases.w_modern) Sim.empty_fs [CallContainersGet "modern"]).
Proof.
  exact (proj2 (X8_inspect_reports_missing_key
                  _ _ Sim.client "modern" Cases.w_modern Cases.modern_obj
                  (w_engine Cases.w_modern) eq_refl)
               {| cfg_Image := Some "alpine:3"; cfg_Env := Some (Some ["A=1"]) |}
               {| net_IPAddress := Some EmptyString; net_MacAddress := None |}
               "alpine:3" "2025-01-01T00:00:00Z" EmptyString
               eq_refl eq_refl eq_refl eq_refl eq_refl eq_refl).
Defined.



(** ** Images *)

Lemma images_loop_sized (fmt_size_mb : Z -> string) :
  forall (images : list Image) (res : string),
    (forall img, In img images -> img_Size img <> None) ->
    images_loop fmt_size_mb images res
    = Ok (res ++ String.concat EmptyString (map (image_line fmt_size_mb) images)).
Proof.
  induction images as [| img rest IH]; intros res Hsized.
  - cbn. rewrite string_app_nil_r. reflexivity.
  - cbn [images_loop map].
    destruct (img_Size img) as [size |] eqn:Hsize;
      [| exfalso; apply (Hsized img (or_introl eq_refl)); exact Hsize].
    cbn [subscript]. rewrite IH by (intros i Hi; apply Hsized; right; exact Hi).
    f_equal.
    assert (Hcat : forall x l, String.concat EmptyString (x :: l)
                               = x ++ String.concat EmptyString l).
    { intros x l. destruct l as [| y l]; [cbn; rewrite string_app_nil_r |];
        reflexivity. }
    rewrite Hcat. unfold image_line. rewrite Hsize.
    repeat rewrite string_app_assoc. reflexivity.
Qed.

Lemma images_loop_unsized (fmt_size_mb : Z -> string) :
  forall (before : list Image) (img : Image) (after : list Image) (res : string),
    (forall i, In i before -> img_Size i <> None) ->
    img_Size img = None ->
    images_loop fmt_size_mb (before ++ img :: after) res
    = Raise (Exn KeyError "'Size'").
Proof.
  induction before as [| b rest IH]; intros img after res Hsized Hnone.
  - cbn [app images_loop]. rewrite Hnone. reflexivity.
  - cbn [app images_loop].
    destruct (img_Size b) as [size |] eqn:Hsize;
      [| exfalso; apply (Hsized b (or_introl eq_refl)); exact Hsize].
    cbn [subscript]. apply IH; [| exact Hnone].
    intros i Hi. apply Hsized. right. exact Hi.
Qed.

(** X10. The image listing is one engine call. No image gives the
    "no local images" message; images that all carry a size give the
    header and one line per image in the engine's order, with the first
    tag, or [<none>] for an untagged image, and the size; one image
    without a size makes the whole listing the error ['Size']. *)
Theorem X10_image_listing :
  forall (E F : Type) (cl : DockerClient E) (fmt_size_mb : Z -> string)
         (w : World E F) (images : list Image) (e1 : E),
    images_list cl (w_engine w) = (Ok images, e1) ->
    let after := mkWorld e1 (w_fs w) (w_log w ++ [CallImagesList]) in
    (images = [] ->
     docker_list_images (Some cl) fmt_size_mb w = (Ok "📭 无本地镜像。", after))
    /\ (images <> [] ->
        (forall img, In img images -> img_Size img <> None) ->
        docker_list_images (Some cl) fmt_size_mb w
        = (Ok ("💿 **镜像列表**:" ++ nl
                 ++ String.concat EmptyString (map (image_line fmt_size_mb) images)),
           after))
    /\ (forall before img rest,
           images = (before ++ img :: rest)%list ->
           (forall i, In i before -> img_Size i <> None) ->
           img_Size img = None ->
           docker_list_images (Some cl) fmt_size_mb w
           = (Ok "❌ Error: 'Size'", after)).
Proof.
  intros E F cl fmt_size_mb w images e1 Hlist after.
  assert (Hrun : docker_list_images (Some cl) fmt_size_mb w
                 = match images with
                   | [] => (Ok "📭 无本地镜像。", after)
                   | _ :: _ =>
                       match images_loop fmt_size_mb images ("💿 **镜像列表**:" ++ nl) with
                       | Ok text => (Ok text, after)
                       | Raise ex =>
                           if is_Exception ex
                           then (Ok ("❌ Error: " ++ exn_str ex), after)
                           else (Raise ex, after)
                       end
                   end).
  { unfold docker_list_images. rewrite check_client_present.
    cbv beta iota delta [truthy try_except bind client_attr ret lift
                           engine_call catch_Exception].
    rewrite Hlist. destruct images as [| img rest]; [reflexivity |].
    destruct (images_loop fmt_size_mb (img :: rest) ("💿 **镜像列表**:" ++ nl))
      as [text | ex]; [reflexivity |].
    destruct (is_Exception ex); reflexivity. }
  split; [| split].
  - intros Hnil. rewrite Hrun, Hnil. reflexivity.
  - intros Hsome Hsized. rewrite Hrun.
    destruct images as [| img rest]; [contradiction Hsome; reflexivity |].
    rewrite (images_loop_sized fmt_size_mb (img :: rest) _ Hsized). reflexivity.
  - intros before img rest Heq Hsized Hnone. rewrite Hrun, Heq.
    rewrite (images_loop_unsized fmt_size_mb before img rest _ Hsized Hnone).
    destruct before; reflexivity.
Qed.

(** X10 on an engine with a tagged and an untagged image, and on one
    whose image has no size. *)
Lemma X10_image_listing_witness :
  fst (docker_list_images Scenario.cl Cases.whole_mb Cases.w_two)
  = Ok ("💿 **镜像列表**:" ++ nl ++ "- nginx:latest (187.0MB)" ++ nl
          ++ "- <none> (5.0MB)" ++ nl)
  /\ fst (docker_list_images Scenario.cl Cases.whole_mb Cases.w_modern)
     = Ok "❌ Error: 'Size'".
Proof.
  split.
  - refine (f_equal fst
              (proj1 (proj2 (X10_image_listing
                               _ _ Sim.client Cases.whole_mb Cases.w_two
                               (Sim.se_images (w_engine Cases.w_two))
                               (w_engine Cases.w_two) eq_refl)) _ _)).
    + discriminate.
    + intros img [H | [H | []]]; subst img; discriminate.
  - exact (f_equal fst
             (proj2 (proj2 (X10_image_listing
                              _ _ Sim.client Cases.whole_mb Cases.w_modern
                              (Sim.se_images (w_engine Cases.w_modern))
                              (w_engine Cases.w_modern) eq_refl))
                    [] {| img_tags := ["alpine:3"]; img_Size := None |} []
                    eq_refl (fun i (H : In i []) => match H with end) eq_refl)).
Defined.

(** X11. A pull that succeeds at the engine but returns an image without
    tags is reported as failed, with the text of the index error; the
    image has been pulled all the same. *)
Theorem X11_pull_of_untagged_image_reports_failure :
  forall (E F : Type) (cl : DockerClient E) (name : string) (w : World E F)
         (img : Image) (e1 : E),
    images_pull cl name (w_engine w) = (Ok img, e1) ->
    img_tags img = [] ->
    docker_pull_image (Some cl) name w
    = (Ok "❌ 拉取失败: list index out of range",
       mkWorld e1 (w_fs w) (w_log w ++ [CallImagesPull name])).
Proof.
  intros E F cl name w img e1 Hpull Htags.
  unfold docker_pull_image. rewrite check_client_present.
  cbv beta iota delta [truthy try_except bind client_attr ret lift raise
                         engine_call catch_Exception].
  rewrite Hpull, Htags. reflexivity.
Qed.

(** X12. Resetting an image pulls it and then prunes; whatever the prune
    answers or raises, the result is the success text. When the pull
    raises, no prune is attempted and the failure is reported. *)
Theorem X12_reset_disregards_prune :
  forall (E F : Type) (cl : DockerClient E) (name : string) (w : World E F),
    (forall img e1 prune_outcome e2,
        images_pull cl name (w_engine w) = (Ok img, e1) ->
        images_prune cl e1 = (prune_outcome, e2) ->
        docker_reset_image (Some cl) name w
        = (Ok ("🔄 镜像 " ++ name ++ " 已重置为最新版。"),
           mkWorld e2 (w_fs w) (w_log w ++ [CallImagesPull name; CallImagesPrune])))
    /\ (forall ex e1,
           images_pull cl name (w_engine w) = (Raise ex, e1) ->
           is_Exception ex = true ->
           docker_reset_image (Some cl) name w
           = (Ok ("❌ 重置失败: " ++ exn_str ex),
              mkWorld e1 (w_fs w) (w_log w ++ [CallImagesPull name]))).
Proof.
  intros E F cl name w. split.
  - intros img e1 prune_outcome e2 Hpull Hprune.
    unfold docker_reset_image. rewrite check_client_present.
    cbv beta iota delta [truthy try_except bind client_attr ret lift raise
                           engine_call catch_all catch_Exception].
    rewrite Hpull. cbn [w_engine w_fs w_log]. rewrite Hprune.
    destruct prune_outcome as [[] | ex]; rewrite <- app_assoc; reflexivity.
  - intros ex e1 Hpull Hex.
    unfold docker_reset_image. rewrite check_client_present.
    cbv beta iota delta [truthy try_except bind client_attr ret lift raise
                           engine_call catch_all catch_Exception].
    rewrite Hpull, Hex. reflexivity.
Qed.

(** X12 on an engine whose prune raises. *)
Lemma X12_reset_witness :
  fst (docker_reset_image (Some Cases.stubborn_client) "nginx:latest"
                          Scenario.w_empty)
  = Ok "🔄 镜像 nginx:latest 已重置为最新版。"
  /\ w_log (snd (docker_reset_image (Some Cases.stubborn_client) "nginx:latest"
                                    Scenario.w_empty))
     = [CallImagesPull "nginx:latest"; CallImagesPrune].
Proof.
  pose proof (proj1 (X12_reset_disregards_prune
                       _ _ Cases.stubborn_client "nginx:latest" Scenario.w_empty)
                    {| img_tags := ["nginx:latest"]; img_Size := Some 0%Z |}
                    (snd (images_pull Sim.client "nginx:latest" Sim.empty_engine))
                    (Raise Cases.stubborn_error)
                    (snd (images_pull Sim.client "nginx:latest" Sim.empty_engine))
                    eq_refl eq_refl) as H.
  rewrite H. split; reflexivity.
Defined.

(** X11 on a pull by digest. *)
Lemma X11_pull_witness :
  docker_pull_image (Some Cases.stubborn_client) "nginx@sha256:0123" Scenario.w_empty
  = (Ok "❌ 拉取失败: list index out of range",
     mkWorld Sim.empty_engine Sim.empty_fs [CallImagesPull "nginx@sha256:0123"]).
Proof.
  exact (X11_pull_of_untagged_image_reports_failure
           _ _ Cases.stubborn_client "nginx@sha256:0123" Scenario.w_empty
           {| img_tags := []; img_Size := Some 0%Z |} Sim.empty_engine
           eq_refl eq_refl).
Defined.

(** ** Copying a file out: the path reported and the failures *)

Lemma all_chars_snoc (p : ascii -> bool) (s : string) (c : ascii) :
  all_chars p (s ++ String c EmptyString) = all_chars p s && p c.
Proof.
  induction s as [| x s IH]; cbn [String.append all_chars].
  - rewrite andb_true_r. reflexivity.
  - rewrite IH, andb_assoc. reflexivity.
Qed.

Lemma basename_from_no_slash :
  forall (s acc : string),
    all_chars not_slash acc = true ->
    all_chars not_slash (basename_from s acc) = true.
Proof.
  induction s as [| c rest IH]; intros acc Hacc; cbn [basename_from]; [exact Hacc |].
  destruct (Ascii.eqb c "/"%char) eqn:Hc.
  - apply IH. reflexivity.
  - apply IH. rewrite all_chars_snoc, Hacc. unfold not_slash. rewrite Hc. reflexivity.
Qed.

(** The last component of a path holds no slash. *)
Lemma path_basename_no_slash (p : string) :
  all_chars not_slash (path_basename p) = true.
Proof. apply basename_from_no_slash. reflexivity. Qed.

(** Joining the staging directory and a name without slash puts the name
    directly under it. *)
Lemma path_join_local_dir (name : string) :
  all_chars not_slash name = true ->
  path_join local_dir name = local_dir ++ "/" ++ name.
Proof.
  intros Hname. unfold path_join.
  assert (Hstart : startswith name "/" = false).
  { unfold startswith. destruct name as [| c rest]; [reflexivity |].
    cbn [all_chars] in Hname. apply andb_prop in Hname. destruct Hname as [Hc _].
    unfold not_slash in Hc. cbn [String.prefix].
    destruct (ascii_dec "/" c) as [Heq | Hne]; [| reflexivity].
    subst c. discriminate Hc. }
  rewrite Hstart. reflexivity.
Qed.

Lemma basename_from_plain :
  forall (s acc : string),
    all_chars not_slash s = true -> basename_from s acc = acc ++ s.
Proof.
  induction s as [| c rest IH]; intros acc Hs; cbn [basename_from].
  - rewrite string_app_nil_r. reflexivity.
  - cbn [all_chars] in Hs. apply andb_prop in Hs. destruct Hs as [Hc Hrest].
    unfold not_slash in Hc. apply negb_true_iff in Hc. rewrite Hc.
    rewrite (IH _ Hrest), string_app_assoc. reflexivity.
Qed.

(** What follows the last slash of [dir/name]. *)
Lemma basename_from_split (name : string) :
  all_chars not_slash name = true ->
  forall (dir acc : string),
    basename_from (dir ++ "/" ++ name) acc = name.
Proof.
  intros Hname. induction dir as [| c rest IH]; intros acc.
  - cbn [String.append basename_from]. cbn.
    apply (basename_from_plain name EmptyString Hname).
  - cbn [String.append basename_from]. destruct (Ascii.eqb c "/"%char); apply IH.
Qed.

(** X13. With the staging directory in place, when the archive is fetched
    and unpacked, the calls are the resolution, the archive request and
    one extraction into the staging directory, and the path reported is
    the staging directory, a slash, and the last component of the source
    path. That component is read off the source path, not off the
    archive: it is what follows the last slash of the source path (the
    whole path when there is no slash) and holds no slash. It need not
    name a file in the staging directory: it is empty for a source path
    that ends in a slash, and [..] for one that ends in [/..]. *)
Theorem X13_copy_reports_path_in_staging_dir :
  (forall (E F : Type) (cl : DockerClient E) (os : OS F) (ref src : string)
          (w : World E F) (c : Container) (e1 e2 : E)
          (bits : list (list byte)) (stat : ArchiveStat) (tar : TarFile) (f' : F),
      containers_get cl ref (w_engine w) = (Ok c, e1) ->
      os_path_exists os local_dir (w_fs w) = true ->
      container_get_archive cl c src e1 = (Ok (bits, stat), e2) ->
      tarfile_open os (List.concat bits) = Ok tar ->
      tar_extractall os tar local_dir (w_fs w) = (Ok tt, f') ->
      docker_copy_from_container (Some cl) os ref src w
      = (Ok ("✅ 文件已提取到本地: " ++ "/AstrBot/data/data_temp/" ++ path_basename src),
         mkWorld e2 f'
                 (w_log w ++ [CallContainersGet ref; CallGetArchive c src;
                              FsExtractall local_dir])))
  /\ (forall src : string, all_chars not_slash (path_basename src) = true)
  /\ (forall dir name : string,
         all_chars not_slash name = true ->
         path_basename (dir ++ "/" ++ name) = name)
  /\ (forall src : string,
         all_chars not_slash src = true -> path_basename src = src).
Proof.
  split; [| split; [exact path_basename_no_slash | split]].
  - intros E F cl os ref src w c e1 e2 bits stat tar f' Hget Hex Harch Htar Hextract.
    unfold docker_copy_from_container. rewrite check_client_present.
    cbv beta iota delta [truthy try_except bind client_attr ret lift raise
                           engine_call fs_write fs_read catch_NotFound
                           catch_Exception].
    rewrite Hget. cbn [w_engine w_fs w_log]. rewrite Hex.
    cbn [negb w_engine w_fs w_log].
    rewrite Harch. cbn [fst snd w_engine w_fs w_log]. rewrite Htar.
    cbn [w_engine w_fs w_log]. rewrite Hextract.
    rewrite (path_join_local_dir _ (path_basename_no_slash src)).
    rewrite <- !app_assoc. reflexivity.
  - intros dir name Hname. apply basename_from_split. exact Hname.
  - intros src Hsrc. apply (basename_from_plain src EmptyString Hsrc).
Qed.

(** X13 on the worker container's [/workspace/plot.png], and on the last
    components of [/workspace/], [/workspace/..] and [plot.png]. *)
Lemma X13_copy_witness :
  let r := docker_copy_from_container Scenario.cl Sim.os "box" "/workspace/plot.png"
                                      Scenario.w_box_staged in
  (fst r = Ok "✅ 文件已提取到本地: /AstrBot/data/data_temp/plot.png"
   /\ w_log (snd r)
      = [CallContainersGet "box";
         CallGetArchive (Scenario.box_obj "running") "/workspace/plot.png";
         FsExtractall local_dir]
   /\ Sim.fs_files (w_fs (snd r))
      = [("/AstrBot/data/data_temp/plot.png", [x89; x50; x4e; x47])])
  /\ path_basename "/workspace/" = EmptyString
  /\ path_basename "/workspace/.." = ".."
  /\ path_basename "plot.png" = "plot.png".
Proof.
  intros r.
  pose proof (proj1 X13_copy_reports_path_in_staging_dir
                    _ _ Sim.client Sim.os "box" "/workspace/plot.png"
                    Scenario.w_box_staged (Scenario.box_obj "running")
                    (w_engine Scenario.w_box_staged)
                    (w_engine Scenario.w_box_staged)
                    [Sim.archive_of "plot.png" [x89; x50; x4e; x47]]
                    {| st_name := "plot.png"; st_size := 4%Z |}
                    [ {| tm_name := "plot.png"; tm_data := [x89; x50; x4e; x47] |} ]
                    {| Sim.fs_dirs := Sim.fs_dirs (w_fs Scenario.w_box_staged);
                       Sim.fs_files :=
                         [("/AstrBot/data/data_temp/plot.png",
                           [x89; x50; x4e; x47])] |}
                    eq_refl eq_refl eq_refl eq_refl eq_refl) as H.
  fold Scenario.cl in H. fold r in H.
  split; [rewrite H; repeat split | split; [| split]].
  - exact (proj1 (proj2 (proj2 X13_copy_reports_path_in_staging_dir))
                 "/workspace" EmptyString eq_refl).
  - exact (proj1 (proj2 (proj2 X13_copy_reports_path_in_staging_dir))
                 "/workspace" ".." eq_refl).
  - exact (proj2 (proj2 (proj2 X13_copy_reports_path_in_staging_dir))
                 "plot.png" eq_refl).
Defined.

(** X14. When the container itself cannot be resolved, also when the
    engine says "not found", the result is the general extraction-failed
    text, not the file-not-found one; nothing else is asked of the engine
    and the file system is untouched, the staging directory is not even
    created. *)
Theorem X14_copy_from_unknown_container :
  forall (E F : Type) (cl : DockerClient E) (os : OS F) (ref src : string)
         (w : World E F) (e1 : E) (ex : exn),
    containers_get cl ref (w_engine w) = (Raise ex, e1) ->
    is_Exception ex = true ->
    docker_copy_from_container (Some cl) os ref src w
    = (Ok ("❌ 提取文件失败: " ++ exn_str ex),
       mkWorld e1 (w_fs w) (w_log w ++ [CallContainersGet ref])).
Proof.
  intros E F cl os ref src w e1 ex Hget Hex.
  unfold docker_copy_from_container. rewrite check_client_present.
  cbv beta iota delta [truthy try_except bind client_attr ret lift raise
                         engine_call fs_write fs_read catch_NotFound
                         catch_Exception].
  rewrite Hget, Hex. reflexivity.
Qed.

(** X14 on a name the engine does not know, with no staging directory. *)
Lemma X14_copy_witness :
  docker_copy_from_container Scenario.cl Sim.os "ghost" "/workspace/plot.png"
                             (Scenario.w_box "running")
  = (Ok "❌ 提取文件失败: 404 Client Error: Not Found (No such container: ghost)",
     mkWorld (w_engine (Scenario.w_box "running")) Sim.empty_fs
             [CallContainersGet "ghost"]).
Proof.
  exact (X14_copy_from_unknown_container
           _ _ Sim.client Sim.os "ghost" "/workspace/plot.png"
           (Scenario.w_box "running") (w_engine (Scenario.w_box "running"))
           (Sim.no_such_container "ghost") eq_refl eq_refl).
Defined.

(** X15. When the bytes the engine sends cannot be opened as a tar
    archive, nothing is extracted: the tool reports the failure, and with
    the staging directory in place the file system is unchanged. *)
Theorem X15_copy_of_unreadable_archive :
  forall (E F : Type) (cl : DockerClient E) (os : OS F) (ref src : string)
         (w : World E F) (c : Container) (e1 e2 : E)
         (bits : list (list byte)) (stat : ArchiveStat) (ex : exn),
    containers_get cl ref (w_engine w) = (Ok c, e1) ->
    os_path_exists os local_dir (w_fs w) = true ->
    container_get_archive cl c src e1 = (Ok (bits, stat), e2) ->
    tarfile_open os (List.concat bits) = Raise ex ->
    is_Exception ex = true ->
    docker_copy_from_container (Some cl) os ref src w
    = (Ok ("❌ 提取文件失败: " ++ exn_str ex),
       mkWorld e2 (w_fs w)
               (w_log w ++ [CallContainersGet ref; CallGetArchive c src])).
Proof.
  intros E F cl os ref src w c e1 e2 bits stat ex Hget Hexists Harch Htar Hex.
  unfold docker_copy_from_container. rewrite check_client_present.
  cbv beta iota delta [truthy try_except bind client_attr ret lift raise
                         engine_call fs_write fs_read catch_NotFound
                         catch_Exception].
  rewrite Hget. cbn [w_engine w_fs w_log]. rewrite Hexists.
  cbn [negb w_engine w_fs w_log].
  rewrite Harch. cbn [fst snd w_engine w_fs w_log]. rewrite Htar, Hex.
  rewrite <- !app_assoc. reflexivity.
Qed.

(** X15 on an engine that sends three bytes that are no archive. *)
Lemma X15_copy_witness :
  docker_copy_from_container (Some Cases.stubborn_client) Sim.os "box" "/garbled"
                             Scenario.w_box_staged
  = (Ok "❌ 提取文件失败: file could not be opened successfully",
     mkWorld (w_engine Scenario.w_box_staged) (w_fs Scenario.w_box_staged)
             [CallContainersGet "box";
              CallGetArchive (Scenario.box_obj "running") "/garbled"]).
Proof.
  exact (X15_copy_of_unreadable_archive
           _ _ Cases.stubborn_client Sim.os "box" "/garbled" Scenario.w_box_staged
           (Scenario.box_obj "running") (w_engine Scenario.w_box_staged)
           (w_engine Scenario.w_box_staged) [[x01; x02]; [x03]]
           {| st_name := "garbled"; st_size := 3%Z |}
           (Exn TarError "file could not be opened successfully")
           eq_refl eq_refl eq_refl eq_refl eq_refl).
Defined.

(** ** Running a command: the report of a silent command *)

(** The bytes of a concatenation. *)
Lemma bytes_app (a b : string) :
  list_byte_of_string (a ++ b) = (list_byte_of_string a ++ list_byte_of_string b)%list.
Proof.
  unfold list_byte_of_string.
  induction a as [| c a IH]; [reflexivity |].
  cbn [String.append list_ascii_of_string map app]. rewrite IH. reflexivity.
Qed.

(** A character the scan finds at the head of [s] is found at the head of
    any extension of [s]. *)
Lemma scan_char_app (s : list byte) (n : nat) :
  utf8_scan s = U8Char n -> forall rest, utf8_scan (s ++ rest) = U8Char n.
Proof.
  destruct s as [| b0 [| b1 [| b2 [| b3 r]]]]; unfold utf8_scan;
    cbn [map app];
    repeat match goal with
           | |- context [if ?c then _ else _] => destruct c
           end;
    intros Hscan rest; try discriminate Hscan; try exact Hscan.
  all: destruct rest; cbn [map]; try exact Hscan; try discriminate Hscan.
Qed.

(** Decimal text is ASCII. *)
Lemma uint_ascii (d : Decimal.uint) :
  ascii_only (list_byte_of_string (NilEmpty.string_of_uint d)) = true.
Proof. induction d; cbn; try reflexivity; exact IHd. Qed.

Lemma nilzero_uint_ascii (d : Decimal.uint) :
  ascii_only (list_byte_of_string (NilZero.string_of_uint d)) = true.
Proof.
  unfold NilZero.string_of_uint. destruct d; try reflexivity; apply uint_ascii.
Qed.

Lemma str_int_ascii (z : Z) : ascii_only (list_byte_of_string (str_int z)) = true.
Proof.
  unfold str_int, NilZero.string_of_int.
  destruct (Z.to_int z) as [d | d]; [apply nilzero_uint_ascii |].
  change (String "-" (NilZero.string_of_uint d))
    with ("-" ++ NilZero.string_of_uint d).
  rewrite bytes_app. unfold ascii_only. rewrite forallb_app.
  fold (ascii_only (list_byte_of_string (NilZero.string_of_uint d))).
  rewrite nilzero_uint_ascii. reflexivity.
Qed.

(** ASCII bytes are well-formed UTF-8. *)
Lemma ascii_only_well_formed (b : list byte) :
  ascii_only b = true -> well_formed_utf8 b = true.
Proof.
  induction b as [| x b IH]; [reflexivity |].
  cbn [ascii_only forallb]. intros H. apply andb_prop in H. destruct H as [Hx Hb].
  rewrite well_formed_utf8_cons. cbv zeta. unfold in_range.
  apply N.ltb_lt in Hx.
  replace (0 <=? Byte.to_N x)%N with true by (symmetry; apply N.leb_le; lia).
  replace (Byte.to_N x <=? 127)%N with true by (symmetry; apply N.leb_le; lia).
  cbn [andb]. apply IH. exact Hb.
Qed.

(** The fuel [chars_of] starts with never runs out. *)
Lemma utf8_chars_fuel :
  forall (fuel fuel' : nat) (s : list byte),
    (List.length s <= fuel)%nat -> (List.length s <= fuel')%nat ->
    utf8_chars fuel s = utf8_chars fuel' s.
Proof.
  induction fuel as [| fuel IH]; intros fuel' s Hlen Hlen'.
  - destruct s; [| cbn in Hlen; lia]. destruct fuel'; reflexivity.
  - destruct fuel' as [| fuel'].
    + destruct s; [reflexivity | cbn in Hlen'; lia].
    + destruct s as [| b0 r]; [reflexivity |].
      cbn [utf8_chars]. pose proof (utf8_scan_progress (b0 :: r)) as Hp.
      set (n := match utf8_scan (b0 :: r) with U8Char n => n | _ => 1%nat end).
      assert (Hn : (1 <= n <= List.length (b0 :: r))%nat).
      { subst n. destruct (utf8_scan (b0 :: r)); cbn [List.length] in *; lia. }
      f_equal. apply IH; rewrite length_skipn; lia.
Qed.

(** The characters of a well-formed text followed by more bytes: those
    of the text, then those of the rest. *)
Lemma utf8_chars_app :
  forall (n : nat) (x y : list byte) (fuel : nat),
    (List.length x <= n)%nat -> well_formed_utf8 x = true ->
    (List.length (x ++ y) <= fuel)%nat ->
    utf8_chars fuel (x ++ y)
    = (utf8_chars n x ++ utf8_chars (List.length y) y)%list.
Proof.
  induction n as [| n IH]; intros x y fuel Hlen Hwf Hfuel.
  - destruct x; [| cbn in Hlen; lia]. cbn [app utf8_chars] in *.
    apply utf8_chars_fuel; [exact Hfuel | apply le_n].
  - destruct x as [| b0 r].
    + cbn [app utf8_chars] in *. apply utf8_chars_fuel; [exact Hfuel | apply le_n].
    + pose proof (utf8_scan_progress (b0 :: r)) as Hp.
      pose proof (scan_error_ill_formed (b0 :: r)) as He.
      destruct (utf8_scan (b0 :: r)) as [| k | | k |] eqn:Hs;
        try (rewrite Hwf in He; discriminate He); [discriminate Hp |].
      destruct fuel as [| fuel]; [cbn in Hfuel; lia |].
      pose proof (@scan_char_app (b0 :: r) k Hs y) as Hs'.
      cbn [app] in Hs' |- *. cbn [utf8_chars]. rewrite Hs'.
      change (b0 :: (r ++ y)%list) with ((b0 :: r) ++ y)%list.
      rewrite firstn_app, skipn_app.
      replace (k - List.length (b0 :: r))%nat with 0%nat by lia.
      cbn [firstn skipn]. rewrite app_nil_r.
      change (utf8_chars (S n) (b0 :: r))
        with (let m := match utf8_scan (b0 :: r) with U8Char m => m | _ => 1%nat end in
              firstn m (b0 :: r) :: utf8_chars n (skipn m (b0 :: r))).
      rewrite Hs. cbv zeta. cbn [app]. f_equal.
      apply IH.
      * rewrite length_skipn. lia.
      * rewrite <- (@scan_char_well_formed (b0 :: r) k Hs (skipn k (b0 :: r))).
        rewrite firstn_skipn. exact Hwf.
      * rewrite length_app, length_skipn. rewrite length_app in Hfuel.
        cbn [List.length] in *. lia.
Qed.

Lemma chars_of_app (a b : string) :
  well_formed_utf8 (list_byte_of_string a) = true ->
  chars_of (a ++ b) = (chars_of a ++ chars_of b)%list.
Proof.
  intros Hwf. unfold chars_of. cbv zeta. rewrite bytes_app.
  apply utf8_chars_app; [apply le_n | exact Hwf | apply le_n].
Qed.

(** [strip] changes nothing in a text whose first and last characters are
    not white space. *)
Lemma strip_between_visible (s : string) (first last : list byte)
      (rest init : list (list byte)) :
  chars_of s = first :: rest ->
  chars_of s = (init ++ [last])%list ->
  is_space (codepoint first) = false ->
  is_space (codepoint last) = false ->
  strip s = s.
Proof.
  intros Hfirst Hlast Hf Hl. unfold strip.
  rewrite Hfirst. cbn [drop_spaces]. rewrite Hf. rewrite <- Hfirst, Hlast.
  rewrite rev_app_distr. cbn [rev app drop_spaces]. rewrite Hl.
  cbn [rev]. rewrite rev_involutive, <- Hlast.
  unfold chars_of. cbv zeta. rewrite utf8_chars_concat by apply le_n.
  apply string_of_list_byte_of_string.
Qed.

(** The report begins with the terminal sign and ends with a bracket. *)
Lemma report_head_chars :
  well_formed_utf8 (list_byte_of_string report_head) = true
  /\ exists first rest, chars_of report_head = first :: rest
                        /\ is_space (codepoint first) = false.
Proof.
  split; [vm_compute; reflexivity |].
  eexists. eexists. split; vm_compute; reflexivity.
Qed.

Lemma report_tail_chars :
  exists init last, chars_of report_tail = (init ++ [last])%list
                    /\ is_space (codepoint last) = false.
Proof.
  exists (removelast (chars_of report_tail)), (List.last (chars_of report_tail) []).
  split; vm_compute; reflexivity.
Qed.

(** The report of a silent command has nothing to strip. *)
Lemma strip_no_output_report (code : Z) :
  strip (no_output_report code) = no_output_report code.
Proof.
  unfold no_output_report.
  destruct report_head_chars as [HP [first [rest [Hhead Hfirst]]]].
  destruct report_tail_chars as [init [last [Htail Hlast]]].
  assert (HD : well_formed_utf8 (list_byte_of_string (str_int code)) = true)
    by (apply ascii_only_well_formed, str_int_ascii).
  assert (Hchars : chars_of (report_head ++ str_int code ++ report_tail)
                   = (chars_of report_head ++ chars_of (str_int code)
                        ++ chars_of report_tail)%list).
  { rewrite (chars_of_app report_head _ HP), (chars_of_app (str_int code) _ HD).
    reflexivity. }
  apply (@strip_between_visible _ first last
           (rest ++ chars_of (str_int code) ++ chars_of report_tail)%list
           (chars_of report_head ++ chars_of (str_int code) ++ init)%list).
  - rewrite Hchars, Hhead. reflexivity.
  - rewrite Hchars, Htail. rewrite <- !app_assoc. reflexivity.
  - exact Hfirst.
  - exact Hlast.
Qed.

Lemma report_assoc (s : string) :
  ("💻 **执行结果 (Exit Code: " ++ s ++ ")**:" ++ nl) ++ "(无输出)"
  = report_head ++ s ++ report_tail.
Proof.
  unfold report_head, report_tail. rewrite !string_app_assoc. reflexivity.
Qed.

Lemma decode_no_bytes (x : option (list byte)) :
  no_bytes x = true -> decode_stream x = Ok EmptyString.
Proof. destruct x as [[| b r] |]; [reflexivity | discriminate | reflexivity]. Qed.

(** X17. A command that runs and prints nothing on either stream (none
    captured, or empty bytes) is reported as the header with its exit code
    and the "(no output)" marker, exactly, whatever the exit code: a
    non-zero exit is a result, not a failure. *)
Theorem X17_silent_command_report :
  forall (E F : Type) (cl : DockerClient E) (ref command : string)
         (workdir : option string) (w : World E F) (c : Container) (e1 e2 : E)
         (code : Z) (out err : option (list byte)),
    containers_get cl ref (w_engine w) = (Ok c, e1) ->
    c_status c = "running" ->
    container_exec_run cl c command workdir true e1 = (Ok (code, (out, err)), e2) ->
    no_bytes out = true ->
    no_bytes err = true ->
    docker_exec_run (Some cl) ref command workdir w
    = (Ok ("💻 **执行结果 (Exit Code: " ++ str_int code ++ ")**:" ++ nl ++ "(无输出)"),
       mkWorld e2 (w_fs w)
               (w_log w ++ [CallContainersGet ref;
                            CallExecRun c command workdir true])).
Proof.
  intros E F cl ref command workdir w c e1 e2 code out err
         Hget Hst Hexec Hout Herr.
  unfold docker_exec_run. rewrite check_client_present.
  cbv beta iota delta [truthy try_except bind client_attr ret lift raise
                         engine_call catch_Exception].
  rewrite Hget. apply String.eqb_eq in Hst. rewrite Hst.
  cbn [negb w_engine w_fs w_log]. rewrite Hexec. cbn [fst snd].
  rewrite (decode_no_bytes out Hout), (decode_no_bytes err Herr).
  cbn [negb andb w_engine w_fs w_log].
  rewrite report_assoc.
  change (report_head ++ str_int code ++ report_tail) with (no_output_report code).
  rewrite strip_no_output_report. unfold no_output_report, report_head, report_tail.
  rewrite <- !app_assoc. reflexivity.
Qed.

(** X17 on a command that exits with 1 and prints nothing. *)
Lemma X17_silent_command_witness :
  docker_exec_run Scenario.cl "odd" "false" None Cases.w_odd
  = (Ok ("💻 **执行结果 (Exit Code: 1)**:" ++ nl ++ "(无输出)"),
     mkWorld (w_engine Cases.w_odd) Sim.empty_fs
             [CallContainersGet "odd";
              CallExecRun Cases.odd_obj "false" None true]).
Proof.
  exact (X17_silent_command_report
           _ _ Sim.client "odd" "false" None Cases.w_odd Cases.odd_obj
           (w_engine Cases.w_odd) (w_engine Cases.w_odd) 1%Z None None
           eq_refl eq_refl eq_refl eq_refl eq_refl).
Defined.

(** ** Installing packages *)

Lemma contains_prefix (s sub : string) :
  String.prefix sub s = true -> contains s sub = true.
Proof. intros H. destruct s; cbn [contains]; rewrite H; reflexivity. Qed.

Lemma prefix_app (p rest : string) : String.prefix p (p ++ rest) = true.
Proof.
  induction p as [| c p IH]; [destruct rest; reflexivity |].
  cbn [String.append String.prefix].
  destruct (ascii_dec c c) as [_ | Hne]; [exact IH | contradiction Hne; reflexivity].
Qed.

Lemma contains_app (a s sub : string) :
  contains s sub = true -> contains (a ++ s) sub = true.
Proof.
  intros H. induction a as [| c a IH]; [exact H |].
  cbn [String.append contains]. rewrite IH. apply orb_true_r.
Qed.

(** X16. Installing packages is one exec of one command line: the fixed
    pip invocation with the package text inserted as it is given, run
    without a working directory. It needs a running container: on any
    other status the result is the "not running" text and nothing is
    run. *)
Theorem X16_pip_install_runs_the_templated_command :
  forall (E F : Type) (cl : DockerClient E) (ref packages : string)
         (w : World E F) (c : Container) (e1 : E),
    containers_get cl ref (w_engine w) = (Ok c, e1) ->
    docker_pip_install (Some cl) ref packages w
    = docker_exec_run (Some cl) ref (pip_command packages) None w
    /\ contains (pip_command packages) packages = true
    /\ (c_status c = "running" ->
        w_log (snd (docker_pip_install (Some cl) ref packages w))
        = (w_log w ++ [CallContainersGet ref;
                       CallExecRun c (pip_command packages) None true])%list)
    /\ (c_status c <> "running" ->
        docker_pip_install (Some cl) ref packages w
        = (Ok ("❌ 容器 `" ++ c_name c ++ "` 未运行，无法执行命令。"),
           mkWorld e1 (w_fs w) (w_log w ++ [CallContainersGet ref]))).
Proof.
  intros E F cl ref packages w c e1 Hget.
  assert (Hdelegate : docker_pip_install (Some cl) ref packages w
                      = docker_exec_run (Some cl) ref (pip_command packages) None w)
    by reflexivity.
  split; [exact Hdelegate | split; [| split]].
  - unfold pip_command. apply contains_app, contains_prefix, prefix_app.
  - intros Hst. rewrite Hdelegate.
    unfold docker_exec_run. rewrite check_client_present.
    cbv beta iota delta [truthy try_except bind client_attr ret lift raise
                           engine_call catch_Exception].
    rewrite Hget. apply String.eqb_eq in Hst. rewrite Hst.
    cbn [negb w_engine w_fs w_log].
    destruct (container_exec_run cl c (pip_command packages) None true e1)
      as [[[code [out err]] | ex] e2]; cbn [fst snd].
    + destruct (decode_stream out) as [so | ex1];
        [destruct (decode_stream err) as [se | ex2] |];
        repeat match goal with
               | |- context [is_Exception ?x] => destruct (is_Exception x)
               end;
        cbn [snd w_log]; rewrite <- app_assoc; reflexivity.
    + destruct (is_Exception ex); cbn [snd w_log]; rewrite <- app_assoc; reflexivity.
  - intros Hst. rewrite Hdelegate.
    unfold docker_exec_run. rewrite check_client_present.
    cbv beta iota delta [truthy try_except bind client_attr ret lift raise
                           engine_call catch_Exception].
    rewrite Hget. rewrite (proj2 (String.eqb_neq _ _) Hst). reflexivity.
Qed.

(** X16 on the worker container, running and stopped. *)
Lemma X16_pip_install_witness :
  w_log (snd (docker_pip_install Scenario.cl "box" "numpy; id" (Scenario.w_box "running")))
  = [CallContainersGet "box";
     CallExecRun (Scenario.box_obj "running")
       "pip install numpy; id -i https://pypi.tuna.tsinghua.edu.cn/simple --default-timeout=100 --trusted-host pypi.tuna.tsinghua.edu.cn"
       None true]
  /\ docker_pip_install Scenario.cl "box" "numpy" (Scenario.w_box "exited")
     = (Ok "❌ 容器 `box` 未运行，无法执行命令。",
        mkWorld (w_engine (Scenario.w_box "exited")) Sim.empty_fs
                [CallContainersGet "box"]).
Proof.
  split.
  - exact (proj1 (proj2 (proj2 (X16_pip_install_runs_the_templated_command
                                  _ _ Sim.client "box" "numpy; id"
                                  (Scenario.w_box "running")
                                  (Scenario.box_obj "running")
                                  (w_engine (Scenario.w_box "running")) eq_refl)))
                 eq_refl).
  - refine (proj2 (proj2 (proj2 (X16_pip_install_runs_the_templated_command
                                   _ _ Sim.client "box" "numpy"
                                   (Scenario.w_box "exited")
                                   (Scenario.box_obj "exited")
                                   (w_engine (Scenario.w_box "exited")) eq_refl)))
                  _).
    discriminate.
Defined.

(** ** The loader: the directory, what is registered, and [sys.path] *)

(** X18. When the tools directory does not exist the loader prints one
    warning and does nothing else: nothing is listed, imported or
    registered, and the load does not fail. When the directory exists but
    listing it raises, the loader does not catch the error: it raises out
    of the load, with nothing registered. *)
Theorem X18_missing_or_unreadable_tools_directory :
  forall (here : string) (path_exists : string -> bool)
         (listdir : string -> result (list string))
         (import_module : string -> result PyModule)
         (tool_check : PyFunction -> result unit) (st : LoaderState),
    (path_exists (path_join here "tools") = false ->
     load_tools_dynamic here path_exists listdir import_module tool_check st
     = (Ok tt,
        mkLoader (sys_path st) (tools st)
                 (stderr st ++ ["⚠️ Warning: " ++ path_join here "tools"
                                  ++ " directory not found."])))
    /\ (forall ex,
           path_exists (path_join here "tools") = true ->
           listdir (path_join here "tools") = Raise ex ->
           load_tools_dynamic here path_exists listdir import_module tool_check st
           = (Raise ex, st)).
Proof.
  intros here path_exists listdir import_module tool_check st. split.
  - intros Hmissing. unfold load_tools_dynamic. rewrite Hmissing. reflexivity.
  - intros ex Hexists Hlist. unfold load_tools_dynamic. rewrite Hexists.
    cbn [negb]. unfold bind, lift. rewrite Hlist. reflexivity.
Qed.

(** X18 with no tools directory, and with one that cannot be read. *)
Lemma X18_tools_directory_witness :
  load_tools_dynamic "/srv/app" (fun _ => false) Scenario.tools_listing
                     Scenario.import_module Scenario.tool_check
                     Scenario.loader_start
  = (Ok tt,
     mkLoader ["/usr/lib/python3"] []
              ["⚠️ Warning: /srv/app/tools directory not found."])
  /\ load_tools_dynamic "/srv/app" (fun _ => true)
                        (fun _ => Raise (Exn OSError "[Errno 13] Permission denied"))
                        Scenario.import_module Scenario.tool_check
                        Scenario.loader_start
     = (Raise (Exn OSError "[Errno 13] Permission denied"), Scenario.loader_start).
Proof.
  split.
  - exact (proj1 (X18_missing_or_unreadable_tools_directory
                    "/srv/app" (fun _ => false) Scenario.tools_listing
                    Scenario.import_module Scenario.tool_check
                    Scenario.loader_start) eq_refl).
  - exact (proj2 (X18_missing_or_unreadable_tools_directory
                    "/srv/app" (fun _ => true)
                    (fun _ => Raise (Exn OSError "[Errno 13] Permission denied"))
                    Scenario.import_module Scenario.tool_check
                    Scenario.loader_start)
                 (Exn OSError "[Errno 13] Permission denied") eq_refl eq_refl).
Defined.

Lemma accepted_prefix_sound (tool_check : PyFunction -> result unit) :
  forall (funcs : list PyFunction) (d : ToolDescriptor),
    In d (fst (accepted_prefix tool_check funcs)) ->
    exists f, In f funcs /\ tool_check f = Ok tt /\ d = describe f.
Proof.
  induction funcs as [| f rest IH]; intros d Hin; [destruct Hin |].
  cbn [accepted_prefix] in Hin.
  destruct (tool_check f) as [[] |] eqn:Hf; [| destruct Hin].
  destruct (accepted_prefix tool_check rest) as [entries failure].
  cbn [fst] in Hin, IH. destruct Hin as [Heq | Hin].
  - exists f. split; [left; reflexivity | split; [exact Hf | symmetry; exact Heq]].
  - destruct (IH d Hin) as [g [Hg [Hok Hd]]].
    exists g. split; [right; exact Hg | split; assumption].
Qed.

Lemma load_file_tools_sound (here : string)
      (import_module : string -> result PyModule)
      (tool_check : PyFunction -> result unit)
      (filename : string) (st : LoaderState) (d : ToolDescriptor) :
  In d (tools (snd (load_file here import_module tool_check filename st))) ->
  In d (tools st)
  \/ exists module member,
       is_tool_file filename = true
       /\ import_module ("tools." ++ drop_last 3 filename) = Ok module
       /\ In member (mod_functions module)
       /\ qualifies module member = true
       /\ tool_check (snd member) = Ok tt
       /\ d = describe (snd member).
Proof.
  rewrite load_file_outcome. cbn [snd tools]. intros Hin.
  apply register_all_In in Hin. destruct Hin as [Hin | Hin]; [left; exact Hin |].
  right. unfold file_tools, file_outcome in Hin.
  destruct (is_tool_file filename); [| destruct Hin].
  destruct (import_module ("tools." ++ drop_last 3 filename)) as [module | e];
    [| destruct Hin].
  destruct (accepted_prefix_sound tool_check (qualifying module) d Hin)
    as [f [Hf [Hok Hd]]].
  unfold qualifying in Hf. apply in_map_iff in Hf. destruct Hf as [member [Hsnd Hmem]].
  apply filter_In in Hmem. destruct Hmem as [Hmem Hq].
  exists module, member. subst f. repeat split; assumption.
Qed.

Lemma load_files_tools_sound (here : string)
      (import_module : string -> result PyModule)
      (tool_check : PyFunction -> result unit) :
  forall (filenames : list string) (st : LoaderState) (d : ToolDescriptor),
    In d (tools (snd (load_files here import_module tool_check filenames st))) ->
    In d (tools st)
    \/ exists filename module member,
         In filename filenames
         /\ is_tool_file filename = true
         /\ import_module ("tools." ++ drop_last 3 filename) = Ok module
         /\ In member (mod_functions module)
         /\ qualifies module member = true
         /\ tool_check (snd member) = Ok tt
         /\ d = describe (snd member).
Proof.
  induction filenames as [| filename rest IH]; intros st d Hin.
  - left. exact Hin.
  - cbn [load_files] in Hin. unfold bind in Hin.
    pose proof (load_file_tools_sound here import_module tool_check filename st d)
      as Hfile.
    destruct (load_file here import_module tool_check filename st) as [[[] | e] st1].
    + destruct (IH st1 d Hin) as [Hold | [f [m [mem [Hf Hrest]]]]].
      * destruct (Hfile Hold) as [H0 | [m [mem Hm]]]; [left; exact H0 |].
        right. exists filename, m, mem. split; [left; reflexivity | exact Hm].
      * right. exists f, m, mem. split; [right; exact Hf | exact Hrest].
    + cbn [snd] in Hin, Hfile.
      destruct (Hfile Hin) as [H0 | [m [mem Hm]]]; [left; exact H0 |].
      right. exists filename, m, mem. split; [left; reflexivity | exact Hm].
Qed.

(** X19. Nothing gets into the tool table but what the loader's two tests
    let through: every entry found after a load was there before, or is a
    function of a module imported from a listed file whose name ends in
    [.py] and does not start with two underscores, defined in that module
    (its [__module__] is the module's name), listed under a name that does
    not start with an underscore, accepted by the server, and entered
    under the function's own name. This holds whatever is raised during
    the load. *)
Theorem X19_only_qualifying_functions_are_registered :
  forall (here : string) (path_exists : string -> bool)
         (listdir : string -> result (list string))
         (import_module : string -> result PyModule)
         (tool_check : PyFunction -> result unit)
         (st : LoaderState) (d : ToolDescriptor),
    In d (tools (snd (load_tools_dynamic here path_exists listdir import_module
                                         tool_check st))) ->
    In d (tools st)
    \/ exists filenames filename module member,
         listdir (path_join here "tools") = Ok filenames
         /\ In filename filenames
         /\ endswith filename ".py" = true
         /\ startswith filename "__" = false
         /\ import_module ("tools." ++ drop_last 3 filename) = Ok module
         /\ In member (mod_functions module)
         /\ fn___module__ (snd member) = mod___name__ module
         /\ startswith (fst member) "_" = false
         /\ tool_check (snd member) = Ok tt
         /\ tool_name d = fn___name__ (snd member)
         /\ tool_handler d = snd member.
Proof.
  intros here path_exists listdir import_module tool_check st d.
  unfold load_tools_dynamic.
  destruct (path_exists (path_join here "tools")); cbn [negb];
    [| intros H; left; exact H].
  unfold bind, lift.
  destruct (listdir (path_join here "tools")) as [filenames | e] eqn:Hlist;
    [| intros H; left; exact H].
  intros Hin.
  destruct (load_files_tools_sound here import_module tool_check filenames st d Hin)
    as [Hold | [filename [module [member [Hf [Hfile [Himp [Hmem [Hq [Hok Hd]]]]]]]]]];
    [left; exact Hold |].
  right. exists filenames, filename, module, member.
  unfold is_tool_file in Hfile. apply andb_prop in Hfile. destruct Hfile as [Hpy Hdunder].
  unfold qualifies in Hq. apply andb_prop in Hq. destruct Hq as [Hmod Hunder].
  apply String.eqb_eq in Hmod.
  apply negb_true_iff in Hdunder. apply negb_true_iff in Hunder.
  subst d. repeat split; assumption.
Qed.

(** X19 on the tool [pong] of the scenario's directory. *)
Lemma X19_registered_witness :
  In (describe (Scenario.fn "tools.good" "pong")) (tools (snd Scenario.loaded))
  /\ (In (describe (Scenario.fn "tools.good" "pong")) (tools Scenario.loader_start)
      \/ exists filenames filename module member,
           Scenario.tools_listing (path_join "/srv/app" "tools") = Ok filenames
           /\ In filename filenames
           /\ endswith filename ".py" = true
           /\ startswith filename "__" = false
           /\ Scenario.import_module ("tools." ++ drop_last 3 filename) = Ok module
           /\ In member (mod_functions module)
           /\ fn___module__ (snd member) = mod___name__ module
           /\ startswith (fst member) "_" = false
           /\ Scenario.tool_check (snd member) = Ok tt
           /\ tool_name (describe (Scenario.fn "tools.good" "pong"))
              = fn___name__ (snd member)
           /\ tool_handler (describe (Scenario.fn "tools.good" "pong")) = snd member).
Proof.
  assert (Hin : In (describe (Scenario.fn "tools.good" "pong"))
                   (tools (snd Scenario.loaded)))
    by (right; left; reflexivity).
  split; [exact Hin |].
  exact (X19_only_qualifying_functions_are_registered
           "/srv/app" (fun _ => true) Scenario.tools_listing Scenario.import_module
           Scenario.tool_check Scenario.loader_start
           (describe (Scenario.fn "tools.good" "pong")) Hin).
Defined.

Lemma load_file_sys_path (here : string)
      (import_module : string -> result PyModule)
      (tool_check : PyFunction -> result unit)
      (filename : string) (st : LoaderState) :
  sys_path (snd (load_file here import_module tool_check filename st))
  = if is_tool_file filename then path_ensured here (sys_path st) else sys_path st.
Proof. rewrite load_file_outcome. reflexivity. Qed.

Lemma load_files_sys_path (here : string)
      (import_module : string -> result PyModule)
      (tool_check : PyFunction -> result unit) :
  forall (filenames : list string) (st : LoaderState),
    sys_path (snd (load_files here import_module tool_check filenames st))
    = if existsb is_tool_file filenames
      then path_ensured here (sys_path st) else sys_path st.
Proof.
  induction filenames as [| filename rest IH]; intros st; [reflexivity |].
  cbn [load_files existsb]. unfold bind.
  pose proof (load_file_sys_path here import_module tool_check filename st) as Hfile.
  destruct (load_file here import_module tool_check filename st)
    as [[[] | e] st1] eqn:Hload; cbn [snd] in Hfile |- *.
  - rewrite IH, Hfile. destruct (is_tool_file filename); cbn [orb].
    + rewrite path_ensured_idempotent. destruct (existsb is_tool_file rest); reflexivity.
    + reflexivity.
  - rewrite Hfile. destruct (is_tool_file filename) eqn:Hf; cbn [orb]; [reflexivity |].
    unfold load_file in Hload. rewrite Hf in Hload. discriminate Hload.
Qed.

(** X20. The loader puts its own directory on [sys.path] when the first
    tool file comes up, at the end, unless it is there already, and never
    a second time: after a load that found a tool file the directory is on
    the path, a path without repetitions stays without, and a load that
    found no tool file leaves the path as it was. *)
Theorem X20_sys_path_gets_the_directory_once :
  forall (here : string) (path_exists : string -> bool)
         (listdir : string -> result (list string))
         (import_module : string -> result PyModule)
         (tool_check : PyFunction -> result unit)
         (filenames : list string) (st : LoaderState),
    path_exists (path_join here "tools") = true ->
    listdir (path_join here "tools") = Ok filenames ->
    let after := sys_path (snd (load_tools_dynamic here path_exists listdir
                                                   import_module tool_check st)) in
    after = (if existsb is_tool_file filenames
             then path_ensured here (sys_path st) else sys_path st)
    /\ (existsb is_tool_file filenames = true -> In here after)
    /\ (NoDup (sys_path st) -> NoDup after).
Proof.
  intros here path_exists listdir import_module tool_check filenames st
         Hexists Hlist after.
  assert (Hafter : after = (if existsb is_tool_file filenames
                            then path_ensured here (sys_path st) else sys_path st)).
  { subst after. unfold load_tools_dynamic. rewrite Hexists. cbn [negb].
    unfold bind, lift. rewrite Hlist. apply load_files_sys_path. }
  split; [exact Hafter | split].
  - intros Hsome. rewrite Hafter, Hsome. unfold path_ensured.
    destruct (existsb (String.eqb here) (sys_path st)) eqn:Hin.
    + apply existsb_exists in Hin. destruct Hin as [x [Hx Heq]].
      apply String.eqb_eq in Heq. subst x. exact Hx.
    + apply in_or_app. right. left. reflexivity.
  - intros Hnodup. rewrite Hafter.
    destruct (existsb is_tool_file filenames); [| exact Hnodup].
    unfold path_ensured.
    destruct (existsb (String.eqb here) (sys_path st)) eqn:Hin; [exact Hnodup |].
    apply NoDup_app; [exact Hnodup | constructor; [intros [] | constructor] |].
    intros x Hx [Heq | []]. subst x.
    assert (Hyes : existsb (String.eqb here) (sys_path st) = true).
    { apply existsb_exists. exists here. split; [exact Hx | apply String.eqb_refl]. }
    rewrite Hyes in Hin. discriminate Hin.
Qed.

(** X20 on the scenario's directory. *)
Lemma X20_sys_path_witness :
  sys_path (snd Scenario.loaded) = ["/usr/lib/python3"; "/srv/app"]
  /\ In "/srv/app" (sys_path (snd Scenario.loaded))
  /\ NoDup (sys_path (snd Scenario.loaded)).
Proof.
  destruct (X20_sys_path_gets_the_directory_once
              "/srv/app" (fun _ => true) Scenario.tools_listing
              Scenario.import_module Scenario.tool_check
              ["broken.py"; "__init__.py"; "good.py"; "half.py"; "notes.txt"]
              Scenario.loader_start eq_refl eq_refl) as [Heq [Hin Hnodup]].
  split; [exact Heq | split; [exact (Hin eq_refl) |]].
  apply Hnodup. repeat constructor; intros [].
Defined.

(** ** Start-up *)

(** X21. A [docker.from_env()] that raises an [Exception] does not stop
    the module from loading: the client is left absent, and from then on
    the tools answer "not connected". An exception outside [Exception] is
    not caught and stops the import. *)
Theorem X21_startup_without_engine :
  forall (E F : Type) (ex : exn),
    (is_Exception ex = true ->
     exists _client,
       init_client (@Raise (DockerClient E) ex) = Ok _client
       /\ forall (w : World E F) all ref command workdir,
            docker_list_containers _client all w = (Ok not_connected, w)
            /\ docker_exec_run _client ref command workdir w = (Ok not_connected, w))
    /\ (is_Exception ex = false ->
        init_client (@Raise (DockerClient E) ex) = Raise ex).
Proof.
  intros E F ex. split; intros Hex; unfold init_client, catch_Exception; rewrite Hex.
  - exists None. split; [reflexivity |]. intros. split; reflexivity.
  - reflexivity.
Qed.

(** X21 on a refused connection. *)
Lemma X21_startup_witness :
  exists _client,
    init_client (@Raise (DockerClient Sim.Engine)
                        (Exn DockerAPIError "Error while fetching server API version"))
    = Ok _client
    /\ forall (w : World Sim.Engine Sim.Fs) all ref command workdir,
         docker_list_containers _client all w = (Ok not_connected, w)
         /\ docker_exec_run _client ref command workdir w = (Ok not_connected, w).
Proof.
  exact (proj1 (X21_startup_without_engine
                  Sim.Engine Sim.Fs
                  (Exn DockerAPIError "Error while fetching server API version"))
               eq_refl).
Defined.

(** ** Pulling and deleting an image *)

(** X22. A pull reports the first tag of the image the engine returns,
    which need not be the name asked for; a deletion passes the force flag
    on to the engine and reports the name as it was given, or the
    deletion-failed text with the engine's message. Each is one engine
    call. *)
Theorem X22_pull_and_delete_outcomes :
  forall (E F : Type) (cl : DockerClient E) (name : string) (w : World E F),
    (forall img e1 tag more,
        images_pull cl name (w_engine w) = (Ok img, e1) ->
        img_tags img = tag :: more ->
        docker_pull_image (Some cl) name w
        = (Ok ("✅ 拉取成功: " ++ tag),
           mkWorld e1 (w_fs w) (w_log w ++ [CallImagesPull name])))
    /\ (forall force,
           docker_delete_image (Some cl) name force w
           = (rendered (fst (images_remove cl name force (w_engine w)))
                       ("🗑️ 镜像已删除: " ++ name) "❌ 删除失败: ",
              mkWorld (snd (images_remove cl name force (w_engine w))) (w_fs w)
                      (w_log w ++ [CallImagesRemove name force]))).
Proof.
  intros E F cl name w. split.
  - intros img e1 tag more Hpull Htags.
    unfold docker_pull_image. rewrite check_client_present.
    cbv beta iota delta [truthy try_except bind client_attr ret lift raise
                           engine_call catch_Exception].
    rewrite Hpull, Htags. reflexivity.
  - intros force.
    unfold docker_delete_image. rewrite check_client_present.
    cbv beta iota delta [truthy try_except bind client_attr ret lift raise
                           engine_call catch_Exception rendered].
    destruct (images_remove cl name force (w_engine w)) as [[[] | ex] e1];
      cbn [fst snd]; [| destruct (is_Exception ex)]; reflexivity.
Qed.

(** X22 on a pull by a name and a tag. *)
Lemma X22_pull_witness :
  fst (docker_pull_image Scenario.cl "python:3.11" Scenario.w_empty)
  = Ok "✅ 拉取成功: python:3.11".
Proof.
  exact (f_equal fst
           (proj1 (X22_pull_and_delete_outcomes
                     _ _ Sim.client "python:3.11" Scenario.w_empty)
                  {| img_tags := ["python:3.11"]; img_Size := Some 0%Z |}
                  (snd (images_pull Sim.client "python:3.11" Sim.empty_engine))
                  "python:3.11" [] eq_refl eq_refl)).
Defined.
